(** * Attendance sessions: session store, token check, policy resolution,
      IPv4 allowlist matching and the mark-attendance pipeline.

    Shallow embedding of
      - the QR generator (generateQRCode, getSessionDetails, validateSession),
      - the server part of backend/models/Course.js (verify-attendance,
        normalizeAttendancePolicy, ipv4ToInt, isIpv4CidrMatch,
        isIpAllowedByAllowlist, validateSignatureDataUrl, mark-attendance),
      - the course routes (buildAttendancePolicy, mapAttendancePolicy,
        normalizeDeliveryMode, normalizeEnrollmentRow, parsePagination,
        normalizeTime, toMinutes, evaluateCourseSchedule and the schedule
        checks of course creation),
      - the authentication and institution middleware (createAuthToken,
        verifyAuthToken, requireAuth, requireRoles,
        resolveInstitutionIdForRequest),
      - the teacher-facing routes of the server (generate-qr,
        validate-session, attendance by date with
        buildCourseScopedFilter, consistentHashJS),
      - backend/models/Attendance.js and User.js (the indexes of the
        collections, the required paths and the casts of the attendance
        schema) and the attendancePolicy sub-document of the Course
        schema.

    Conventions of the embedding.
      - A JS string is a [string] of 8-bit characters, read as ASCII text:
        whitespace is 9..13 and 32, case mapping touches A-Z / a-z only.
      - A JS number that the code only compares or clamps is a rational [Q];
        a number on which the code uses the 32-bit operators is a [Z] with the
        wrap-around of ToInt32 / ToUint32 written out.
      - Builtins whose result is computed by the runtime (the string-to-number
        conversion [Number], [net.isIP], the SHA-256 digests, the base64
        decoder, [encodeURIComponent], the regular-expression engine of the
        data store, its cast of a text to an ObjectId, the haversine helper)
        and the process environment are the
        fields of the class [Builtins]; the operations are written over an
        arbitrary instance, and every general theorem holds for each of
        them.  One concrete instance runs the examples.
      - [Date.now()], the calendar date and [crypto.randomBytes] are inputs
        of the operations. *)

From Stdlib Require Import ZArith QArith Qabs Qround List Bool Lia.
From Stdlib Require Import Strings.String Strings.Ascii Numbers.DecimalString.
From stdpp Require Import gmap strings.

Import ListNotations.
Local Open Scope string_scope.
Local Open Scope list_scope.
Local Open Scope Z_scope.

(** ** JS string primitives *)

Module JsString.

Definition is_space (c : ascii) : bool :=
  let n := nat_of_ascii c in
  ((9 <=? n)%nat && (n <=? 13)%nat) || (n =? 32)%nat.

Definition is_upper (c : ascii) : bool :=
  let n := nat_of_ascii c in (65 <=? n)%nat && (n <=? 90)%nat.

Definition is_lower (c : ascii) : bool :=
  let n := nat_of_ascii c in (97 <=? n)%nat && (n <=? 122)%nat.

Definition is_digit (c : ascii) : bool :=
  let n := nat_of_ascii c in (48 <=? n)%nat && (n <=? 57)%nat.

Definition lower_char (c : ascii) : ascii :=
  if is_upper c then ascii_of_nat (nat_of_ascii c + 32) else c.

Definition upper_char (c : ascii) : ascii :=
  if is_lower c then ascii_of_nat (nat_of_ascii c - 32) else c.

Fixpoint map_chars (f : ascii -> ascii) (s : string) : string :=
  match s with
  | EmptyString => EmptyString
  | String c r => String (f c) (map_chars f r)
  end.

(** [s.toLowerCase()], [s.toUpperCase()] *)
Definition toLowerCase : string -> string := map_chars lower_char.
Definition toUpperCase : string -> string := map_chars upper_char.

Fixpoint trimStart (s : string) : string :=
  match s with
  | String c r => if is_space c then trimStart r else s
  | EmptyString => EmptyString
  end.

Fixpoint all_space (s : string) : bool :=
  match s with
  | EmptyString => true
  | String c r => is_space c && all_space r
  end.

Fixpoint trimEnd (s : string) : string :=
  match s with
  | EmptyString => EmptyString
  | String c r => if all_space s then EmptyString else String c (trimEnd r)
  end.

(** [s.trim()] *)
Definition trim (s : string) : string := trimEnd (trimStart s).

(** [s.split(sep)] for a one-character separator: never empty. *)
Fixpoint split (sep : ascii) (s : string) : list string :=
  match s with
  | EmptyString => [EmptyString]
  | String c r =>
      if Ascii.eqb c sep then EmptyString :: split sep r
      else match split sep r with
           | h :: t => String c h :: t
           | [] => [String c EmptyString]
           end
  end.

(** [s.includes(c)] for a one-character needle. *)
Fixpoint includes (c : ascii) (s : string) : bool :=
  match s with
  | EmptyString => false
  | String d r => Ascii.eqb d c || includes c r
  end.

(** [s.startsWith(p)] *)
Fixpoint startsWith (p s : string) : bool :=
  match p, s with
  | EmptyString, _ => true
  | String a p', String b s' => Ascii.eqb a b && startsWith p' s'
  | String _ _, EmptyString => false
  end.

(** [s.slice(n)] for [0 <= n] *)
Fixpoint slice (n : nat) (s : string) : string :=
  match n, s with
  | O, _ => s
  | S n', String _ r => slice n' r
  | S _, EmptyString => EmptyString
  end.

(** Truthiness of a string: [!s] is [true] exactly on the empty string. *)
Definition truthy (s : string) : bool :=
  match s with EmptyString => false | _ => true end.

(** [/\s+/g -> " "]: every maximal run of whitespace becomes one space. *)
Fixpoint collapse_spaces (s : string) : string :=
  match s with
  | EmptyString => EmptyString
  | String c r =>
      if is_space c then
        match r with
        | String d _ => if is_space d then collapse_spaces r
                        else String " " (collapse_spaces r)
        | EmptyString => String " " EmptyString
        end
      else String c (collapse_spaces r)
  end.

End JsString.

(** ** JS numbers *)

Module JsNum.

(** The value of [Number(x)]: a finite double, read as the rational it
    denotes, or one of NaN, +Infinity, -Infinity. *)
Inductive t : Type :=
| Finite (q : Q)
| NaN
| PosInf
| NegInf.

(** [Number.isInteger(n)], together with the integer when it holds. *)
Definition integer (n : t) : option Z :=
  match n with
  | Finite q =>
      if (Qnum q mod Zpos (Qden q) =? 0) then Some (Qnum q / Zpos (Qden q))
      else None
  | _ => None
  end.

(** [Number.isFinite(n)], together with the value when it holds. *)
Definition finite (n : t) : option Q :=
  match n with
  | Finite q => Some q
  | _ => None
  end.

(** [a > b] on numbers: false as soon as one side is NaN. *)
Definition gt (a : t) (b : Q) : bool :=
  match a with
  | Finite q => negb (Qle_bool q b)
  | PosInf => true
  | NaN | NegInf => false
  end.

(** ToInt32 and ToUint32 on integers. *)
Definition toUint32 (z : Z) : Z := z mod 2 ^ 32.
Definition toInt32 (z : Z) : Z :=
  let u := toUint32 z in if u <? 2 ^ 31 then u else u - 2 ^ 32.

(** [a << b], [a >>> 0], [a & b] *)
Definition shl (a b : Z) : Z := toInt32 (Z.shiftl (toInt32 a) (Z.land (toUint32 b) 31)).
Definition ushr0 (a : Z) : Z := toUint32 a.
Definition band (a b : Z) : Z := toInt32 (Z.land (toInt32 a) (toInt32 b)).

(** An instance of the conversion [Number(s)] for running examples:
    surrounding whitespace is dropped, the empty string is [0], an
    optionally signed run of decimal digits is that integer.  On these
    inputs it agrees with the StringToNumber grammar; every other string
    is classified as NaN here (the grammar also has fractions,
    exponents, radix prefixes and [Infinity], which the examples of this
    file do not use). *)
Fixpoint digits_value (acc : Z) (s : string) : option Z :=
  match s with
  | EmptyString => Some acc
  | String c r =>
      if JsString.is_digit c
      then digits_value (10 * acc + (Z.of_nat (nat_of_ascii c) - 48)) r
      else None
  end.

Definition Number_decimal (s : string) : t :=
  match JsString.trim s with
  | EmptyString => Finite 0
  | String c r =>
      let signed (sg : Z) (body : string) :=
        match body with
        | EmptyString => NaN
        | _ => match digits_value 0 body with
               | Some v => Finite (inject_Z (sg * v))
               | None => NaN
               end
        end in
      if Ascii.eqb c "-" then signed (-1) r
      else if Ascii.eqb c "+" then signed 1 r
      else signed 1 (String c r)
  end.

End JsNum.

(** ** The runtime the operations run on *)

Class Builtins : Type := {
  (** [Number(s)] on a string *)
  Number : string -> JsNum.t;
  (** [net.isIP(s) !== 0] *)
  net_isIP : string -> bool;
  (** [crypto.createHash('sha256').update(s).digest('hex')] *)
  crypto_sha256 : string -> string;
  (** the server's [sha256] helper: the external SHA256 program, or the
      crypto module when the program fails *)
  sha256 : string -> string;
  (** [encodeURIComponent(s)] *)
  encodeURIComponent : string -> string;
  (** [Buffer.from(s, "base64").length] *)
  base64_decoded_length : string -> Z;
  (** [getDistanceFromLatLngInMeters(lat1, lng1, lat2, lng2)]: the external
      Haversine program's output through [parseFloat], or the in-process
      formula when the program fails *)
  getDistanceFromLatLngInMeters : Q -> Q -> Q -> Q -> JsNum.t;
  (** [String(n)] of a finite number and [n.toFixed(0)], as interpolated
      into messages *)
  number_to_string : Q -> string;
  toFixed0 : JsNum.t -> string;
  (** the data store's test of [new RegExp('^' + escapeRegex(name) + '$', 'i')]
      against a stored value *)
  regex_exact_i : string -> string -> bool;
  (** whether the data store's library casts the text to an ObjectId (it
      does for 24 hexadecimal digits); a text that does not cast makes the
      query or the [create] that holds it throw a CastError *)
  ObjectId_casts : string -> bool;
  (** [process.env.QR_SECRET_KEY], empty when unset *)
  QR_SECRET_KEY : string;
  (** [process.env.ATTENDANCE_REQUIRE_ENROLLMENT !== "false"] *)
  ATTENDANCE_REQUIRE_ENROLLMENT : bool
}.

(** Decimal rendering of an integer, as [String(n)] gives it for the
    integers the code concatenates into strings (millisecond timestamps). *)
Definition decimal (z : Z) : string :=
  DecimalString.NilZero.string_of_int (Z.to_int z).

(** ** Network primitives: IPv4 allowlist matching (server part of Course.js) *)

Module Network.
Import JsString.

Section Operations.

Context {rt : Builtins}.

(** normalizeClientIp: first comma-separated hop, trimmed, lower-cased,
    with a mapped-IPv6 prefix stripped. *)
Definition normalizeClientIp (value : string) : string :=
  let first := toLowerCase (trim (hd EmptyString (split "," value))) in
  if negb (truthy first) then EmptyString
  else if startsWith "::ffff:" first then slice 7 first else first.

(** One turn of the loop of ipv4ToInt; [None] is the early [return null]. *)
Definition ipv4_step (acc : option Z) (part : string) : option Z :=
  match acc with
  | None => None
  | Some value =>
      match JsNum.integer (Number part) with
      | None => None
      | Some numeric =>
          if (numeric <? 0) || (numeric >? 255) then None
          else Some (JsNum.shl value 8 + numeric)
      end
  end.

Definition ipv4ToInt (ipv4 : string) : option Z :=
  let parts := split "." ipv4 in
  if negb (Nat.eqb (List.length parts) 4) then None
  else match fold_left ipv4_step parts (Some 0) with
       | None => None
       | Some value => Some (JsNum.ushr0 value)
       end.

(** [Number(prefixLengthRaw)] where the second piece of the split may be
    [undefined]; [Number(undefined)] is NaN. *)
Definition prefix_number (prefixLengthRaw : option string) : JsNum.t :=
  match prefixLengthRaw with
  | Some s => Number s
  | None => JsNum.NaN
  end.

Definition isIpv4CidrMatch (ip cidr : string) : bool :=
  let pieces := split "/" cidr in
  let baseIp := hd EmptyString pieces in
  let prefixLengthRaw := nth_error pieces 1 in
  match JsNum.integer (prefix_number prefixLengthRaw) with
  | None => false
  | Some prefixLength =>
      if (prefixLength <? 0) || (prefixLength >? 32) then false
      else
        match ipv4ToInt ip, ipv4ToInt baseIp with
        | Some ipInt, Some baseInt =>
            let mask :=
              if prefixLength =? 0 then 0
              else JsNum.ushr0 (JsNum.shl 4294967295 (32 - prefixLength)) in
            JsNum.band ipInt mask =? JsNum.band baseInt mask
        | _, _ => false
        end
  end.

(** The callback of [allowlist.some]. *)
Definition entry_allows (ip entryRaw : string) : bool :=
  let entry := normalizeClientIp entryRaw in
  if negb (truthy entry) then false
  else if includes "/" entry then isIpv4CidrMatch ip entry
  else if net_isIP ip && net_isIP entry && String.eqb ip entry then true
  else String.eqb ip entry.

Definition isIpAllowedByAllowlist (clientIp : string) (allowlist : list string) : bool :=
  let ip := normalizeClientIp clientIp in
  if negb (truthy ip) || Nat.eqb (List.length allowlist) 0 then false
  else existsb (entry_allows ip) allowlist.

(** The specification's reading of an address: four dot-separated
    parts, each denoting an integer octet between 0 and 255; the value
    is the 32-bit address.  [None] is a malformed address. *)
Definition octet (part : string) : option Z :=
  match JsNum.integer (Number part) with
  | Some n => if (0 <=? n) && (n <=? 255) then Some n else None
  | None => None
  end.

Definition dotted_quad (s : string) : option Z :=
  match split "." s with
  | [p1; p2; p3; p4] =>
      match octet p1, octet p2, octet p3, octet p4 with
      | Some a, Some b, Some c, Some d => Some (((a * 256 + b) * 256 + c) * 256 + d)
      | _, _, _, _ => None
      end
  | _ => None
  end.

(** The specification's reading of the prefix of an entry [base/prefix]:
    an integer between 0 and 32.  [None] is a missing or malformed
    prefix. *)
Definition cidr_prefix (cidr : string) : option Z :=
  match nth_error (split "/" cidr) 1 with
  | Some raw =>
      match JsNum.integer (Number raw) with
      | Some p => if (0 <=? p) && (p <=? 32) then Some p else None
      | None => None
      end
  | None => None
  end.

Definition cidr_base (cidr : string) : string := hd EmptyString (split "/" cidr).

(** The specification's malformed inputs, read on the text.  A decimal
    numeral is a run of one to fifteen decimal digits (a double holds
    its value exactly). *)
Definition decimal_numeral (s : string) : option Z :=
  if truthy s && Nat.leb (String.length s) 15 then JsNum.digits_value 0 s else None.

(** A malformed octet ([max] is 255) or prefix ([max] is 32): a decimal
    numeral above [max], or a text that is no decimal numeral and that
    [Number] does not read as an integer between 0 and [max].  A text
    that is no decimal numeral and that [Number] does read as such an
    integer (the empty text, which it reads as 0, or a numeral between
    spaces) is not counted: the code takes it for that integer. *)
Definition malformed_number (max : Z) (s : string) : bool :=
  match decimal_numeral s with
  | Some n => max <? n
  | None =>
      match JsNum.integer (Number s) with
      | Some n => (n <? 0) || (max <? n)
      | None => true
      end
  end.

(** A malformed address: not four dot-separated parts, or a malformed
    octet among them. *)
Definition malformed_address (s : string) : bool :=
  negb (Nat.eqb (List.length (split "." s)) 4)
  || existsb (malformed_number 255) (split "." s).

(** A malformed entry [base/prefix]: a malformed base, no prefix, or a
    malformed prefix. *)
Definition malformed_cidr (cidr : string) : bool :=
  malformed_address (cidr_base cidr)
  || match nth_error (split "/" cidr) 1 with
     | Some raw => malformed_number 32 raw
     | None => true
     end.

End Operations.

(** The mask the specification speaks of: the top [p] of 32 bits set. *)
Definition mask_top_bits (p : Z) : Z := Z.shiftl (Z.ones p) (32 - p).

(** The mask the code builds for a prefix length. *)
Definition code_mask (p : Z) : Z :=
  if p =? 0 then 0 else JsNum.ushr0 (JsNum.shl 4294967295 (32 - p)).

End Network.

(** ** The QR generator: session store and issuance cache *)

Module QrGenerator.
Import JsString.

(** [1.5 * 60 * 1000] and [90000], in milliseconds *)
Definition QR_CODE_VALIDITY : Z := 90000.
Definition CACHE_TIME : Z := 90000.

(** The context the server passes at issuance; an empty string stands for
    a missing (falsy) field. *)
Record SessionContext : Type := {
  ctx_generatedBy : string;
  ctx_generatedByRole : string;
  ctx_generatedByName : string;
  ctx_institutionId : string;
  ctx_courseId : string;
  ctx_courseCode : string;
  ctx_courseName : string;
  ctx_section : string
}.

(** [x || null] *)
Definition or_null (s : string) : option string :=
  if truthy s then Some s else None.

(** A value of the map [activeSessions]. *)
Record SessionRecord : Type := {
  ip : string;
  expiresAt : Z;
  createdAt : Z;
  generatedBy : option string;
  generatedByRole : option string;
  generatedByName : option string;
  institutionId : option string;
  courseId : option string;
  courseCode : option string;
  courseName : option string;
  section : option string
}.

Record ResultContext : Type := {
  rc_institutionId : option string;
  rc_courseId : option string;
  rc_courseCode : option string;
  rc_courseName : option string;
  rc_section : option string
}.

(** What generateQRCode returns. *)
Record QrResult : Type := {
  qrImage : string;
  sessionId : string;
  expiresIn : Z;
  sessionContext : ResultContext
}.

(** A value of the map [ipCache]. *)
Record CacheEntry : Type := {
  data : QrResult;
  timestamp : Z
}.

(** The JSON object encoded into the QR image. *)
Record QrData : Type := {
  qd_sessionId : string;
  qd_timestamp : Z;
  qd_hash : string
}.

(** The module state: the two maps, the pending [setTimeout] callbacks
    (due time and session to delete) and the payload of each image file
    written. *)
Record State : Type := {
  activeSessions : gmap string SessionRecord;
  ipCache : gmap string CacheEntry;
  timers : list (Z * string);
  qrFiles : list (string * QrData)
}.

Definition initial : State :=
  {| activeSessions := ∅; ipCache := ∅; timers := []; qrFiles := [] |}.

Definition makeCacheKey (ipAddress : string) (c : SessionContext) : string :=
  ipAddress +:+ "|" +:+ ctx_institutionId c +:+ "|" +:+ ctx_generatedBy c
    +:+ "|" +:+ ctx_courseId c +:+ "|" +:+ ctx_section c.

(** [buf.toString('hex')] *)
Definition hex_digit (n : N) : ascii :=
  if (n <? 10)%N then ascii_of_N (48 + n) else ascii_of_N (87 + n).

Definition hex_of_byte (b : Byte.byte) : string :=
  let n := Byte.to_N b in
  String (hex_digit (n / 16)%N) (String (hex_digit (n mod 16)%N) EmptyString).

Fixpoint toHex (bytes : list Byte.byte) : string :=
  match bytes with
  | [] => EmptyString
  | b :: r => hex_of_byte b +:+ toHex r
  end.

(** Reading a hexadecimal string back, two characters a byte; [None] on
    other text. *)
Definition hex_value (c : ascii) : option N :=
  let n := N_of_ascii c in
  if ((48 <=? n) && (n <=? 57))%N then Some (n - 48)%N
  else if ((97 <=? n) && (n <=? 102))%N then Some (n - 87)%N
  else None.

Fixpoint fromHex (fuel : nat) (s : string) : option (list Byte.byte) :=
  match fuel, s with
  | _, EmptyString => Some []
  | S k, String hi (String lo r) =>
      match hex_value hi, hex_value lo, fromHex k r with
      | Some h, Some l, Some rest =>
          match Byte.of_N (16 * h + l) with
          | Some b => Some (b :: rest)
          | None => None
          end
      | _, _, _ => None
      end
  | _, _ => None
  end.

(** The readings of [Date.now()] during one call, in program order, and
    what the call draws from the outside. *)
Record Draw : Type := {
  now_check : Z;          (** at the cache test *)
  now_stamp : Z;          (** [timestamp] *)
  now_timer : Z;          (** when [setTimeout] is called *)
  now_cache : Z;          (** at [ipCache.set] *)
  randomBytes16 : list Byte.byte;  (** [crypto.randomBytes(16)] *)
  toFile_ok : bool        (** whether [QRCode.toFile] resolves *)
}.

Section Operations.
Context {rt : Builtins}.

Definition secretKey : string :=
  if truthy QR_SECRET_KEY then QR_SECRET_KEY else "default-secret-key".

(** The fresh branch of generateQRCode. *)
Definition issue (ipAddress : string) (c : SessionContext) (d : Draw) (st : State)
  : option QrResult * State :=
  let cacheKey := makeCacheKey ipAddress c in
  let sessionId := toHex (randomBytes16 d) in
  let timestamp := now_stamp d in
  let hash := crypto_sha256 (sessionId +:+ decimal timestamp +:+ secretKey) in
  let fileName := "qr_" +:+ decimal timestamp +:+ ".png" in
  if negb (toFile_ok d) then (None, st)
  else
    let sessionRecord :=
      {| ip := ipAddress;
         expiresAt := timestamp + QR_CODE_VALIDITY;
         createdAt := timestamp;
         generatedBy := or_null (ctx_generatedBy c);
         generatedByRole := or_null (ctx_generatedByRole c);
         generatedByName := or_null (ctx_generatedByName c);
         institutionId := or_null (ctx_institutionId c);
         courseId := or_null (ctx_courseId c);
         courseCode := or_null (ctx_courseCode c);
         courseName := or_null (ctx_courseName c);
         section := or_null (ctx_section c) |} in
    let result :=
      {| qrImage := "/qrcodes/" +:+ fileName;
         sessionId := sessionId;
         expiresIn := QR_CODE_VALIDITY;
         sessionContext :=
           {| rc_institutionId := institutionId sessionRecord;
              rc_courseId := courseId sessionRecord;
              rc_courseCode := courseCode sessionRecord;
              rc_courseName := courseName sessionRecord;
              rc_section := section sessionRecord |} |} in
    (Some result,
     {| activeSessions := <[sessionId := sessionRecord]> (activeSessions st);
        ipCache := <[cacheKey := {| data := result; timestamp := now_cache d |}]> (ipCache st);
        timers := timers st ++ [(now_timer d + QR_CODE_VALIDITY, sessionId)];
        qrFiles := qrFiles st ++
                   [(fileName, {| qd_sessionId := sessionId;
                                  qd_timestamp := timestamp;
                                  qd_hash := hash |})] |}).

(** generateQRCode: [None] is the rethrown error. *)
Definition generateQRCode (ipAddress : string) (c : SessionContext) (d : Draw) (st : State)
  : option QrResult * State :=
  match ipCache st !! makeCacheKey ipAddress c with
  | Some cached =>
      if now_check d - timestamp cached <? CACHE_TIME then (Some (data cached), st)
      else issue ipAddress c d st
  | None => issue ipAddress c d st
  end.

(** getSessionDetails: the session id with the stored record, or [null]. *)
Definition getSessionDetails (now : Z) (sessionId : string) (st : State)
  : option (string * SessionRecord) * State :=
  match activeSessions st !! sessionId with
  | None => (None, st)
  | Some session =>
      if now >? expiresAt session then
        (None,
         {| activeSessions := delete sessionId (activeSessions st);
            ipCache := ipCache st;
            timers := timers st;
            qrFiles := qrFiles st |})
      else (Some (sessionId, session), st)
  end.

Definition validateSession (now : Z) (sessionId : string) (st : State) : bool * State :=
  let (session, st') := getSessionDetails now sessionId st in
  (match session with Some _ => true | None => false end, st').

(** The [setTimeout] callbacks that are due at [now] run. *)
Definition runTimers (now : Z) (st : State) : State :=
  let due := List.filter (fun t => fst t <=? now) (timers st) in
  {| activeSessions := fold_left (fun m t => delete (snd t) m) due (activeSessions st);
     ipCache := ipCache st;
     timers := List.filter (fun t => negb (fst t <=? now)) (timers st);
     qrFiles := qrFiles st |}.

End Operations.

End QrGenerator.

(** ** Attendance policies *)

Module Policy.
Import JsString.

(** A scalar JSON value as it reaches the resolvers. *)
Inductive JsValue : Type :=
| JUndefined
| JNull
| JBool (b : bool)
| JNumber (n : JsNum.t)
| JString (s : string).

(** The [ipAllowlist] field: missing, present but not an array, or an
    array of strings. *)
Inductive RawList : Type :=
| LUndefined
| LNotArray
| LArray (entries : list string).

Record RawGeofence : Type := {
  raw_lat : JsValue;
  raw_lng : JsValue;
  raw_radiusMeters : JsValue
}.

(** A raw policy object; [raw_geofence = None] when the field is not an
    object. *)
Record RawPolicy : Type := {
  raw_singleDevicePerDay : JsValue;
  raw_requireSignature : JsValue;
  raw_requireEnrollment : JsValue;
  raw_requireIpAllowlist : JsValue;
  raw_ipAllowlist : RawList;
  raw_requireGeofence : JsValue;
  raw_geofence : option RawGeofence
}.

(** The empty object [{}]. *)
Definition empty_raw : RawPolicy :=
  {| raw_singleDevicePerDay := JUndefined;
     raw_requireSignature := JUndefined;
     raw_requireEnrollment := JUndefined;
     raw_requireIpAllowlist := JUndefined;
     raw_ipAllowlist := LUndefined;
     raw_requireGeofence := JUndefined;
     raw_geofence := None |}.

Definition empty_geofence : RawGeofence :=
  {| raw_lat := JUndefined; raw_lng := JUndefined; raw_radiusMeters := JUndefined |}.

Record Geofence : Type := {
  lat : option Q;
  lng : option Q;
  radiusMeters : Q
}.

Record AttendancePolicy : Type := {
  deliveryMode : string;
  singleDevicePerDay : bool;
  requireSignature : bool;
  requireEnrollment : bool;
  requireIpAllowlist : bool;
  ipAllowlist : list string;
  requireGeofence : bool;
  geofence : Geofence
}.

(** An [Error] with [error.status = 400]. *)
Record HttpError : Type := { status : Z; message : string }.

Definition member (s : string) (l : list string) : bool :=
  existsb (String.eqb s) l.

(** [[...new Set(l)]]: first occurrences, in order. *)
Fixpoint dedupe (seen l : list string) : list string :=
  match l with
  | [] => []
  | x :: r => if member x seen then dedupe seen r else x :: dedupe (x :: seen) r
  end.

Definition normalizeIpAllowlist (value : RawList) : list string :=
  match value with
  | LArray entries => dedupe [] (List.filter truthy (map trim entries))
  | _ => []
  end.

Definition COURSE_DELIVERY_MODES : list string := ["in_person"; "online"; "hybrid"].

(** The server's normalizeDeliveryMode (falls back instead of throwing). *)
Definition normalizeDeliveryMode (value : string) : string :=
  let normalized := toLowerCase (trim value) in
  if negb (truthy normalized) then "in_person"
  else if negb (member normalized COURSE_DELIVERY_MODES) then "in_person"
  else normalized.

Section Operations.
Context {rt : Builtins}.

(** The words [String(value).trim().toLowerCase()] is looked up in,
    decided on the value: a number prints as "1" or "0" exactly when it
    is 1 or 0. *)
Definition normalizeBoolean (value : JsValue) (fallback : bool) : bool :=
  match value with
  | JUndefined | JNull => fallback
  | JBool b => b
  | JString s =>
      if negb (truthy s) then fallback
      else
        let normalized := toLowerCase (trim s) in
        if member normalized ["true"; "1"; "yes"; "on"] then true
        else if member normalized ["false"; "0"; "no"; "off"] then false
        else fallback
  | JNumber (JsNum.Finite q) =>
      if Qeq_bool q 1 then true else if Qeq_bool q 0 then false else fallback
  | JNumber _ => fallback
  end.

Definition toNullableNumber (value : JsValue) : option Q :=
  match value with
  | JUndefined | JNull => None
  | JBool b => Some (if b then 1%Q else 0%Q)
  | JNumber n => JsNum.finite n
  | JString s => if negb (truthy s) then None else JsNum.finite (Number s)
  end.

Definition Qmax' (a b : Q) : Q := if Qle_bool a b then b else a.
Definition Qmin' (a b : Q) : Q := if Qle_bool a b then a else b.

(** The server's DEFAULT_ATTENDANCE_POLICY. *)
Definition DEFAULT_ATTENDANCE_POLICY : AttendancePolicy :=
  {| deliveryMode := "in_person";
     singleDevicePerDay := true;
     requireSignature := true;
     requireEnrollment := ATTENDANCE_REQUIRE_ENROLLMENT;
     requireIpAllowlist := false;
     ipAllowlist := [];
     requireGeofence := false;
     geofence := {| lat := None; lng := None; radiusMeters := 120 |} |}.

(** The server's normalizeAttendancePolicy, used when a session is
    validated and when attendance is marked.  [rawPolicy = None] when
    the stored value is not an object. *)
Definition normalizeAttendancePolicy (rawPolicy : option RawPolicy) (mode : string)
  : AttendancePolicy :=
  let source := match rawPolicy with Some r => r | None => empty_raw end in
  let geofenceSource :=
    match raw_geofence source with Some g => g | None => empty_geofence end in
  {| deliveryMode := mode;
     singleDevicePerDay :=
       normalizeBoolean (raw_singleDevicePerDay source)
                        (singleDevicePerDay DEFAULT_ATTENDANCE_POLICY);
     requireSignature :=
       normalizeBoolean (raw_requireSignature source)
                        (requireSignature DEFAULT_ATTENDANCE_POLICY);
     requireEnrollment :=
       normalizeBoolean (raw_requireEnrollment source)
                        (requireEnrollment DEFAULT_ATTENDANCE_POLICY);
     requireIpAllowlist :=
       normalizeBoolean (raw_requireIpAllowlist source)
                        (requireIpAllowlist DEFAULT_ATTENDANCE_POLICY);
     ipAllowlist := normalizeIpAllowlist (raw_ipAllowlist source);
     requireGeofence :=
       normalizeBoolean (raw_requireGeofence source)
                        (requireGeofence DEFAULT_ATTENDANCE_POLICY);
     geofence :=
       {| lat := toNullableNumber (raw_lat geofenceSource);
          lng := toNullableNumber (raw_lng geofenceSource);
          radiusMeters :=
            Qmax' 10
              (Qmin' 100000
                 (match toNullableNumber (raw_radiusMeters geofenceSource) with
                  | Some r => r
                  | None => radiusMeters (geofence DEFAULT_ATTENDANCE_POLICY)
                  end)) |} |}.

(** The course routes' buildAttendancePolicy, used when a course is
    created ([fallbackPolicy = None]) or updated (the stored policy as
    fallback).  [inl] is the thrown error. *)
Definition buildAttendancePolicy (rawPolicy : option RawPolicy) (mode : string)
    (fallbackPolicy : option RawPolicy) : HttpError + AttendancePolicy :=
  let source := match rawPolicy with Some r => r | None => empty_raw end in
  let fallback := match fallbackPolicy with Some r => r | None => empty_raw end in
  let singleDevicePerDay' :=
    normalizeBoolean (raw_singleDevicePerDay source)
      (normalizeBoolean (raw_singleDevicePerDay fallback) true) in
  let requireSignature' :=
    normalizeBoolean (raw_requireSignature source)
      (normalizeBoolean (raw_requireSignature fallback) true) in
  let requireEnrollment' :=
    normalizeBoolean (raw_requireEnrollment source)
      (normalizeBoolean (raw_requireEnrollment fallback) ATTENDANCE_REQUIRE_ENROLLMENT) in
  let requireIpAllowlist' :=
    normalizeBoolean (raw_requireIpAllowlist source)
      (normalizeBoolean (raw_requireIpAllowlist fallback) false) in
  let ipAllowlist' :=
    match raw_ipAllowlist source with
    | LUndefined => normalizeIpAllowlist (raw_ipAllowlist fallback)
    | l => normalizeIpAllowlist l
    end in
  let requireGeofence' :=
    normalizeBoolean (raw_requireGeofence source)
      (normalizeBoolean (raw_requireGeofence fallback) false) in
  let geofenceSource :=
    match raw_geofence source with
    | Some g => g
    | None => match raw_geofence fallback with Some g => g | None => empty_geofence end
    end in
  let geofenceLat := toNullableNumber (raw_lat geofenceSource) in
  let geofenceLng := toNullableNumber (raw_lng geofenceSource) in
  let geofenceRadiusRaw := toNullableNumber (raw_radiusMeters geofenceSource) in
  let geofenceRadius := match geofenceRadiusRaw with None => 120%Q | Some r => r end in
  if requireIpAllowlist' && Nat.eqb (List.length ipAllowlist') 0 then
    inl {| status := 400;
           message := "attendancePolicy.ipAllowlist is required when requireIpAllowlist=true" |}
  else if requireGeofence' &&
          (match geofenceLat, geofenceLng with Some _, Some _ => false | _, _ => true end) then
    inl {| status := 400;
           message := "attendancePolicy.geofence.lat/lng are required when requireGeofence=true" |}
  else if requireGeofence' &&
          (negb (Qle_bool 10 geofenceRadius) || negb (Qle_bool geofenceRadius 100000)) then
    inl {| status := 400;
           message := "attendancePolicy.geofence.radiusMeters must be between 10 and 100000" |}
  else
    inr {| deliveryMode := mode;
           singleDevicePerDay := singleDevicePerDay';
           requireSignature := requireSignature';
           requireEnrollment := requireEnrollment';
           requireIpAllowlist := requireIpAllowlist';
           ipAllowlist := ipAllowlist';
           requireGeofence := requireGeofence';
           geofence := {| lat := geofenceLat; lng := geofenceLng;
                          radiusMeters := geofenceRadius |} |}.


(** The inconsistent combinations of the specification, read on a raw
    policy submitted at creation: the allowlist required but empty, or
    the geofence required with a coordinate missing or the radius
    outside [10, 100000]. *)
Definition inconsistent (r : RawPolicy) : bool :=
  let g := match raw_geofence r with Some g => g | None => empty_geofence end in
  let radius := match toNullableNumber (raw_radiusMeters g) with
                | None => 120%Q | Some x => x end in
  (normalizeBoolean (raw_requireIpAllowlist r) false
   && Nat.eqb (List.length (normalizeIpAllowlist (raw_ipAllowlist r))) 0)
  || (normalizeBoolean (raw_requireGeofence r) false
      && (match toNullableNumber (raw_lat g), toNullableNumber (raw_lng g) with
          | Some _, Some _ => false
          | _, _ => true
          end
          || negb (Qle_bool 10 radius) || negb (Qle_bool radius 100000))).

End Operations.

End Policy.

(** ** The collections the pipeline reads and writes *)

Module Store.
Import JsString.

Record CourseDoc : Type := {
  c_id : string;
  c_institutionId : string;
  c_isActive : bool;
  c_code : string;
  c_name : string;
  c_section : string;
  c_deliveryMode : string;
  c_attendancePolicy : option Policy.RawPolicy
}.

Record EnrollmentDoc : Type := {
  e_institutionId : string;
  e_courseId : string;
  e_isActive : bool;
  e_universityRollNo : string;
  e_email : string;
  e_fullName : string;
  e_section : string;
  e_classRollNo : string
}.

Record UserDoc : Type := {
  u_id : string;
  u_institutionId : string;
  u_name : string;
  u_email : option string;
  u_universityRollNo : string;
  u_section : string;
  u_classRollNo : string
}.

Record AttendanceDoc : Type := {
  a_institutionId : string;
  a_name : string;
  a_studentEmail : string;
  a_universityRollNo : string;
  a_section : string;
  a_classRollNo : string;
  a_date : string;
  a_time : string;
  a_sessionId : string;
  a_courseId : string;
  a_courseCode : option string;
  a_courseName : option string;
  a_generatedBy : option string;
  a_generatedByRole : option string;
  a_status : string;
  a_studentId : string;
  a_distanceFromClass : option JsNum.t;
  a_location : option (Q * Q);
  a_deviceFingerprint : string;
  a_signatureDataUrl : option string;
  a_signatureHash : option string;
  a_ipAddress : option string;
  a_userAgent : string;
  a_courseDeliveryMode : string;
  a_attendancePolicySnapshot : Policy.AttendancePolicy
}.

(** Documents of a collection in insertion order. *)
Record Db : Type := {
  courses : list CourseDoc;
  enrollments : list EnrollmentDoc;
  users : list UserDoc;
  attendances : list AttendanceDoc
}.

(** [Course.findOne({ _id, institutionId, isActive: true })] *)
Definition Course_findOne (id institutionId : string) (db : Db) : option CourseDoc :=
  find (fun c => String.eqb (c_id c) id && String.eqb (c_institutionId c) institutionId
                 && c_isActive c) (courses db).

Section Operations.
Context {rt : Builtins}.

(** [CourseEnrollment.findOne({ institutionId, courseId, isActive: true,
      $or: [{ universityRollNo: email }, { universityRollNo: email.toUpperCase() },
            { fullName: nameRegex }] })] *)
Definition CourseEnrollment_findOne (institutionId courseId submittedEmail submittedName : string)
    (db : Db) : option EnrollmentDoc :=
  find (fun e => String.eqb (e_institutionId e) institutionId
                 && String.eqb (e_courseId e) courseId
                 && e_isActive e
                 && (String.eqb (e_universityRollNo e) submittedEmail
                     || String.eqb (e_universityRollNo e) (toUpperCase submittedEmail)
                     || regex_exact_i submittedName (e_fullName e)))
       (enrollments db).

End Operations.

(** [Attendance.findOne({ institutionId, date, courseId,
      $or: [{ studentEmail: id }, { universityRollNo: id }] })] *)
Definition Attendance_findOne_student (institutionId date courseId id : string) (db : Db)
  : option AttendanceDoc :=
  find (fun a => String.eqb (a_institutionId a) institutionId
                 && String.eqb (a_date a) date
                 && String.eqb (a_courseId a) courseId
                 && (String.eqb (a_studentEmail a) id || String.eqb (a_universityRollNo a) id))
       (attendances db).

(** [Attendance.findOne({ institutionId, deviceFingerprint, date, courseId })] *)
Definition Attendance_findOne_device (institutionId deviceFingerprint date courseId : string)
    (db : Db) : option AttendanceDoc :=
  find (fun a => String.eqb (a_institutionId a) institutionId
                 && String.eqb (a_deviceFingerprint a) deviceFingerprint
                 && String.eqb (a_date a) date
                 && String.eqb (a_courseId a) courseId)
       (attendances db).

(** The unique indexes of the users collection are
    [{ institutionId, universityRollNo }] and, sparse,
    [{ institutionId, email }]. *)
Definition rollNo_taken (institutionId rollNo : string) (others : list UserDoc) : bool :=
  existsb (fun o => String.eqb (u_institutionId o) institutionId
                    && String.eqb (u_universityRollNo o) rollNo) others.

Definition email_taken (institutionId email : string) (others : list UserDoc) : bool :=
  existsb (fun o => String.eqb (u_institutionId o) institutionId
                    && match u_email o with
                       | Some x => String.eqb x email
                       | None => false
                       end) others.

(** The update of findOneAndUpdate on the first document that matches the
    filter: [None] when no document matches, [Some None] when the new
    email is an index key another document holds. *)
Fixpoint update_first (institutionId rollNo name email : string) (before rest : list UserDoc)
  : option (option (UserDoc * list UserDoc)) :=
  match rest with
  | [] => None
  | u :: r =>
      if String.eqb (u_institutionId u) institutionId
         && String.eqb (u_universityRollNo u) rollNo
      then
        let u' := {| u_id := u_id u; u_institutionId := u_institutionId u;
                     u_name := name; u_email := Some email;
                     u_universityRollNo := u_universityRollNo u;
                     u_section := u_section u; u_classRollNo := u_classRollNo u |} in
        if email_taken institutionId email (before ++ r) then Some None
        else Some (Some (u', before ++ u' :: r))
      else update_first institutionId rollNo name email (before ++ [u]) r
  end.

(** [User.findOneAndUpdate({ institutionId, universityRollNo },
      { $set: { name, email }, $setOnInsert: { institutionId, section, classRollNo } },
      { new: true, upsert: true })].
    [freshId] is the identifier the store gives an inserted document;
    [None] is the duplicate-key error of a unique index. *)
Definition User_findOneAndUpdate (institutionId rollNo name email section classRollNo : string)
    (freshId : string) (us : list UserDoc) : option (UserDoc * list UserDoc) :=
  match update_first institutionId rollNo name email [] us with
  | Some r => r
  | None =>
      let u := {| u_id := freshId; u_institutionId := institutionId;
                  u_name := name; u_email := Some email;
                  u_universityRollNo := rollNo;
                  u_section := section; u_classRollNo := classRollNo |} in
      if rollNo_taken institutionId rollNo us || email_taken institutionId email us
      then None else Some (u, us ++ [u])
  end.

Section Create.
Context {rt : Builtins}.

(** The cast of a [Number] path: [null] and [undefined] are left as they
    are, NaN is refused with a CastError, every other number (the
    infinities too) is kept. *)
Definition Number_casts (value : option JsNum.t) : bool :=
  match value with
  | Some JsNum.NaN => false
  | _ => true
  end.

(** The cast of an ObjectId path that is not required: [null] and
    [undefined] are left as they are. *)
Definition optional_ObjectId_casts (value : option string) : bool :=
  match value with
  | Some text => ObjectId_casts text
  | None => true
  end.

(** The validation [Attendance.create] runs before it inserts: the
    schema's [required: true] paths, the casts of the ObjectId paths
    [institutionId], [courseId] and [generatedBy], and the cast of the
    Number path [distanceFromClass].  (The schema also trims and
    lower-cases [studentEmail]; the handler passes it trimmed and
    lower-cased already.  [studentId] is the [_id] of the document the
    user store has just returned and the two [location] numbers are
    finite, so these casts cannot fail; the remaining paths are strings.) *)
Definition attendance_valid (a : AttendanceDoc) : bool :=
  truthy (a_institutionId a) && truthy (a_name a) && truthy (a_studentEmail a)
  && truthy (a_universityRollNo a) && truthy (a_section a) && truthy (a_classRollNo a)
  && truthy (a_sessionId a) && truthy (a_date a) && truthy (a_deviceFingerprint a)
  && ObjectId_casts (a_institutionId a) && ObjectId_casts (a_courseId a)
  && optional_ObjectId_casts (a_generatedBy a)
  && Number_casts (a_distanceFromClass a).

(** [Attendance.create(doc)]: validation and casts, then an insert.  The
    indexes of the attendances collection are declared without [unique],
    so the insert itself never refuses a document.  [None] is the
    validation or cast error, which [create] throws before it writes. *)
Definition Attendance_create (a : AttendanceDoc) (db : Db) : option (AttendanceDoc * Db) :=
  if attendance_valid a then
    Some (a, {| courses := courses db; enrollments := enrollments db;
                users := users db; attendances := attendances db ++ [a] |})
  else None.

End Create.

End Store.

(** ** The server: token verification, signature validation, mark-attendance *)

Module Server.
Import JsString.

(** *** verify-attendance *)

Inductive VerifyResponse : Type :=
| Send (status : Z) (text : string)
| Redirect (url : string).

(** *** Signatures *)

Definition is_base64_char (c : ascii) : bool :=
  is_upper c || is_lower c || is_digit c
  || Ascii.eqb c "+" || Ascii.eqb c "/" || Ascii.eqb c "=".

Fixpoint all_chars (p : ascii -> bool) (s : string) : bool :=
  match s with
  | EmptyString => true
  | String c r => p c && all_chars p r
  end.

(** [/^[A-Za-z0-9+/=]+$/.test(s)] *)
Definition base64_regex_test (s : string) : bool :=
  truthy s && all_chars is_base64_char s.

(** [s.split(",")[1] || ""] *)
Definition second_piece (s : string) : string :=
  nth 1 (split "," s) EmptyString.

Definition normalizeSignatureDataUrl (value : string) : string := trim value.

(** *** Names and emails *)

Definition normalizeUpper (value : string) : string := toUpperCase (trim value).
Definition normalizeName (value : string) : string :=
  toLowerCase (collapse_spaces (trim value)).
Definition normalizeEmail (value : string) : string := toLowerCase (trim value).

Definition namesMatch (left right : string) : bool :=
  if negb (truthy left) || negb (truthy right) then true
  else String.eqb (normalizeName left) (normalizeName right).

Definition no_space_or_at (s : string) : bool :=
  all_chars (fun c => negb (is_space c) && negb (Ascii.eqb c "@")) s.

(** Whether [s] is [B "." C] with [B] and [C] non-empty. *)
Fixpoint has_inner_dot (s : string) : bool :=
  match s with
  | EmptyString => false
  | String _ r =>
      match r with
      | String "." (String _ _) => true
      | _ => has_inner_dot r
      end
  end.

(** [/^[^\s@]+@[^\s@]+\.[^\s@]+$/.test(value)] *)
Definition isValidEmail (value : string) : bool :=
  match split "@" value with
  | [local; domain] =>
      truthy local && no_space_or_at local && no_space_or_at domain
      && has_inner_dot domain
  | _ => false
  end.

(** *** Requests and responses of mark-attendance *)

Record Request : Type := {
  body_name : string;
  body_email : string;
  body_deviceFingerprint : string;
  body_sessionId : string;
  body_signatureDataUrl : string;
  (** [Number(location.lat)], [Number(location.lng)] when [location] is an object *)
  body_location : option (JsNum.t * JsNum.t);
  header_x_forwarded_for : string;
  req_ip : string;
  socket_remoteAddress : string;
  header_user_agent : string
}.

Record Response : Type := {
  res_status : Z;
  res_body_status : string;
  res_message : string;
  res_data : option Store.AttendanceDoc
}.

Definition error_response (code : Z) (msg : string) : Response :=
  {| res_status := code; res_body_status := "error"; res_message := msg; res_data := None |}.

Definition success_response (a : Store.AttendanceDoc) : Response :=
  {| res_status := 200; res_body_status := "success";
     res_message := "Attendance marked successfully"; res_data := Some a |}.

(** A calendar date, and [toISOString().split('T')[0]] of it. *)
Record CalendarDate : Type := { year : Z; month : Z; day : Z }.

Definition pad2 (n : Z) : string :=
  if n <? 10 then "0" +:+ decimal n else decimal n.

Definition isoDate (d : CalendarDate) : string :=
  decimal (year d) +:+ "-" +:+ pad2 (month d) +:+ "-" +:+ pad2 (day d).

(** What one request reads from the outside. *)
Record Tick : Type := {
  now : Z;                 (** [Date.now()] at the session lookup *)
  date : CalendarDate;     (** the UTC date of [new Date()] *)
  localTime : string;      (** [toLocaleTimeString('en-IN', { hour12: false })] *)
  freshUserId : string     (** the identifier of a user document inserted by the upsert *)
}.

(** The in-memory sessions and the data store. *)
Record World : Type := {
  qr : QrGenerator.State;
  db : Store.Db
}.

(** A check of the handler: an early [return res.status(..).json(..)] or
    the value the following statements use. *)
Inductive Step (A : Type) : Type :=
| Reject (r : Response)
| Continue (a : A).
Arguments Reject {A} r.
Arguments Continue {A} a.

Definition bind {A B : Type} (s : Step A) (k : A -> Step B) : Step B :=
  match s with
  | Reject r => Reject r
  | Continue a => k a
  end.

Definition guard (fails : bool) (r : Response) : Step unit :=
  if fails then Reject r else Continue tt.

(** A field that passes the test [if (!x)]: neither missing nor empty. *)
Definition present (o : option string) : option string :=
  match o with
  | Some s => if truthy s then Some s else None
  | None => None
  end.

(** Everything the two writes of the handler need. *)
Record Plan : Type := {
  plan_institutionId : string;
  plan_studentId : string;
  plan_name : string;
  plan_section : string;
  plan_classRollNo : string;
  (** the attendance document up to [studentId] *)
  plan_attendance : string -> Store.AttendanceDoc
}.

Section Operations.
Context {rt : Builtins}.

(** The handler of [GET /verify-attendance].  [parsed] is the result of
    [JSON.parse(decodeURIComponent(req.query.data))], [None] when that
    throws; a missing field reads as the empty string or [0]. *)
Definition verify_attendance (currentTime : Z) (parsed : option QrGenerator.QrData)
    (st : QrGenerator.State) : VerifyResponse * QrGenerator.State :=
  match parsed with
  | None => (Send 400 "Invalid QR code data", st)
  | Some data =>
      if negb (truthy (QrGenerator.qd_sessionId data))
         || (QrGenerator.qd_timestamp data =? 0)
         || negb (truthy (QrGenerator.qd_hash data))
      then (Send 400 "Invalid QR code data: Missing fields", st)
      else
        let secretKey := QrGenerator.secretKey in
        let hashInput :=
          QrGenerator.qd_sessionId data +:+ decimal (QrGenerator.qd_timestamp data)
            +:+ secretKey in
        let expectedHash := sha256 hashInput in
        if negb (String.eqb (QrGenerator.qd_hash data) expectedHash)
        then (Send 400 "Invalid QR code: Hash mismatch", st)
        else
          let qrExpiryTime := 15 * 60 * 1000 in
          if currentTime - QrGenerator.qd_timestamp data >? qrExpiryTime
          then (Send 400 "QR code expired", st)
          else
            let (sessionDetails, st') :=
              QrGenerator.getSessionDetails currentTime (QrGenerator.qd_sessionId data) st in
            let institutionQuery :=
              match sessionDetails with
              | Some (_, session) =>
                  match QrGenerator.institutionId session with
                  | Some i => "&institutionId=" +:+ encodeURIComponent i
                  | None => EmptyString
                  end
              | None => EmptyString
              end in
            (Redirect ("/index.html?sessionId=" +:+ QrGenerator.qd_sessionId data
                         +:+ institutionQuery), st')
  end.

(** validateSignatureDataUrl: the error text, or [None] for [null]. *)
Definition validateSignatureDataUrl (signatureDataUrl : string) : option string :=
  if negb (truthy signatureDataUrl) then Some "Signature is required"
  else if negb (startsWith "data:image/png;base64," signatureDataUrl)
  then Some "Invalid signature format"
  else if Z.of_nat (String.length signatureDataUrl) >? 700000
  then Some "Signature image is too large"
  else
    let base64 := second_piece signatureDataUrl in
    if negb (base64_regex_test base64) then Some "Invalid signature encoding"
    else
      let len := base64_decoded_length base64 in
      if (len <? 120) || (len >? 500000) then Some "Invalid signature data size"
      else None.

Definition getClientIpFromRequest (req : Request) : string :=
  if truthy (header_x_forwarded_for req)
  then Network.normalizeClientIp (header_x_forwarded_for req)
  else Network.normalizeClientIp
         (if truthy (req_ip req) then req_ip req else socket_remoteAddress req).

(** The middleware validateAttendance: the response when a required
    field is missing. *)
Definition validateAttendance (req : Request) : option Response :=
  let missing :=
    List.filter (fun f => negb (truthy (snd f)))
      [("name", body_name req); ("email", body_email req);
       ("deviceFingerprint", body_deviceFingerprint req)] in
  match missing with
  | [] => None
  | _ => Some (error_response 400
                 ("Missing required fields: " +:+ String.concat ", " (map fst missing)))
  end.

(** The network check of the handler. *)
Definition check_network (policy : Policy.AttendancePolicy) (clientIp : string) : Step unit :=
  if Policy.requireIpAllowlist policy then
    bind (guard (Nat.eqb (List.length (Policy.ipAllowlist policy)) 0)
            (error_response 400
               "Course policy requires IP allowlist but no ranges are configured"))
      (fun _ =>
         guard (negb (Network.isIpAllowedByAllowlist clientIp (Policy.ipAllowlist policy)))
           (error_response 403
              "Attendance is only allowed from approved campus network ranges"))
  else Continue tt.

Definition out_of_range_message (geofenceRadius : Q) (distance : JsNum.t) : string :=
  "You must be within " +:+ number_to_string geofenceRadius
    +:+ " meters of the class location. Current distance: " +:+ toFixed0 distance +:+ "m".

(** The geofence check of the handler: the distance stored with the
    record. *)
Definition check_geofence (policy : Policy.AttendancePolicy)
    (location : option (JsNum.t * JsNum.t)) : Step (option JsNum.t) :=
  if Policy.requireGeofence policy then
    match location with
    | Some (JsNum.Finite plat, JsNum.Finite plng) =>
        let g := Policy.geofence policy in
        let geofenceRadius :=
          if Qeq_bool (Policy.radiusMeters g) 0 then 120%Q else Policy.radiusMeters g in
        match Policy.lat g, Policy.lng g with
        | Some geofenceLat, Some geofenceLng =>
            let distance := getDistanceFromLatLngInMeters plat plng geofenceLat geofenceLng in
            if JsNum.gt distance geofenceRadius
            then Reject (error_response 400 (out_of_range_message geofenceRadius distance))
            else Continue (Some distance)
        | _, _ =>
            Reject (error_response 400
                      "Course geofence is not configured. Contact your administrator.")
        end
    | _ =>
        Reject (error_response 400
                  "This course requires geolocation. Enable location and try again.")
    end
  else Continue None.

(** The signature check of the handler, both branches. *)
Definition check_signature (policy : Policy.AttendancePolicy)
    (normalizedSignatureDataUrl : string) : Step unit :=
  if Policy.requireSignature policy then
    match validateSignatureDataUrl normalizedSignatureDataUrl with
    | Some signatureValidationError => Reject (error_response 400 signatureValidationError)
    | None => Continue tt
    end
  else if truthy normalizedSignatureDataUrl then
    match validateSignatureDataUrl normalizedSignatureDataUrl with
    | Some optionalSignatureError => Reject (error_response 400 optionalSignatureError)
    | None => Continue tt
    end
  else Continue tt.

(** The enrollment lookup and the name check of the handler. *)
Definition check_identity (policy : Policy.AttendancePolicy)
    (institutionId courseId submittedEmail submittedName : string) (d : Store.Db)
  : Step (option Store.EnrollmentDoc) :=
  let enrollment :=
    Store.CourseEnrollment_findOne institutionId courseId submittedEmail submittedName d in
  match enrollment with
  | None =>
      if Policy.requireEnrollment policy
      then Reject (error_response 400 "You are not enrolled in this course roster")
      else Continue None
  | Some e =>
      if negb (namesMatch (Store.e_fullName e) submittedName)
      then Reject (error_response 400 "Student name does not match course enrollment record")
      else Continue (Some e)
  end.

(** The two duplicate lookups of the handler. *)
Definition check_duplicates (policy : Policy.AttendancePolicy)
    (institutionId today courseId canonicalStudentId deviceFingerprint : string)
    (d : Store.Db) : Step unit :=
  let existing :=
    Store.Attendance_findOne_student institutionId today courseId canonicalStudentId d in
  let existingDevice :=
    if Policy.singleDevicePerDay policy
    then Store.Attendance_findOne_device institutionId deviceFingerprint today courseId d
    else None in
  match existing with
  | Some _ =>
      Reject (error_response 400 "You've already marked attendance for this course today")
  | None =>
      match Policy.singleDevicePerDay policy, existingDevice with
      | true, Some _ =>
          Reject (error_response 400 "This device has already been used for this course today")
      | _, _ => Continue tt
      end
  end.

(** The canonical fields and the document the handler builds once the
    checks have passed: the arguments of its two writes. *)
Definition make_plan (t : Tick) (req : Request) (session : QrGenerator.SessionRecord)
    (courseId institutionId : string) (course : Store.CourseDoc) (deliveryMode : string)
    (attendancePolicy : Policy.AttendancePolicy) (distance : option JsNum.t)
    (enrollment : option Store.EnrollmentDoc) : Plan :=
  let deviceFingerprint := body_deviceFingerprint req in
  let sessionId := body_sessionId req in
  let normalizedSignatureDataUrl := normalizeSignatureDataUrl (body_signatureDataUrl req) in
  let submittedEmail := normalizeEmail (body_email req) in
  let submittedName := trim (body_name req) in
  let parsedLocation := body_location req in
  let today := isoDate (date t) in
  let clientIp := getClientIpFromRequest req in
  let userAgent := header_user_agent req in
  let signatureHash :=
    if truthy normalizedSignatureDataUrl
    then Some (crypto_sha256 (second_piece normalizedSignatureDataUrl))
    else None in
  let canonicalStudentId := submittedEmail in
  let canonicalName :=
    match enrollment with
    | Some e => if truthy (Store.e_fullName e) then Store.e_fullName e else submittedName
    | None => submittedName
    end in
  let sessionSection :=
    match QrGenerator.section session with Some x => x | None => EmptyString end in
  let fallbackSection :=
    let u := normalizeUpper
               (if truthy (Store.c_section course)
                then Store.c_section course else sessionSection) in
    if truthy u then u else "N/A" in
  let canonicalSection :=
    match enrollment with
    | Some e => if truthy (Store.e_section e) then Store.e_section e else fallbackSection
    | None => fallbackSection
    end in
  let canonicalClassRollNo :=
    match enrollment with
    | Some e => if truthy (Store.e_classRollNo e) then Store.e_classRollNo e else "N/A"
    | None => "N/A"
    end in
  {| plan_institutionId := institutionId;
     plan_studentId := canonicalStudentId;
     plan_name := canonicalName;
     plan_section := canonicalSection;
     plan_classRollNo := canonicalClassRollNo;
     plan_attendance := fun studentId =>
       {| Store.a_institutionId := institutionId;
          Store.a_name := canonicalName;
          Store.a_studentEmail := canonicalStudentId;
          Store.a_universityRollNo := canonicalStudentId;
          Store.a_section := canonicalSection;
          Store.a_classRollNo := canonicalClassRollNo;
          Store.a_date := today;
          Store.a_time := localTime t;
          Store.a_sessionId := sessionId;
          Store.a_courseId := courseId;
          Store.a_courseCode :=
            if truthy (Store.c_code course) then Some (Store.c_code course)
            else QrGenerator.courseCode session;
          Store.a_courseName :=
            if truthy (Store.c_name course) then Some (Store.c_name course)
            else QrGenerator.courseName session;
          Store.a_generatedBy := QrGenerator.generatedBy session;
          Store.a_generatedByRole := QrGenerator.generatedByRole session;
          Store.a_status := "present";
          Store.a_studentId := studentId;
          Store.a_distanceFromClass := distance;
          Store.a_location :=
            match parsedLocation with
            | Some (JsNum.Finite la, JsNum.Finite lo) => Some (la, lo)
            | _ => None
            end;
          Store.a_deviceFingerprint := deviceFingerprint;
          Store.a_signatureDataUrl :=
            if truthy normalizedSignatureDataUrl
            then Some normalizedSignatureDataUrl else None;
          Store.a_signatureHash := signatureHash;
          Store.a_ipAddress := if truthy clientIp then Some clientIp else None;
          Store.a_userAgent := userAgent;
          Store.a_courseDeliveryMode := deliveryMode;
          Store.a_attendancePolicySnapshot := attendancePolicy |} |}.

(** The checks of the handler that follow the course lookup, in the
    order of the source. *)
Definition policy_checks (t : Tick) (req : Request) (session : QrGenerator.SessionRecord)
    (courseId institutionId : string) (course : Store.CourseDoc) (d : Store.Db)
  : Step Plan :=
  let deliveryMode := Policy.normalizeDeliveryMode (Store.c_deliveryMode course) in
  let attendancePolicy :=
    Policy.normalizeAttendancePolicy (Store.c_attendancePolicy course) deliveryMode in
  bind (check_network attendancePolicy (getClientIpFromRequest req)) (fun _ =>
  bind (check_geofence attendancePolicy (body_location req)) (fun distance =>
  bind (check_signature attendancePolicy
          (normalizeSignatureDataUrl (body_signatureDataUrl req))) (fun _ =>
  bind (check_identity attendancePolicy institutionId courseId
          (normalizeEmail (body_email req)) (trim (body_name req)) d) (fun enrollment =>
  bind (check_duplicates attendancePolicy institutionId (isoDate (date t)) courseId
          (normalizeEmail (body_email req)) (body_deviceFingerprint req) d) (fun _ =>
  Continue (make_plan t req session courseId institutionId course deliveryMode
              attendancePolicy distance enrollment)))))).

(** The handler of [POST /mark-attendance] up to its last early return:
    every statement before the two writes.  The session lookup may
    evict an expired session from the in-memory map; nothing here
    touches the data store.  [Course.findOne] casts [_id] and
    [institutionId] of its filter to ObjectIds: for a session whose
    course or institution does not cast, the query throws, and the
    handler's [catch] answers with status 500 and the error's text
    (abbreviated here). *)
Definition precommit (t : Tick) (req : Request) (w : World)
  : Step Plan * QrGenerator.State :=
  let sessionId := body_sessionId req in
  let submittedEmail := normalizeEmail (body_email req) in
  let submittedName := trim (body_name req) in
  if negb (truthy sessionId)
  then (Reject (error_response 400 "Session ID is required"), qr w)
  else if negb (truthy submittedName)
  then (Reject (error_response 400 "Full name is required"), qr w)
  else if negb (isValidEmail submittedEmail)
  then (Reject (error_response 400 "Valid email is required"), qr w)
  else
    let (sessionDetails, qr') := QrGenerator.getSessionDetails (now t) sessionId (qr w) in
    (match sessionDetails with
     | None =>
         Reject (error_response 400 "Invalid or expired session. Please scan a fresh QR.")
     | Some (_, session) =>
         match present (QrGenerator.courseId session) with
         | None => Reject (error_response 400 "Session is not linked to a course")
         | Some courseId =>
             match present (QrGenerator.institutionId session) with
             | None => Reject (error_response 400 "Session is not linked to an institution")
             | Some institutionId =>
                 if negb (ObjectId_casts courseId && ObjectId_casts institutionId)
                 then Reject (error_response 500 "Cast to ObjectId failed")
                 else
                   match Store.Course_findOne courseId institutionId (db w) with
                   | None => Reject (error_response 404 "Course not found or inactive")
                   | Some course =>
                       policy_checks t req session courseId institutionId course (db w)
                   end
             end
         end
     end, qr').

(** The two writes that end the handler: the upsert of the user and the
    insert of the attendance document.  A throw of either is caught by
    the handler's [catch] and answered with status 500 and the store's
    error text (abbreviated here).  The two writes are separate
    operations: when [Attendance.create] throws, the upsert of the user
    has been written already and stays. *)
Definition commit (t : Tick) (p : Plan) (d : Store.Db) : Response * Store.Db :=
  match Store.User_findOneAndUpdate (plan_institutionId p) (plan_studentId p)
          (plan_name p) (plan_studentId p) (plan_section p) (plan_classRollNo p)
          (freshUserId t) (Store.users d) with
  | None => (error_response 500 "E11000 duplicate key error", d)
  | Some (student, users') =>
      let d' := {| Store.courses := Store.courses d;
                   Store.enrollments := Store.enrollments d;
                   Store.users := users';
                   Store.attendances := Store.attendances d |} in
      match Store.Attendance_create (plan_attendance p (Store.u_id student)) d' with
      | None => (error_response 500 "Attendance validation failed", d')
      | Some (attendance, d'') => (success_response attendance, d'')
      end
  end.

(** One request to [POST /mark-attendance], run without interleaving. *)
Definition mark_attendance (t : Tick) (req : Request) (w : World) : Response * World :=
  match validateAttendance req with
  | Some r => (r, w)
  | None =>
      let (step, qr') := precommit t req w in
      match step with
      | Reject r => (r, {| qr := qr'; db := db w |})
      | Continue p =>
          let (r, d') := commit t p (db w) in
          (r, {| qr := qr'; db := d' |})
      end
  end.

(** Two requests whose handlers are interleaved at their awaits so that
    both run their checks before either runs its writes: the checks of
    the first, the checks of the second, the writes of the first, the
    writes of the second. *)
Definition checks (t : Tick) (req : Request) (w : World) : Step Plan * QrGenerator.State :=
  match validateAttendance req with
  | Some r => (Reject r, qr w)
  | None => precommit t req w
  end.

Definition writes (t : Tick) (s : Step Plan) (d : Store.Db) : Response * Store.Db :=
  match s with
  | Reject r => (r, d)
  | Continue p => commit t p d
  end.

Definition mark_attendance_interleaved (t1 : Tick) (req1 : Request)
    (t2 : Tick) (req2 : Request) (w : World) : Response * Response * World :=
  let (s1, q1) := checks t1 req1 w in
  let (s2, q2) := checks t2 req2 {| qr := q1; db := db w |} in
  let (r1, d1) := writes t1 s1 (db w) in
  let (r2, d2) := writes t2 s2 d1 in
  (r1, r2, {| qr := q2; db := d2 |}).

End Operations.

(** The text after the comma that ends the prefix [data:image/png;base64,],
    as the specification reads "after the comma". *)
Definition after_prefix (signatureDataUrl : string) : string := slice 22 signatureDataUrl.

(** The uniqueness keys of the specification. *)
Definition same_student_day (a b : Store.AttendanceDoc) : bool :=
  String.eqb (Store.a_institutionId a) (Store.a_institutionId b)
  && String.eqb (Store.a_courseId a) (Store.a_courseId b)
  && String.eqb (Store.a_studentEmail a) (Store.a_studentEmail b)
  && String.eqb (Store.a_date a) (Store.a_date b).

Definition same_device_day (a b : Store.AttendanceDoc) : bool :=
  String.eqb (Store.a_institutionId a) (Store.a_institutionId b)
  && String.eqb (Store.a_courseId a) (Store.a_courseId b)
  && String.eqb (Store.a_deviceFingerprint a) (Store.a_deviceFingerprint b)
  && String.eqb (Store.a_date a) (Store.a_date b).

(** At most one document for an institution, course, student and date. *)
Definition student_day_unique (l : list Store.AttendanceDoc) : Prop :=
  forall i j a b,
    l !! i = Some a -> l !! j = Some b -> same_student_day a b = true -> i = j.

(** A document recorded under singleDevicePerDay has a device that no
    earlier document of its institution, course and date has. *)
Definition device_day_unique (l : list Store.AttendanceDoc) : Prop :=
  forall i j a b,
    (i < j)%nat -> l !! i = Some a -> l !! j = Some b ->
    Policy.singleDevicePerDay (Store.a_attendancePolicySnapshot b) = true ->
    same_device_day a b = false.

End Server.

(** ** One runtime and one classroom, for running the operations *)

Module Examples.
Import JsString.

(** [net.isIP] on dotted-decimal IPv4 text: four parts, each one to three
    digits with a value of at most 255. *)
Definition octet_text (s : string) : bool :=
  truthy s && Nat.leb (String.length s) 3 &&
  match JsNum.digits_value 0 s with
  | Some v => v <=? 255
  | None => false
  end.

Definition isIP_v4 (s : string) : bool :=
  let parts := split "." s in
  Nat.eqb (List.length parts) 4 && forallb octet_text parts.

Fixpoint count_chars (p : ascii -> bool) (s : string) : Z :=
  match s with
  | EmptyString => 0
  | String c r => (if p c then 1 else 0) + count_chars p r
  end.

(** The identifiers of the examples are short names ([inst1], [course1],
    [u1]) that stand for ObjectIds: a text of letters and digits casts. *)
Definition identifier (s : string) : bool :=
  truthy s && Server.all_chars (fun c => is_digit c || is_lower c || is_upper c) s.

(** The instance: decimal [Number], dotted-decimal [net.isIP], digests
    kept symbolic, [encodeURIComponent] on unreserved text, three bytes
    for four base64 characters, a taxicab stand-in for the distance
    helper, integers printed in decimal, the name pattern as
    case-insensitive equality, and identifiers of letters and digits. *)
Definition node : Builtins :=
  {| Number := JsNum.Number_decimal;
     net_isIP := isIP_v4;
     crypto_sha256 := fun s => "sha256(" +:+ s +:+ ")";
     sha256 := fun s => "sha256(" +:+ s +:+ ")";
     encodeURIComponent := fun s => s;
     base64_decoded_length :=
       fun s => 3 * count_chars (fun c => negb (Ascii.eqb c "=")) s / 4;
     getDistanceFromLatLngInMeters :=
       fun la1 lo1 la2 lo2 =>
         JsNum.Finite (111320 * (Qabs (la2 - la1) + Qabs (lo2 - lo1)));
     number_to_string := fun q => decimal (Qfloor q);
     toFixed0 := fun n => match n with
                          | JsNum.Finite q => decimal (Qfloor q)
                          | _ => "NaN"
                          end;
     regex_exact_i := fun name stored => String.eqb (toLowerCase name) (toLowerCase stored);
     ObjectId_casts := identifier;
     QR_SECRET_KEY := EmptyString;
     ATTENDANCE_REQUIRE_ENROLLMENT := true |}.

(** The allowlist check as the specification's examples call it. *)
Definition isAllowed (candidate entry : string) : bool :=
  Network.isIpAllowedByAllowlist (rt := node) candidate [entry].

Fixpoint replicate (n : nat) (c : ascii) : string :=
  match n with
  | O => EmptyString
  | S k => String c (replicate k c)
  end.

(** A teacher's issuance context and the draw of one issuance. *)
Definition ctx : QrGenerator.SessionContext :=
  {| QrGenerator.ctx_generatedBy := "teacher1";
     QrGenerator.ctx_generatedByRole := "teacher";
     QrGenerator.ctx_generatedByName := "T. Eacher";
     QrGenerator.ctx_institutionId := "inst1";
     QrGenerator.ctx_courseId := "course1";
     QrGenerator.ctx_courseCode := "CS101";
     QrGenerator.ctx_courseName := "Intro";
     QrGenerator.ctx_section := "A" |}.

Definition draw (t : Z) (r : Byte.byte) : QrGenerator.Draw :=
  {| QrGenerator.now_check := t;
     QrGenerator.now_stamp := t;
     QrGenerator.now_timer := t + 5;
     QrGenerator.now_cache := t + 5;
     QrGenerator.randomBytes16 := repeat r 16;
     QrGenerator.toFile_ok := true |}.

(** The session store after one issuance at time 1000. *)
Definition issued : QrGenerator.State :=
  snd (QrGenerator.generateQRCode (rt := node) "10.0.0.9" ctx (draw 1000 Byte.xab)
         QrGenerator.initial).

Definition sid : string := QrGenerator.toHex (repeat Byte.xab 16).

(** The record that issuance stored. *)
Definition issued_record : QrGenerator.SessionRecord :=
  {| QrGenerator.ip := "10.0.0.9";
     QrGenerator.expiresAt := 91000;
     QrGenerator.createdAt := 1000;
     QrGenerator.generatedBy := Some "teacher1";
     QrGenerator.generatedByRole := Some "teacher";
     QrGenerator.generatedByName := Some "T. Eacher";
     QrGenerator.institutionId := Some "inst1";
     QrGenerator.courseId := Some "course1";
     QrGenerator.courseCode := Some "CS101";
     QrGenerator.courseName := Some "Intro";
     QrGenerator.section := Some "A" |}.

Definition raw (singleDevice signature enrollment allowlist : bool) (ips : list string)
  : Policy.RawPolicy :=
  {| Policy.raw_singleDevicePerDay := Policy.JBool singleDevice;
     Policy.raw_requireSignature := Policy.JBool signature;
     Policy.raw_requireEnrollment := Policy.JBool enrollment;
     Policy.raw_requireIpAllowlist := Policy.JBool allowlist;
     Policy.raw_ipAllowlist := Policy.LArray ips;
     Policy.raw_requireGeofence := Policy.JBool false;
     Policy.raw_geofence := None |}.

Definition course (p : Policy.RawPolicy) : Store.CourseDoc :=
  {| Store.c_id := "course1"; Store.c_institutionId := "inst1"; Store.c_isActive := true;
     Store.c_code := "CS101"; Store.c_name := "Intro"; Store.c_section := "A";
     Store.c_deliveryMode := "in_person"; Store.c_attendancePolicy := Some p |}.

(** A roster row as the enrollment routes store it: a roll number of the
    form [A-Z0-9-]{3,30} and, apart from it, the student's email. *)
Definition ada : Store.EnrollmentDoc :=
  {| Store.e_institutionId := "inst1"; Store.e_courseId := "course1";
     Store.e_isActive := true; Store.e_universityRollNo := "UNI-STU-00001";
     Store.e_email := "ada@uni.edu";
     Store.e_fullName := "Ada Lovelace"; Store.e_section := "A";
     Store.e_classRollNo := "7" |}.

(** A roster row whose roll number is the upper-cased email. *)
Definition ada_by_email_roll : Store.EnrollmentDoc :=
  {| Store.e_institutionId := "inst1"; Store.e_courseId := "course1";
     Store.e_isActive := true; Store.e_universityRollNo := "ADA@UNI.EDU";
     Store.e_email := "ada@uni.edu";
     Store.e_fullName := "Ada Lovelace"; Store.e_section := "A";
     Store.e_classRollNo := "7" |}.

Definition classroom_with (p : Policy.RawPolicy) (roster : list Store.EnrollmentDoc)
  : Server.World :=
  {| Server.qr := issued;
     Server.db := {| Store.courses := [course p]; Store.enrollments := roster;
                     Store.users := []; Store.attendances := [] |} |}.

Definition classroom (p : Policy.RawPolicy) : Server.World := classroom_with p [ada].

Definition tick (t : Z) (uid : string) : Server.Tick :=
  {| Server.now := t;
     Server.date := {| Server.year := 2026; Server.month := 3; Server.day := 9 |};
     Server.localTime := "10:15:00";
     Server.freshUserId := uid |}.

Definition submission (name email device signature : string) : Server.Request :=
  {| Server.body_name := name;
     Server.body_email := email;
     Server.body_deviceFingerprint := device;
     Server.body_sessionId := sid;
     Server.body_signatureDataUrl := signature;
     Server.body_location := None;
     Server.header_x_forwarded_for := EmptyString;
     Server.req_ip := "10.0.0.77";
     Server.socket_remoteAddress := EmptyString;
     Server.header_user_agent := "browser" |}.

(** The payload of the image written at issuance, and a forged one. *)
Definition genuine : QrGenerator.QrData :=
  {| QrGenerator.qd_sessionId := sid;
     QrGenerator.qd_timestamp := 1000;
     QrGenerator.qd_hash :=
       crypto_sha256 (Builtins := node) (sid +:+ "1000" +:+ "default-secret-key") |}.

Definition forged : QrGenerator.QrData :=
  {| QrGenerator.qd_sessionId := sid;
     QrGenerator.qd_timestamp := 1000;
     QrGenerator.qd_hash := "forged" |}.

(** A data URL whose text after the prefix holds a second comma. *)
Definition two_comma_signature : string :=
  "data:image/png;base64," +:+ replicate 160 "A" +:+ ",<script>".

End Examples.

(** ** Further data for running the operations *)

Module Scenarios.

(** A stored policy that requires a geofence of 100 m around (-12, -77). *)
Definition fenced_policy : Policy.RawPolicy :=
  {| Policy.raw_singleDevicePerDay := Policy.JBool true;
     Policy.raw_requireSignature := Policy.JBool false;
     Policy.raw_requireEnrollment := Policy.JBool false;
     Policy.raw_requireIpAllowlist := Policy.JBool false;
     Policy.raw_ipAllowlist := Policy.LArray [];
     Policy.raw_requireGeofence := Policy.JBool true;
     Policy.raw_geofence :=
       Some {| Policy.raw_lat := Policy.JNumber (JsNum.Finite (-12));
               Policy.raw_lng := Policy.JNumber (JsNum.Finite (-77));
               Policy.raw_radiusMeters := Policy.JNumber (JsNum.Finite 100) |} |}.

(** A raw policy that does not require the geofence and names a radius of
    5 m. *)
Definition tiny_radius_policy : Policy.RawPolicy :=
  {| Policy.raw_singleDevicePerDay := Policy.JUndefined;
     Policy.raw_requireSignature := Policy.JUndefined;
     Policy.raw_requireEnrollment := Policy.JUndefined;
     Policy.raw_requireIpAllowlist := Policy.JUndefined;
     Policy.raw_ipAllowlist := Policy.LUndefined;
     Policy.raw_requireGeofence := Policy.JBool false;
     Policy.raw_geofence :=
       Some {| Policy.raw_lat := Policy.JUndefined;
               Policy.raw_lng := Policy.JUndefined;
               Policy.raw_radiusMeters := Policy.JNumber (JsNum.Finite 5) |} |}.

(** The runtime of the examples on a host whose external distance
    program prints a text that [parseFloat] does not read as a number:
    the distance helper then returns NaN. *)
Definition unreadable_distance : Builtins :=
  {| Number := Number (Builtins := Examples.node);
     net_isIP := net_isIP (Builtins := Examples.node);
     crypto_sha256 := crypto_sha256 (Builtins := Examples.node);
     sha256 := sha256 (Builtins := Examples.node);
     encodeURIComponent := encodeURIComponent (Builtins := Examples.node);
     base64_decoded_length := base64_decoded_length (Builtins := Examples.node);
     getDistanceFromLatLngInMeters := fun _ _ _ _ => JsNum.NaN;
     number_to_string := number_to_string (Builtins := Examples.node);
     toFixed0 := toFixed0 (Builtins := Examples.node);
     regex_exact_i := regex_exact_i (Builtins := Examples.node);
     ObjectId_casts := ObjectId_casts (Builtins := Examples.node);
     QR_SECRET_KEY := QR_SECRET_KEY (Builtins := Examples.node);
     ATTENDANCE_REQUIRE_ENROLLMENT :=
       ATTENDANCE_REQUIRE_ENROLLMENT (Builtins := Examples.node) |}.

(** The classroom of the examples with the fenced course and no roster,
    and Ada's submission from the centre of the fence. *)
Definition fenced_classroom : Server.World :=
  Examples.classroom_with fenced_policy [].

Definition located_submission : Server.Request :=
  {| Server.body_name := "Ada Lovelace";
     Server.body_email := "ada@uni.edu";
     Server.body_deviceFingerprint := "dev1";
     Server.body_sessionId := Examples.sid;
     Server.body_signatureDataUrl := EmptyString;
     Server.body_location := Some (JsNum.Finite (-12), JsNum.Finite (-77));
     Server.header_x_forwarded_for := EmptyString;
     Server.req_ip := "10.0.0.77";
     Server.socket_remoteAddress := EmptyString;
     Server.header_user_agent := "browser" |}.

(** The arguments of the two writes for that submission when the
    distance helper has returned NaN. *)
Definition located_plan : Server.Plan :=
  Server.make_plan (rt := unreadable_distance) (Examples.tick 2000 "u1") located_submission
    Examples.issued_record "course1" "inst1" (Examples.course fenced_policy) "in_person"
    (Policy.normalizeAttendancePolicy (rt := unreadable_distance)
       (Some fenced_policy) "in_person")
    (Some JsNum.NaN) None.

End Scenarios.

(** ** The image files of the QR generator *)

Module QrFiles.


End QrFiles.

(** ** The course routes: delivery mode, stored policies, roster rows,
       pagination and schedules *)

Module CourseRoutes.
Import JsString.

(** The routes' normalizeDeliveryMode: an unknown mode is a 400 error. *)
Definition normalizeDeliveryMode (value : string) : Policy.HttpError + string :=
  let normalized := toLowerCase (trim value) in
  if negb (truthy normalized) then inr "in_person"
  else if negb (Policy.member normalized Policy.COURSE_DELIVERY_MODES) then
    inl {| Policy.status := 400;
           Policy.message := "deliveryMode must be one of: in_person, online, hybrid" |}
  else inr normalized.

(** mapCourse's use of it: the error is caught. *)
Definition mapDeliveryMode (value : string) : string :=
  match normalizeDeliveryMode value with
  | inr m => m
  | inl _ => "in_person"
  end.

(** The [attendancePolicy] sub-document of models/Course.js holding a
    built policy: Boolean flags, the allowlist through the schema's
    setter, Number coordinates with [null] for a missing one. *)
Definition stored_coordinate (c : option Q) : Policy.JsValue :=
  match c with
  | Some q => Policy.JNumber (JsNum.Finite q)
  | None => Policy.JNull
  end.

Definition toDocument (p : Policy.AttendancePolicy) : Policy.RawPolicy :=
  {| Policy.raw_singleDevicePerDay := Policy.JBool (Policy.singleDevicePerDay p);
     Policy.raw_requireSignature := Policy.JBool (Policy.requireSignature p);
     Policy.raw_requireEnrollment := Policy.JBool (Policy.requireEnrollment p);
     Policy.raw_requireIpAllowlist := Policy.JBool (Policy.requireIpAllowlist p);
     Policy.raw_ipAllowlist :=
       Policy.LArray (Policy.normalizeIpAllowlist (Policy.LArray (Policy.ipAllowlist p)));
     Policy.raw_requireGeofence := Policy.JBool (Policy.requireGeofence p);
     Policy.raw_geofence :=
       Some {| Policy.raw_lat := stored_coordinate (Policy.lat (Policy.geofence p));
               Policy.raw_lng := stored_coordinate (Policy.lng (Policy.geofence p));
               Policy.raw_radiusMeters :=
                 Policy.JNumber (JsNum.Finite (Policy.radiusMeters (Policy.geofence p))) |} |}.

(** The schema's [min: 10, max: 100000] on [geofence.radiusMeters]. *)
Definition radius_validates (p : Policy.AttendancePolicy) : bool :=
  Qle_bool 10 (Policy.radiusMeters (Policy.geofence p))
  && Qle_bool (Policy.radiusMeters (Policy.geofence p)) 100000.

(** A policy with another delivery mode. *)
Definition with_mode (mode : string) (p : Policy.AttendancePolicy) : Policy.AttendancePolicy :=
  {| Policy.deliveryMode := mode;
     Policy.singleDevicePerDay := Policy.singleDevicePerDay p;
     Policy.requireSignature := Policy.requireSignature p;
     Policy.requireEnrollment := Policy.requireEnrollment p;
     Policy.requireIpAllowlist := Policy.requireIpAllowlist p;
     Policy.ipAllowlist := Policy.ipAllowlist p;
     Policy.requireGeofence := Policy.requireGeofence p;
     Policy.geofence := Policy.geofence p |}.

(** *** Roster rows *)

(** The routes' normalizeName keeps the case. *)
Definition normalizeName (value : string) : string := collapse_spaces (trim value).

(** The body of an enrollment request, each field through
    [String(value || "")]. *)
Record EnrollmentRow : Type := {
  row_universityRollNo : string;
  row_fullName : string;
  row_section : string;
  row_classRollNo : string;
  row_email : string
}.

Definition is_roll_char (c : ascii) : bool :=
  is_upper c || is_digit c || Ascii.eqb c "-".

(** [/^[A-Z0-9-]{3,30}$/.test(s)] *)
Definition ENROLLMENT_ROLL_PATTERN (s : string) : bool :=
  Nat.leb 3 (String.length s) && Nat.leb (String.length s) 30
  && Server.all_chars is_roll_char s.

(** normalizeEnrollmentRow: [inl] is the [error] of the returned object.
    EMAIL_PATTERN is the server's email pattern with the [i] flag, which
    changes nothing on a pattern without letters. *)
Definition normalizeEnrollmentRow (row : EnrollmentRow) : string + EnrollmentRow :=
  let universityRollNo := Server.normalizeUpper (row_universityRollNo row) in
  let fullName := normalizeName (row_fullName row) in
  let section := Server.normalizeUpper (row_section row) in
  let classRollNo := Server.normalizeUpper (row_classRollNo row) in
  let email := Server.normalizeEmail (row_email row) in
  if negb (ENROLLMENT_ROLL_PATTERN universityRollNo) then inl "Invalid universityRollNo format"
  else if negb (truthy fullName) then inl "fullName is required"
  else if negb (truthy section) then inl "section is required"
  else if negb (truthy classRollNo) then inl "classRollNo is required"
  else if negb (Server.isValidEmail email) then inl "Valid email is required"
  else inr {| row_universityRollNo := universityRollNo;
              row_fullName := fullName;
              row_section := section;
              row_classRollNo := classRollNo;
              row_email := email |}.

(** *** Pagination *)

Record Page : Type := { page : Z; limit : Z; skip : Z }.

(** parsePagination on the two results of [Number.parseInt(_, 10)]: an
    integer when [Number.isFinite] holds of it, [None] for NaN and the
    infinities. *)
Definition parsePagination (pageRaw limitRaw : option Z) (defaultLimit maxLimit : Z) : Page :=
  let page :=
    match pageRaw with
    | Some n => if 0 <? n then n else 1
    | None => 1
    end in
  let limitCandidate :=
    match limitRaw with
    | Some n => if 0 <? n then n else defaultLimit
    | None => defaultLimit
    end in
  let limit := Z.min limitCandidate maxLimit in
  {| page := page; limit := limit; skip := (page - 1) * limit |}.

(** *** Schedules *)

Definition WEEKDAY_BY_INDEX : list string :=
  ["SUN"; "MON"; "TUE"; "WED"; "THU"; "FRI"; "SAT"].
Definition ALLOWED_DAY_CODES : list string :=
  ["MON"; "TUE"; "WED"; "THU"; "FRI"; "SAT"; "SUN"].

(** The value of a digit character. *)
Definition digit_value (c : ascii) : Z := Z.of_N (N_of_ascii c) - 48.

Definition char_between (lo hi c : ascii) : bool :=
  (nat_of_ascii lo <=? nat_of_ascii c)%nat && (nat_of_ascii c <=? nat_of_ascii hi)%nat.

(** [/^([01]\d|2[0-3]):[0-5]\d$/.test(s)] *)
Definition TIME_PATTERN (s : string) : bool :=
  match s with
  | String h1 (String h2 (String c (String m1 (String m2 EmptyString)))) =>
      ((char_between "0" "1" h1 && is_digit h2)
       || (Ascii.eqb h1 "2" && char_between "0" "3" h2))
      && Ascii.eqb c ":" && char_between "0" "5" m1 && is_digit m2
  | _ => false
  end.

Definition normalizeDaysOfWeek (input : Policy.RawList) : list string :=
  match input with
  | Policy.LArray days =>
      Policy.dedupe []
        (List.filter (fun day => Policy.member day ALLOWED_DAY_CODES)
           (map (fun day => toUpperCase (trim day)) days))
  | _ => []
  end.

(** normalizeTime: [None] is [null]. *)
Definition normalizeTime (value : string) : option string :=
  let normalized := trim value in
  if negb (truthy normalized) then Some EmptyString
  else if negb (TIME_PATTERN normalized) then None
  else Some normalized.

(** toMinutes: [None] is [null].  On a text the pattern matches, the two
    pieces around the colon are runs of digits, on which [Number] is the
    decimal value. *)
Definition toMinutes (timeValue : string) : option Z :=
  if negb (truthy timeValue) || negb (TIME_PATTERN timeValue) then None
  else
    match map (JsNum.digits_value 0) (split ":" timeValue) with
    | Some hours :: Some minutes :: _ => Some (hours * 60 + minutes)
    | _ => None
    end.

(** The schedule checks of the creation and update routes, on the
    normalised fields: the message of the 400 response, or [None] when the
    route goes on to store the course. *)
Definition validateSchedule (daysOfWeek : list string) (startTime endTime : option string)
  : option string :=
  match startTime, endTime with
  | Some st, Some en =>
      let hasAnySchedule :=
        negb (Nat.eqb (List.length daysOfWeek) 0) || truthy st || truthy en in
      if hasAnySchedule then
        if Nat.eqb (List.length daysOfWeek) 0 || negb (truthy st) || negb (truthy en)
        then Some "daysOfWeek, startTime and endTime must be provided together"
        else if negb (String.ltb st en)
        then Some "startTime must be earlier than endTime"
        else None
      else None
  | _, _ => Some "startTime and endTime must use HH:mm format"
  end.

Record ScheduledCourse : Type := {
  daysOfWeek : list string;
  startTime : string;
  endTime : string
}.

(** [now.getDay()], [now.getHours()], [now.getMinutes()] *)
Record Clock : Type := { getDay : nat; getHours : Z; getMinutes : Z }.

Record ScheduleMeta : Type := {
  hasSchedule : bool;
  scheduledToday : bool;
  inScheduleWindow : bool;
  upcomingToday : bool;
  rank : Z
}.

Definition evaluateCourseSchedule (course : ScheduledCourse) (now : Clock) : ScheduleMeta :=
  let unscheduled (has : bool) :=
    {| hasSchedule := has; scheduledToday := false; inScheduleWindow := false;
       upcomingToday := false; rank := 0 |} in
  match toMinutes (startTime course), toMinutes (endTime course) with
  | Some startMinutes, Some endMinutes =>
      if negb (Nat.ltb 0 (List.length (daysOfWeek course)) && (startMinutes <? endMinutes))
      then unscheduled false
      else
        let scheduledToday :=
          match nth_error WEEKDAY_BY_INDEX (getDay now) with
          | Some todayCode => Policy.member todayCode (daysOfWeek course)
          | None => false
          end in
        if negb scheduledToday then unscheduled true
        else
          let nowMinutes := getHours now * 60 + getMinutes now in
          if (startMinutes <=? nowMinutes) && (nowMinutes <=? endMinutes) then
            {| hasSchedule := true; scheduledToday := true; inScheduleWindow := true;
               upcomingToday := false; rank := 300 + (endMinutes - nowMinutes) |}
          else if nowMinutes <? startMinutes then
            {| hasSchedule := true; scheduledToday := true; inScheduleWindow := false;
               upcomingToday := true; rank := 200 - (startMinutes - nowMinutes) |}
          else
            {| hasSchedule := true; scheduledToday := true; inScheduleWindow := false;
               upcomingToday := false; rank := 100 - (nowMinutes - endMinutes) |}
  | _, _ => unscheduled false
  end.

(** *** The validators of the Course schema *)

(** DAY_CODES and DELIVERY_MODES of models/Course.js. *)
Definition DAY_CODES : list string :=
  ["MON"; "TUE"; "WED"; "THU"; "FRI"; "SAT"; "SUN"].
Definition DELIVERY_MODES : list string := ["in_person"; "online"; "hybrid"].

(** [days.every((day) => DAY_CODES.includes(day))] *)
Definition schema_daysOfWeek_valid (days : list string) : bool :=
  forallb (fun day => Policy.member day DAY_CODES) days.

(** [!value || TIME_PATTERN.test(value)] *)
Definition schema_time_valid (value : string) : bool :=
  negb (truthy value) || TIME_PATTERN value.

(** [enum: DELIVERY_MODES] *)
Definition schema_deliveryMode_valid (value : string) : bool :=
  Policy.member value DELIVERY_MODES.

End CourseRoutes.

(** ** Authentication, institution scope and the teacher-facing routes *)

Module Auth.
Import JsString.

(** The payload of a token.  A missing or falsy [exp] reads as [0]. *)
Record TokenPayload : Type := {
  sub : string;
  role : string;
  email : string;
  institutionId : option string;
  iat : Z;
  exp : Z
}.

(** A document of the authusers collection; [au_institutionId] is empty
    when the field is [null]. *)
Record AuthUserDoc : Type := {
  au_id : string;
  au_name : string;
  au_email : string;
  au_role : string;
  au_institutionId : string;
  au_isActive : bool
}.

(** What the middleware takes from the runtime and the libraries. *)
Class Runtime : Type := {
  (** [sign(unsignedToken)]: the HMAC-SHA256 tag under AUTH_SECRET,
      base64url without padding *)
  sign : string -> string;
  (** [toBase64Url(JSON.stringify({ alg: "HS256", typ: "JWT" }))] *)
  headerPart : string;
  (** [toBase64Url(JSON.stringify(payload))] *)
  payloadPart : TokenPayload -> string;
  (** [JSON.parse(fromBase64Url(part))]; [inl] is the message of the error
      thrown by the parser or by reading [exp] off the parsed value *)
  parsePayload : string -> string + TokenPayload;
  (** the message of the cast error a query by [_id] throws for this
      text, [None] when the text casts to an ObjectId *)
  ObjectId_cast_error : string -> option string;
  (** [mongoose.Types.ObjectId.isValid(s)] *)
  ObjectId_isValid : string -> bool;
  (** AUTH_TOKEN_TTL_SECONDS, 28800 when unset *)
  TOKEN_TTL_SECONDS : Z
}.

Section Operations.
Context {art : Runtime}.

(** createAuthToken at second [now] ([Math.floor(Date.now() / 1000)]). *)
Definition createAuthToken (now : Z) (user : AuthUserDoc) : string :=
  let payload :=
    {| sub := au_id user;
       role := au_role user;
       email := au_email user;
       institutionId :=
         if truthy (au_institutionId user) then Some (au_institutionId user) else None;
       iat := now;
       exp := now + TOKEN_TTL_SECONDS |} in
  let unsignedToken := headerPart +:+ "." +:+ payloadPart payload in
  unsignedToken +:+ "." +:+ sign unsignedToken.

(** verifyAuthToken: [inl] is the message of the error thrown.  On ASCII
    text [crypto.timingSafeEqual] of the two buffers is equality of the
    two strings. *)
Definition verifyAuthToken (now : Z) (token : string) : string + TokenPayload :=
  match split "." token with
  | [headerPart; payloadPart; signaturePart] =>
      let unsignedToken := headerPart +:+ "." +:+ payloadPart in
      let expectedSignature := sign unsignedToken in
      if negb (Nat.eqb (String.length signaturePart) (String.length expectedSignature))
      then inl "Invalid token signature"
      else if negb (String.eqb signaturePart expectedSignature)
      then inl "Invalid token signature"
      else
        match parsePayload payloadPart with
        | inl thrown => inl thrown
        | inr payload =>
            if (exp payload =? 0) || (exp payload <? now) then inl "Token expired"
            else inr payload
        end
  | _ => inl "Invalid token format"
  end.

(** getBearerToken: [None] is [null]. *)
Definition getBearerToken (authorization : string) : option string :=
  if negb (startsWith "Bearer " authorization) then None
  else Some (trim (slice 7 authorization)).

(** [AuthUser.findById(id)]: [inl] is the message of the cast error. *)
Definition AuthUser_findById (id : string) (users : list AuthUserDoc)
  : string + option AuthUserDoc :=
  match ObjectId_cast_error id with
  | Some thrown => inl thrown
  | None => inr (find (fun u => String.eqb (au_id u) id) users)
  end.

Definition unauthorized (msg : string) : Policy.HttpError :=
  {| Policy.status := 401;
     Policy.message := if truthy msg then msg else "Unauthorized" |}.

(** requireAuth: [inl] is the response sent instead of calling [next],
    [inr] what the request carries on ([req.authUser] and
    [req.authTokenPayload]). *)
Definition requireAuth (now : Z) (authorization : string) (users : list AuthUserDoc)
  : Policy.HttpError + (AuthUserDoc * TokenPayload) :=
  match getBearerToken authorization with
  | None => inl {| Policy.status := 401; Policy.message := "Missing bearer token" |}
  | Some token =>
      if negb (truthy token)
      then inl {| Policy.status := 401; Policy.message := "Missing bearer token" |}
      else
        match verifyAuthToken now token with
        | inl thrown => inl (unauthorized thrown)
        | inr payload =>
            match AuthUser_findById (sub payload) users with
            | inl thrown => inl (unauthorized thrown)
            | inr None =>
                inl {| Policy.status := 401; Policy.message := "Invalid or inactive user" |}
            | inr (Some user) =>
                if negb (au_isActive user)
                then inl {| Policy.status := 401;
                            Policy.message := "Invalid or inactive user" |}
                else inr (user, payload)
            end
        end
  end.

End Operations.

(** requireRoles(...roles) on [req.authUser]. *)
Definition requireRoles (roles : list string) (authUser : option AuthUserDoc)
  : Policy.HttpError + unit :=
  match authUser with
  | None => inl {| Policy.status := 401; Policy.message := "Unauthorized" |}
  | Some user =>
      if negb (Policy.member (au_role user) roles)
      then inl {| Policy.status := 403; Policy.message := "Insufficient permissions" |}
      else inr tt
  end.

End Auth.

Module Institution.
Import JsString.

(** The places a request can name an institution in, each through
    [String(value)], empty when absent. *)
Record RequestScope : Type := {
  header_x_institution_id : string;
  header_x_institution : string;
  header_institution_id : string;
  query_institutionId : string;
  query_institution : string;
  body_institutionId : string;
  body_institution : string
}.

(** [a || b] on strings *)
Definition js_or (a b : string) : string := if truthy a then a else b.

Definition getValue (input : string) : string := trim input.

Definition normalizeInstitutionId (value : string) : string :=
  let raw := getValue value in if truthy raw then raw else EmptyString.

Definition getRequestedInstitutionId (req : RequestScope) : string :=
  let headerValue :=
    js_or (header_x_institution_id req)
      (js_or (header_x_institution req) (header_institution_id req)) in
  if truthy (getValue headerValue) then getValue headerValue
  else
    let queryValue := js_or (query_institutionId req) (query_institution req) in
    if truthy (getValue queryValue) then getValue queryValue
    else
      let bodyValue := js_or (body_institutionId req) (body_institution req) in
      if truthy (getValue bodyValue) then getValue bodyValue
      else EmptyString.

Definition getAuthInstitutionId (authUser : option Auth.AuthUserDoc) : string :=
  match authUser with
  | None => EmptyString
  | Some u => getValue (Auth.au_institutionId u)
  end.

Definition isGlobalInstitutionRole (role : string) : bool :=
  String.eqb role "superadmin" || String.eqb role "admin".

Section Operations.
Context {art : Auth.Runtime}.

(** resolveInstitutionIdForRequest: [inl] is the error thrown. *)
Definition resolveInstitutionIdForRequest (authUser : option Auth.AuthUserDoc)
    (req : RequestScope) (allowSuperadminAll : bool) : Policy.HttpError + string :=
  match authUser with
  | None => inl {| Policy.status := 401; Policy.message := "Unauthorized" |}
  | Some user =>
      let requestedInstitutionId := normalizeInstitutionId (getRequestedInstitutionId req) in
      let userInstitutionId := normalizeInstitutionId (getAuthInstitutionId authUser) in
      if truthy requestedInstitutionId && negb (Auth.ObjectId_isValid requestedInstitutionId)
      then inl {| Policy.status := 400; Policy.message := "Invalid institutionId" |}
      else if isGlobalInstitutionRole (Auth.au_role user) then
        let effectiveInstitutionId := js_or requestedInstitutionId userInstitutionId in
        if negb (truthy effectiveInstitutionId) then
          if allowSuperadminAll then inr EmptyString
          else inl {| Policy.status := 400;
                      Policy.message :=
                        "Institution context is required for this operation" |}
        else inr effectiveInstitutionId
      else if negb (truthy userInstitutionId)
      then inl {| Policy.status := 403;
                  Policy.message := "Your account is not assigned to an institution" |}
      else if truthy requestedInstitutionId
              && negb (String.eqb requestedInstitutionId userInstitutionId)
      then inl {| Policy.status := 403;
                  Policy.message := "You cannot access data from another institution" |}
      else inr userInstitutionId
  end.

End Operations.

End Institution.

Module Routes.
Import JsString.

(** A document of the teacher-course assignments. *)
Record AssignmentDoc : Type := {
  ta_institutionId : string;
  ta_teacherId : string;
  ta_courseId : string;
  ta_isActive : bool
}.

(** [getAssignedCourseIdsForTeacher] *)
Definition getAssignedCourseIdsForTeacher (teacherId institutionId : string)
    (assignments : list AssignmentDoc) : list string :=
  List.filter truthy
    (map ta_courseId
       (List.filter (fun a => String.eqb (ta_institutionId a) institutionId
                              && String.eqb (ta_teacherId a) teacherId
                              && ta_isActive a) assignments)).

(** The [courseId] clause of a filter. *)
Inductive CourseClause : Type :=
| AnyCourse
| CourseIs (courseId : string)
| CourseIn (courseIds : list string).

(** What buildCourseScopedFilter returns: [null], ["forbidden"] or a
    filter object. *)
Inductive ScopedFilter : Type :=
| FilterNull
| FilterForbidden
| Filter (institutionId : string) (course : CourseClause).

(** [allowedCourseIds = None] when the argument is not an array. *)
Definition buildCourseScopedFilter (courseId : string) (allowedCourseIds : option (list string))
    (institutionId : string) : ScopedFilter :=
  match allowedCourseIds with
  | None =>
      if truthy courseId then Filter institutionId (CourseIs courseId)
      else Filter institutionId AnyCourse
  | Some allowed =>
      if Nat.eqb (List.length allowed) 0 then FilterNull
      else if truthy courseId then
        if negb (Policy.member courseId allowed) then FilterForbidden
        else Filter institutionId (CourseIs courseId)
      else Filter institutionId (CourseIn allowed)
  end.

(** Whether an attendance document satisfies a filter object. *)
Definition matches (institutionId : string) (course : CourseClause) (a : Store.AttendanceDoc)
  : bool :=
  String.eqb (Store.a_institutionId a) institutionId
  && match course with
     | AnyCourse => true
     | CourseIs c => String.eqb (Store.a_courseId a) c
     | CourseIn l => Policy.member (Store.a_courseId a) l
     end.

(** The response of a listing route. *)
Inductive Listing : Type :=
| Failed (status : Z) (message : string)
| Rows (data : list Store.AttendanceDoc).

Section Operations.
Context {rt : Builtins} {art : Auth.Runtime}.

(** The handler of [GET /api/attendance/by-date] behind requireAuth and
    requireRoles.  [Rows] holds the documents the query selects; the
    response lists them ordered by [universityRollNo]. *)
Definition attendance_by_date (authUser : Auth.AuthUserDoc) (scope : Institution.RequestScope)
    (date courseId : string) (assignments : list AssignmentDoc) (d : Store.Db) : Listing :=
  match Auth.requireRoles
          ["superadmin"; "admin"; "institution_admin"; "institution_user"; "teacher"]
          (Some authUser) with
  | inl e => Failed (Policy.status e) (Policy.message e)
  | inr _ =>
      match Institution.resolveInstitutionIdForRequest (Some authUser) scope false with
      | inl e => Failed (Policy.status e) (Policy.message e)
      | inr institutionId =>
          if negb (truthy date) then Failed 400 "Date parameter is required"
          else
            let filter :=
              if String.eqb (Auth.au_role authUser) "teacher" then
                buildCourseScopedFilter courseId
                  (Some (getAssignedCourseIdsForTeacher (Auth.au_id authUser) institutionId
                           assignments))
                  institutionId
              else buildCourseScopedFilter courseId None institutionId in
            match filter with
            | FilterNull => Rows []
            | FilterForbidden => Failed 403 "Course not assigned to this teacher"
            | Filter i c =>
                match (match c with
                       | CourseIs x => Auth.ObjectId_cast_error x
                       | _ => None
                       end) with
                | Some thrown => Failed 500 thrown
                | None =>
                    Rows (List.filter (fun a => matches i c a
                                                && String.eqb (Store.a_date a) date
                                                && String.eqb (Store.a_status a) "present")
                            (Store.attendances d))
                end
            end
      end
  end.

(** The response of [GET /api/generate-qr]. *)
Inductive QrResponse : Type :=
| QrFailed (status : Z) (message : string)
| QrIssued (result : QrGenerator.QrResult).

(** The context the handler passes to generateQRCode. *)
Definition issuance_context (authUser : Auth.AuthUserDoc) (institutionId : string)
    (course : Store.CourseDoc) : QrGenerator.SessionContext :=
  {| QrGenerator.ctx_generatedBy := Auth.au_id authUser;
     QrGenerator.ctx_generatedByRole := Auth.au_role authUser;
     QrGenerator.ctx_generatedByName := Auth.au_name authUser;
     QrGenerator.ctx_institutionId := institutionId;
     QrGenerator.ctx_courseId := Store.c_id course;
     QrGenerator.ctx_courseCode := Store.c_code course;
     QrGenerator.ctx_courseName := Store.c_name course;
     QrGenerator.ctx_section := Store.c_section course |}.

(** [GET /api/generate-qr]: requireAuth, requireRoles("teacher"), the
    rate limiter ([limited] when it answers 429) and the handler. *)
Definition generate_qr (now : Z) (authorization : string) (users : list Auth.AuthUserDoc)
    (limited : bool) (scope : Institution.RequestScope) (courseId ip : string)
    (assignments : list AssignmentDoc) (d : QrGenerator.Draw) (w : Server.World)
  : QrResponse * Server.World :=
  match Auth.requireAuth now authorization users with
  | inl e => (QrFailed (Policy.status e) (Policy.message e), w)
  | inr (authUser, _) =>
      match Auth.requireRoles ["teacher"] (Some authUser) with
      | inl e => (QrFailed (Policy.status e) (Policy.message e), w)
      | inr _ =>
          if limited then (QrFailed 429 "Too many QR requests. Please wait a minute.", w)
          else
            match Institution.resolveInstitutionIdForRequest (Some authUser) scope false with
            | inl e => (QrFailed (Policy.status e) (Policy.message e), w)
            | inr institutionId =>
                if negb (truthy courseId)
                then (QrFailed 400 "courseId is required to generate QR", w)
                else
                  match Auth.ObjectId_cast_error courseId with
                  | Some _ => (QrFailed 500 "Failed to generate QR code", w)
                  | None =>
                      match Store.Course_findOne courseId institutionId (Server.db w) with
                      | None => (QrFailed 404 "Course not found", w)
                      | Some course =>
                          if String.eqb (Auth.au_role authUser) "teacher"
                             && negb (existsb
                                        (fun a =>
                                           String.eqb (ta_institutionId a) institutionId
                                           && String.eqb (ta_teacherId a) (Auth.au_id authUser)
                                           && String.eqb (ta_courseId a) (Store.c_id course)
                                           && ta_isActive a) assignments)
                          then (QrFailed 403 "Teacher is not assigned to this course", w)
                          else
                            match QrGenerator.generateQRCode ip
                                    (issuance_context authUser institutionId course) d
                                    (Server.qr w) with
                            | (Some qrData, qr') =>
                                (QrIssued qrData,
                                 {| Server.qr := qr'; Server.db := Server.db w |})
                            | (None, qr') =>
                                (QrFailed 500 "Failed to generate QR code",
                                 {| Server.qr := qr'; Server.db := Server.db w |})
                            end
                      end
                  end
            end
      end
  end.

(** *** validate-session *)

Record InstitutionDoc : Type := {
  i_id : string;
  i_name : string;
  i_shortName : string;
  i_logoUrl : string
}.

Record InstitutionBrand : Type := {
  brand_id : string;
  brand_name : string;
  brand_logoUrl : string
}.

Record PolicyFlags : Type := {
  pf_singleDevicePerDay : bool;
  pf_requireSignature : bool;
  pf_requireEnrollment : bool;
  pf_requireIpAllowlist : bool;
  pf_requireGeofence : bool
}.

(** The [session] object of the response. *)
Record SessionView : Type := {
  sv_policy : PolicyFlags;
  sv_institutionId : option string;
  sv_institutionBrand : option InstitutionBrand;
  sv_courseId : option string;
  sv_courseCode : option string;
  sv_courseName : option string;
  sv_section : option string;
  sv_courseDeliveryMode : string;
  sv_requiresLocation : bool;
  sv_requiresSignature : bool
}.

Record ValidateResponse : Type := {
  vr_status : Z;
  vr_valid : bool;
  vr_message : string;
  vr_session : option SessionView
}.

(** The handler of [POST /api/validate-session]. *)
Definition validate_session (now : Z) (sessionId : string)
    (institutions : list InstitutionDoc) (w : Server.World)
  : ValidateResponse * QrGenerator.State :=
  if negb (truthy sessionId)
  then ({| vr_status := 400; vr_valid := false; vr_message := "Session ID required";
           vr_session := None |}, Server.qr w)
  else
    let (sessionDetails, qr') := QrGenerator.getSessionDetails now sessionId (Server.qr w) in
    match sessionDetails with
    | None =>
        ({| vr_status := 200; vr_valid := false;
            vr_message := "Invalid or expired session ID"; vr_session := None |}, qr')
    | Some (_, session) =>
        let institutionBrand :=
          match Server.present (QrGenerator.institutionId session) with
          | Some institutionId =>
              if Auth.ObjectId_isValid institutionId then
                match find (fun i => String.eqb (i_id i) institutionId) institutions with
                | Some institution =>
                    Some {| brand_id := i_id institution;
                            brand_name :=
                              Institution.js_or (i_shortName institution)
                                (i_name institution);
                            brand_logoUrl := i_logoUrl institution |}
                | None => None
                end
              else None
          | None => None
          end in
        let found :=
          match Server.present (QrGenerator.institutionId session),
                Server.present (QrGenerator.courseId session) with
          | Some institutionId, Some courseId =>
              if Auth.ObjectId_isValid institutionId && Auth.ObjectId_isValid courseId
              then Store.Course_findOne courseId institutionId (Server.db w)
              else None
          | _, _ => None
          end in
        let courseDeliveryMode :=
          match found with
          | Some course => Policy.normalizeDeliveryMode (Store.c_deliveryMode course)
          | None => "in_person"
          end in
        let attendancePolicy :=
          match found with
          | Some course =>
              Policy.normalizeAttendancePolicy (Store.c_attendancePolicy course)
                courseDeliveryMode
          | None => Policy.normalizeAttendancePolicy (Some Policy.empty_raw) courseDeliveryMode
          end in
        ({| vr_status := 200; vr_valid := true; vr_message := "Valid session";
            vr_session :=
              Some {| sv_policy :=
                        {| pf_singleDevicePerDay := Policy.singleDevicePerDay attendancePolicy;
                           pf_requireSignature := Policy.requireSignature attendancePolicy;
                           pf_requireEnrollment := Policy.requireEnrollment attendancePolicy;
                           pf_requireIpAllowlist := Policy.requireIpAllowlist attendancePolicy;
                           pf_requireGeofence := Policy.requireGeofence attendancePolicy |};
                      sv_institutionId := Server.present (QrGenerator.institutionId session);
                      sv_institutionBrand := institutionBrand;
                      sv_courseId := QrGenerator.courseId session;
                      sv_courseCode := QrGenerator.courseCode session;
                      sv_courseName := QrGenerator.courseName session;
                      sv_section := QrGenerator.section session;
                      sv_courseDeliveryMode := courseDeliveryMode;
                      sv_requiresLocation := Policy.requireGeofence attendancePolicy;
                      sv_requiresSignature := Policy.requireSignature attendancePolicy |} |},
         qr')
    end.

End Operations.

(** consistentHashJS *)
Definition hash_step (hash : Z) (c : ascii) : Z :=
  JsNum.ushr0 (hash * 31 + Z.of_nat (nat_of_ascii c)).

Fixpoint hash_loop (hash : Z) (input : string) : Z :=
  match input with
  | EmptyString => hash
  | String c r => hash_loop (hash_step hash c) r
  end.

(** [n.toString(16)] for [0 <= n < 2^32]: at most eight digits. *)
Fixpoint hex_digits (fuel : nat) (n : N) (acc : string) : string :=
  match fuel with
  | O => acc
  | S k =>
      let acc' := String (QrGenerator.hex_digit (n mod 16)%N) acc in
      if (n / 16 =? 0)%N then acc' else hex_digits k (n / 16)%N acc'
  end.

Definition toString16 (n : Z) : string := hex_digits 8 (Z.to_N n) EmptyString.

(** [s.padStart(n, c)] *)
Definition padStart (n : nat) (c : ascii) (s : string) : string :=
  Examples.replicate (n - String.length s) c +:+ s.

Definition consistentHashJS (input : string) : string :=
  padStart 8 "0" (toString16 (hash_loop 0 input)).

(** [/^[0-9a-f]{8}$/.test(s)], the format the route demands of the
    external program's output. *)
Definition is_hex_char (c : ascii) : bool :=
  is_digit c || CourseRoutes.char_between "a" "f" c.

Definition fingerprint_format (s : string) : bool :=
  Nat.eqb (String.length s) 8 && Server.all_chars is_hex_char s.

(** The number a hexadecimal text denotes. *)
Fixpoint hex_number (acc : N) (s : string) : option N :=
  match s with
  | EmptyString => Some acc
  | String c r =>
      match QrGenerator.hex_value c with
      | Some v => hex_number (16 * acc + v)%N r
      | None => None
      end
  end.

End Routes.

(** ** One teacher and one runtime, for running the routes *)

Module AccessExamples.
Import JsString.

Definition teacher : Auth.AuthUserDoc :=
  {| Auth.au_id := "teacher1";
     Auth.au_name := "T. Eacher";
     Auth.au_email := "t.eacher@uni.edu";
     Auth.au_role := "teacher";
     Auth.au_institutionId := "inst1";
     Auth.au_isActive := true |}.

(** The payload of a token made for the teacher at second 1000 with the
    default lifetime. *)
Definition teacher_payload : Auth.TokenPayload :=
  {| Auth.sub := "teacher1";
     Auth.role := "teacher";
     Auth.email := "t.eacher@uni.edu";
     Auth.institutionId := Some "inst1";
     Auth.iat := 1000;
     Auth.exp := 29800 |}.

Fixpoint checksum (acc : Z) (s : string) : Z :=
  match s with
  | EmptyString => acc
  | String c r => checksum ((acc * 31 + Z.of_nat (nat_of_ascii c)) mod 1000003) r
  end.

Definition encode_payload (p : Auth.TokenPayload) : string :=
  "sub-" +:+ Auth.sub p +:+ "-exp-" +:+ decimal (Auth.exp p).

Definition alphanumeric (s : string) : bool :=
  truthy s && Server.all_chars (fun c => is_digit c || is_lower c || is_upper c) s.

(** A stand-in runtime: a checksum for the tag, a readable text for the
    encoded payload, decoded for the teacher's payload alone, and
    identifiers that cast whenever they are alphanumeric. *)
Definition runtime : Auth.Runtime :=
  {| Auth.sign := fun s => decimal (checksum 7 s);
     Auth.headerPart := "eyJhbGciOiJIUzI1NiIsInR5cCI6IkpXVCJ9";
     Auth.payloadPart := encode_payload;
     Auth.parsePayload :=
       fun s => if String.eqb s (encode_payload teacher_payload) then inr teacher_payload
                else inl "Unexpected token in JSON";
     Auth.ObjectId_cast_error :=
       fun s => if alphanumeric s then None else Some "Cast to ObjectId failed";
     Auth.ObjectId_isValid := alphanumeric;
     Auth.TOKEN_TTL_SECONDS := 28800 |}.

Definition bearer : string :=
  "Bearer " +:+ Auth.createAuthToken (art := runtime) 1000 teacher.

(** A request that names no institution, and one that names another. *)
Definition no_scope : Institution.RequestScope :=
  {| Institution.header_x_institution_id := EmptyString;
     Institution.header_x_institution := EmptyString;
     Institution.header_institution_id := EmptyString;
     Institution.query_institutionId := EmptyString;
     Institution.query_institution := EmptyString;
     Institution.body_institutionId := EmptyString;
     Institution.body_institution := EmptyString |}.

Definition own_scope : Institution.RequestScope :=
  {| Institution.header_x_institution_id := " inst1 ";
     Institution.header_x_institution := EmptyString;
     Institution.header_institution_id := EmptyString;
     Institution.query_institutionId := "inst2";
     Institution.query_institution := EmptyString;
     Institution.body_institutionId := EmptyString;
     Institution.body_institution := EmptyString |}.

Definition assignment : Routes.AssignmentDoc :=
  {| Routes.ta_institutionId := "inst1";
     Routes.ta_teacherId := "teacher1";
     Routes.ta_courseId := "course1";
     Routes.ta_isActive := true |}.

(** The classroom before any session was issued. *)
Definition quiet_classroom : Server.World :=
  {| Server.qr := QrGenerator.initial;
     Server.db := Server.db (Examples.classroom (Examples.raw true false true false [])) |}.

(** The data store after Ada's attendance was marked. *)
Definition marked : Server.World :=
  snd (Server.mark_attendance (rt := Examples.node) (Examples.tick 2000 "u1")
         (Examples.submission "Ada Lovelace" "ada@uni.edu" "dev1" EmptyString)
         (Examples.classroom (Examples.raw true false true false []))).

End AccessExamples.

(** * Facts *)

(** ** 32-bit arithmetic *)

Module JsNumFacts.
Import JsNum.

Lemma toUint32_range z : 0 <= toUint32 z < 2 ^ 32.
Proof. unfold toUint32. apply Z.mod_pos_bound. lia. Qed.

Lemma toUint32_small z : 0 <= z < 2 ^ 32 -> toUint32 z = z.
Proof. intros H. unfold toUint32. apply Z.mod_small. exact H. Qed.

Lemma toUint32_toInt32 z : toUint32 (toInt32 z) = toUint32 z.
Proof.
  unfold toInt32. pose proof (toUint32_range z) as R.
  destruct (toUint32 z <? 2 ^ 31) eqn:E.
  - apply toUint32_small. exact R.
  - unfold toUint32 in *.
    replace (z mod 2 ^ 32 - 2 ^ 32) with (z mod 2 ^ 32 + (-1) * 2 ^ 32) by ring.
    rewrite Z.mod_add by lia. apply Z.mod_mod. lia.
Qed.

Lemma toInt32_inj x y : toInt32 x = toInt32 y <-> toUint32 x = toUint32 y.
Proof.
  split; intros H.
  - rewrite <- (toUint32_toInt32 x), <- (toUint32_toInt32 y). now rewrite H.
  - unfold toInt32. now rewrite H.
Qed.

Lemma toUint32_add_l a b : toUint32 (toInt32 a + b) = toUint32 (a + b).
Proof.
  unfold toUint32 at 1. rewrite Z.add_mod by lia.
  fold (toUint32 (toInt32 a)). rewrite toUint32_toInt32.
  unfold toUint32. rewrite <- Z.add_mod by lia. reflexivity.
Qed.

Lemma toUint32_mul_l a b : toUint32 (toInt32 a * b) = toUint32 (a * b).
Proof.
  unfold toUint32 at 1. rewrite Z.mul_mod by lia.
  fold (toUint32 (toInt32 a)). rewrite toUint32_toInt32.
  unfold toUint32. rewrite <- Z.mul_mod by lia. reflexivity.
Qed.

(** One turn of the accumulation [(value << 8) + numeric], modulo 2^32. *)
Lemma shl8_add v n : toUint32 (shl v 8 + n) = toUint32 (v * 256 + n).
Proof.
  unfold shl. change (Z.land (toUint32 8) 31) with 8.
  rewrite Z.shiftl_mul_pow2 by lia. change (2 ^ 8) with 256.
  rewrite toUint32_add_l.
  unfold toUint32 at 1. rewrite Z.add_mod by lia.
  fold (toUint32 (toInt32 v * 256)). rewrite toUint32_mul_l.
  unfold toUint32. rewrite <- Z.add_mod by lia. reflexivity.
Qed.

Lemma shl8_add_cong v w n :
  toUint32 v = toUint32 w -> toUint32 (shl v 8 + n) = toUint32 (w * 256 + n).
Proof.
  intros H. rewrite shl8_add.
  unfold toUint32 in *.
  rewrite Z.add_mod, Z.mul_mod, H, <- Z.mul_mod, <- Z.add_mod by lia.
  reflexivity.
Qed.

Lemma land_toUint32 x y : toUint32 (Z.land x y) = Z.land (toUint32 x) (toUint32 y).
Proof.
  unfold toUint32. rewrite <- !Z.land_ones by lia.
  apply Z.bits_inj'. intros i Hi. rewrite !Z.land_spec.
  destruct (Z.testbit x i), (Z.testbit y i), (Z.testbit (Z.ones 32) i); reflexivity.
Qed.

Lemma land_range a m : 0 <= a < 2 ^ 32 -> 0 <= m -> 0 <= Z.land a m < 2 ^ 32.
Proof.
  intros Ha Hm. split.
  - apply Z.land_nonneg. lia.
  - assert (E : Z.land a m = Z.land a m mod 2 ^ 32).
    { rewrite <- Z.land_ones by lia.
      rewrite <- Z.land_assoc, (Z.land_comm m), Z.land_assoc.
      rewrite (Z.land_ones a) by lia. rewrite Z.mod_small by lia. reflexivity. }
    rewrite E. apply Z.mod_pos_bound. lia.
Qed.

(** [(a & m) === (b & m)] compares the masked unsigned values. *)
Lemma band_eqb a b m :
  0 <= a < 2 ^ 32 -> 0 <= b < 2 ^ 32 -> 0 <= m < 2 ^ 32 ->
  (band a m =? band b m) = (Z.land a m =? Z.land b m).
Proof.
  intros Ha Hb Hm.
  assert (U : forall x, 0 <= x < 2 ^ 32 -> toUint32 (band x m) = Z.land x m).
  { intros x Hx. unfold band. rewrite toUint32_toInt32, land_toUint32,
      !toUint32_toInt32, !toUint32_small by lia. reflexivity. }
  destruct (Z.eqb_spec (Z.land a m) (Z.land b m)) as [E|E].
  - apply Z.eqb_eq. unfold band.
    apply toInt32_inj. rewrite !land_toUint32, !toUint32_toInt32.
    rewrite !toUint32_small by lia. exact E.
  - apply Z.eqb_neq. intros C. apply E.
    rewrite <- (U a Ha), <- (U b Hb), C. reflexivity.
Qed.

End JsNumFacts.

(** ** IPv4 allowlist matching *)

Module NetworkFacts.
Import JsString JsNum JsNumFacts Network.

Section Facts.
Context {rt : Builtins}.

Lemma ipv4_step_None parts : fold_left ipv4_step parts None = None.
Proof. induction parts as [|p r IH]; simpl; auto. Qed.

Lemma ipv4_step_octet value part :
  ipv4_step (Some value) part =
  match octet part with
  | Some n => Some (shl value 8 + n)
  | None => None
  end.
Proof.
  unfold ipv4_step, octet.
  destruct (integer (Number part)) as [n|]; [|reflexivity].
  destruct (n <? 0) eqn:E1, (n >? 255) eqn:E2, (0 <=? n) eqn:E3, (n <=? 255) eqn:E4;
    simpl; try reflexivity; lia.
Qed.

Lemma octet_range part n : octet part = Some n -> 0 <= n <= 255.
Proof.
  unfold octet. destruct (integer (Number part)) as [m|]; [|discriminate].
  destruct (0 <=? m) eqn:E1, (m <=? 255) eqn:E2; simpl; intros [= <-]; lia.
Qed.

(** ipv4ToInt computes the address of a dotted quad, and returns
    [null] exactly on the malformed ones. *)
Lemma ipv4ToInt_dotted_quad s : ipv4ToInt s = dotted_quad s.
Proof.
  unfold ipv4ToInt, dotted_quad.
  destruct (split "." s) as [|p1 [|p2 [|p3 [|p4 [|p5 r]]]]]; try reflexivity.
  cbn [List.length Nat.eqb negb fold_left].
  rewrite ipv4_step_octet.
  destruct (octet p1) as [a|] eqn:Ha; [|reflexivity].
  rewrite ipv4_step_octet.
  destruct (octet p2) as [b|] eqn:Hb; [|reflexivity].
  rewrite ipv4_step_octet.
  destruct (octet p3) as [c|] eqn:Hc; [|reflexivity].
  rewrite ipv4_step_octet.
  destruct (octet p4) as [d|] eqn:Hd; [|reflexivity].
  apply octet_range in Ha, Hb, Hc, Hd.
  f_equal. unfold ushr0.
  rewrite (shl8_add_cong _ ((a * 256 + b) * 256 + c)).
  - apply toUint32_small. lia.
  - rewrite (shl8_add_cong _ (a * 256 + b)); [reflexivity|].
    rewrite (shl8_add_cong _ a); [reflexivity|].
    rewrite shl8_add. reflexivity.
Qed.

Lemma dotted_quad_range s a : dotted_quad s = Some a -> 0 <= a < 2 ^ 32.
Proof.
  unfold dotted_quad.
  destruct (split "." s) as [|p1 [|p2 [|p3 [|p4 [|p5 r]]]]]; try discriminate.
  destruct (octet p1) eqn:H1; [|discriminate].
  destruct (octet p2) eqn:H2; [|discriminate].
  destruct (octet p3) eqn:H3; [|discriminate].
  destruct (octet p4) eqn:H4; [|discriminate].
  apply octet_range in H1, H2, H3, H4. intros [= <-]. lia.
Qed.

Lemma dotted_quad_nonempty s a : dotted_quad s = Some a -> truthy s = true.
Proof. destruct s; [discriminate|reflexivity]. Qed.

End Facts.

Lemma split_nonempty sep s : split sep s <> [].
Proof.
  destruct s as [|c r]; simpl; [discriminate|].
  destruct (Ascii.eqb c sep); [discriminate|].
  destruct (split sep r); discriminate.
Qed.

Lemma split_second_includes sep s x :
  nth_error (split sep s) 1 = Some x -> includes sep s = true.
Proof.
  induction s as [|c r IH]; simpl; [discriminate|].
  destruct (Ascii.eqb c sep) eqn:E; [reflexivity|].
  simpl. destruct (split sep r) as [|h t] eqn:S; [discriminate|].
  simpl in *. exact IH.
Qed.

Lemma code_mask_top_bits p : 0 <= p <= 32 -> code_mask p = mask_top_bits p.
Proof.
  intros H.
  assert (C : forallb (fun n => code_mask (Z.of_nat n) =? mask_top_bits (Z.of_nat n))
                (seq 0 33) = true) by (vm_compute; reflexivity).
  rewrite forallb_forall in C.
  specialize (C (Z.to_nat p)). rewrite Z2Nat.id in C by lia.
  apply Z.eqb_eq, C, in_seq. lia.
Qed.

Lemma mask_top_bits_range p : 0 <= p <= 32 -> 0 <= mask_top_bits p < 2 ^ 32.
Proof.
  intros H.
  assert (C : forallb (fun n => (0 <=? mask_top_bits (Z.of_nat n))
                                && (mask_top_bits (Z.of_nat n) <? 2 ^ 32))
                (seq 0 33) = true) by (vm_compute; reflexivity).
  rewrite forallb_forall in C.
  specialize (C (Z.to_nat p)). rewrite Z2Nat.id in C by lia.
  assert (I : In (Z.to_nat p) (seq 0 33)) by (apply in_seq; lia).
  apply C in I. apply andb_true_iff in I. lia.
Qed.

(** Bit [i] of the mask is set exactly for the top [p] of the 32 bits. *)
Lemma mask_top_bits_spec p i :
  0 <= p <= 32 -> 0 <= i ->
  Z.testbit (mask_top_bits p) i = (32 - p <=? i) && (i <? 32).
Proof.
  intros Hp Hi. unfold mask_top_bits.
  rewrite Z.shiftl_spec by lia.
  destruct (32 - p <=? i) eqn:E1; simpl.
  - destruct (i <? 32) eqn:E2.
    + apply Z.ones_spec_low. lia.
    + apply Z.ones_spec_high. lia.
  - apply Z.testbit_neg_r. lia.
Qed.

Section Matching.
Context {rt : Builtins}.

(** isIpv4CidrMatch in the specification's terms. *)
Lemma isIpv4CidrMatch_spec ip cidr :
  isIpv4CidrMatch ip cidr =
  match cidr_prefix cidr, dotted_quad ip, dotted_quad (cidr_base cidr) with
  | Some p, Some a, Some b =>
      Z.land a (mask_top_bits p) =? Z.land b (mask_top_bits p)
  | _, _, _ => false
  end.
Proof.
  unfold isIpv4CidrMatch, cidr_prefix, cidr_base, prefix_number.
  destruct (nth_error (split "/" cidr) 1) as [raw|]; simpl; [|reflexivity].
  destruct (integer (Number raw)) as [p|]; [|reflexivity].
  destruct (p <? 0) eqn:E1, (p >? 32) eqn:E2, (0 <=? p) eqn:E3, (p <=? 32) eqn:E4;
    simpl; try reflexivity; try lia.
  rewrite !ipv4ToInt_dotted_quad.
  destruct (dotted_quad ip) as [a|] eqn:Ha; [|reflexivity].
  destruct (dotted_quad (hd EmptyString (split "/" cidr))) as [b|] eqn:Hb; [|reflexivity].
  fold (code_mask p). rewrite code_mask_top_bits by lia.
  apply band_eqb.
  - eapply dotted_quad_range; eassumption.
  - eapply dotted_quad_range; eassumption.
  - apply mask_top_bits_range. lia.
Qed.

Lemma cidr_prefix_range cidr p : cidr_prefix cidr = Some p -> 0 <= p <= 32.
Proof.
  unfold cidr_prefix. destruct (nth_error _ 1); [|discriminate].
  destruct (integer _) as [q|]; [|discriminate].
  destruct (0 <=? q) eqn:E1, (q <=? 32) eqn:E2; simpl; intros [= <-]; lia.
Qed.

Lemma cidr_prefix_includes cidr p : cidr_prefix cidr = Some p -> includes "/" cidr = true.
Proof.
  unfold cidr_prefix. destruct (nth_error _ 1) eqn:E; [|discriminate].
  intros _. eapply split_second_includes; eassumption.
Qed.

Lemma includes_truthy c s : includes c s = true -> truthy s = true.
Proof. destruct s; [discriminate|reflexivity]. Qed.

(** The callback of [some], by the form of the normalised entry. *)
Lemma entry_allows_cidr ip entryRaw :
  includes "/" (normalizeClientIp entryRaw) = true ->
  entry_allows ip entryRaw = isIpv4CidrMatch ip (normalizeClientIp entryRaw).
Proof.
  intros H. unfold entry_allows. rewrite H, (includes_truthy _ _ H). reflexivity.
Qed.

Lemma entry_allows_exact ip entryRaw :
  includes "/" (normalizeClientIp entryRaw) = false ->
  entry_allows ip entryRaw =
  truthy (normalizeClientIp entryRaw) && String.eqb ip (normalizeClientIp entryRaw).
Proof.
  intros H. unfold entry_allows. rewrite H.
  destruct (truthy (normalizeClientIp entryRaw)); simpl; [|reflexivity].
  destruct (net_isIP ip && net_isIP (normalizeClientIp entryRaw)
            && String.eqb ip (normalizeClientIp entryRaw)) eqn:E; [|reflexivity].
  apply andb_true_iff in E. symmetry. apply E.
Qed.







Lemma split_base_prefix base raw :
  includes "/" base = false -> includes "/" raw = false ->
  split "/" (base +:+ String "/" raw) = [base; raw].
Proof.
  intros Hb Hr. induction base as [|c b IH].
  - change (EmptyString +:+ String "/" raw) with (String "/" raw).
    cbn [split]. rewrite Ascii.eqb_refl.
    clear Hb. f_equal. induction raw as [|d r IHr]; [reflexivity|].
    cbn [includes] in Hr. apply orb_false_iff in Hr. destruct Hr as [Hd Hr].
    cbn [split]. rewrite Hd, (IHr Hr). reflexivity.
  - cbn [includes] in Hb. apply orb_false_iff in Hb. destruct Hb as [Hc Hb].
    change (String c b +:+ String "/" raw) with (String c (b +:+ String "/" raw)).
    cbn [split]. rewrite Hc, (IH Hb). reflexivity.
Qed.

End Matching.




End NetworkFacts.

(** C6.  For a candidate that is a dotted quad with address [a] and an
    allowlist entry [base/prefix] whose base is a dotted quad with address
    [b] and whose prefix is an integer [p] between 0 and 32, the allowlist
    check of the candidate against that entry answers exactly whether
    [a & mask = b & mask], where [mask] has the top [p] of 32 bits set.  In
    particular 10.0.0.5 matches 10.0.0.0/24, 10.0.1.5 does not, and
    192.168.1.10 matches the entry 192.168.1.10 by exact match. *)
Theorem cidr_entry_matches_iff_masked_equal :
  (forall (rt : Builtins) (candidate entryRaw : string) (p a b : Z),
      Network.cidr_prefix (Network.normalizeClientIp entryRaw) = Some p ->
      Network.dotted_quad (Network.normalizeClientIp candidate) = Some a ->
      Network.dotted_quad (Network.cidr_base (Network.normalizeClientIp entryRaw)) = Some b ->
      Network.ipv4ToInt (Network.normalizeClientIp candidate) = Some a /\
      Network.ipv4ToInt (Network.cidr_base (Network.normalizeClientIp entryRaw)) = Some b /\
      0 <= p <= 32 /\
      (forall i, 0 <= i ->
                 Z.testbit (Network.mask_top_bits p) i = (32 - p <=? i) && (i <? 32)) /\
      Network.isIpAllowedByAllowlist candidate [entryRaw]
      = (Z.land a (Network.mask_top_bits p) =? Z.land b (Network.mask_top_bits p)))
  /\ Examples.isAllowed "10.0.0.5" "10.0.0.0/24" = true
  /\ Examples.isAllowed "10.0.1.5" "10.0.0.0/24" = false
  /\ Examples.isAllowed "192.168.1.10" "192.168.1.10" = true.
Proof.
  split; [|repeat split; vm_compute; reflexivity].
  intros rt candidate entryRaw p a b Hp Ha Hb.
  pose proof (NetworkFacts.cidr_prefix_range _ _ Hp) as Rp.
  rewrite !NetworkFacts.ipv4ToInt_dotted_quad.
  repeat split; try assumption; try lia.
  - intros i Hi. apply NetworkFacts.mask_top_bits_spec; lia.
  - unfold Network.isIpAllowedByAllowlist.
    rewrite (NetworkFacts.dotted_quad_nonempty _ _ Ha). simpl.
    rewrite NetworkFacts.entry_allows_cidr
      by (eapply NetworkFacts.cidr_prefix_includes; eassumption).
    rewrite NetworkFacts.isIpv4CidrMatch_spec, Hp, Ha, Hb.
    apply orb_false_r.
Qed.

Lemma cidr_entry_matches_iff_masked_equal_witness :
  Network.isIpAllowedByAllowlist (rt := Examples.node) "10.0.0.5" ["10.0.0.0/24"]
  = (Z.land 167772165 (Network.mask_top_bits 24) =? Z.land 167772160 (Network.mask_top_bits 24)).
Proof.
  apply (proj1 cidr_entry_matches_iff_masked_equal Examples.node
           "10.0.0.5" "10.0.0.0/24" 24 167772165 167772160);
    vm_compute; reflexivity.
Defined.


(** Outside the amended claim: the octets and the prefix are read with
    [Number], which reads some texts that are no decimal numerals as
    integers.  It reads the empty text as 0, so an entry that ends in
    its slash, [base/], is taken for [base/0] and matches every
    well-formed address: on such an entry the check does not fail
    closed. *)
Lemma empty_prefix_matches_every_address :
  forall (rt : Builtins) (ip base : string) (a b : Z),
    Number EmptyString = JsNum.Finite 0 ->
    JsString.includes "/" base = false ->
    Network.dotted_quad ip = Some a ->
    Network.dotted_quad base = Some b ->
    Network.isIpv4CidrMatch ip (base +:+ "/") = true.
Proof.
  intros rt ip base a b H0 Hs Ha Hb.
  change (base +:+ "/") with (base +:+ String "/" EmptyString).
  rewrite NetworkFacts.isIpv4CidrMatch_spec.
  unfold Network.cidr_prefix, Network.cidr_base.
  rewrite (NetworkFacts.split_base_prefix base EmptyString Hs eq_refl).
  cbn [nth_error hd]. rewrite H0, Ha, Hb.
  change (JsNum.integer (JsNum.Finite 0)) with (Some 0).
  change (Network.mask_top_bits 0) with 0.
  cbn [Z.leb Z.compare andb]. rewrite !Z.land_0_r. reflexivity.
Qed.

Example empty_prefix_reads_as_zero :
  Examples.isAllowed "8.8.8.8" "10.0.0.0/" = true /\
  Network.malformed_cidr (rt := Examples.node) "10.0.0.0/" = false.
Proof. split; vm_compute; reflexivity. Qed.



(** ** The session store *)

Module SessionFacts.
Import JsString QrGenerator.

Lemma hex_of_byte_inv b :
  exists hi lo, hex_of_byte b = String hi (String lo EmptyString) /\
                hex_value hi = Some (Byte.to_N b / 16)%N /\
                hex_value lo = Some (Byte.to_N b mod 16)%N.
Proof.
  unfold hex_of_byte. eexists. eexists. split; [reflexivity|].
  destruct b; vm_compute; split; reflexivity.
Qed.

Lemma fromHex_toHex bytes : fromHex (List.length bytes) (toHex bytes) = Some bytes.
Proof.
  induction bytes as [|b r IH]; [reflexivity|].
  destruct (hex_of_byte_inv b) as [hi [lo [E [Hh Hl]]]].
  cbn [toHex List.length]. rewrite E.
  change (String hi (String lo EmptyString) +:+ toHex r)
    with (String hi (String lo (toHex r))).
  cbn [fromHex]. rewrite Hh, Hl, IH.
  replace (16 * (Byte.to_N b / 16) + Byte.to_N b mod 16)%N with (Byte.to_N b)
    by (rewrite <- N.div_mod by discriminate; reflexivity).
  rewrite Byte.of_to_N. reflexivity.
Qed.

Lemma toHex_length bytes : String.length (toHex bytes) = (2 * List.length bytes)%nat.
Proof.
  induction bytes as [|b r IH]; [reflexivity|].
  destruct (hex_of_byte_inv b) as [hi [lo [E _]]].
  cbn [toHex List.length]. rewrite E.
  change (String hi (String lo EmptyString) +:+ toHex r)
    with (String hi (String lo (toHex r))).
  cbn [String.length]. rewrite IH. lia.
Qed.

(** Distinct draws of the same length give distinct identifiers. *)
Lemma toHex_injective b1 b2 :
  List.length b1 = List.length b2 -> toHex b1 = toHex b2 -> b1 = b2.
Proof.
  intros L E. pose proof (fromHex_toHex b1) as H1. pose proof (fromHex_toHex b2) as H2.
  rewrite E, L, H2 in H1. now inversion H1.
Qed.

Section Facts.
Context {rt : Builtins}.

Lemma issue_ok ipAddress c d st :
  toFile_ok d = true ->
  exists r st',
    issue ipAddress c d st = (Some r, st') /\
    sessionId r = toHex (randomBytes16 d) /\
    expiresIn r = QR_CODE_VALIDITY /\
    exists s, activeSessions st' !! sessionId r = Some s /\
              createdAt s = now_stamp d /\
              expiresAt s = now_stamp d + QR_CODE_VALIDITY.
Proof.
  intros Hf. unfold issue. rewrite Hf. cbn [negb].
  eexists. eexists. split; [reflexivity|]. cbn.
  repeat split. eexists. split; [apply lookup_insert_eq|]. split; reflexivity.
Qed.

(** The timer that issuance registers is due no earlier than the
    session's [expiresAt]. *)
Lemma issue_timer_due ipAddress c d st r st' :
  issue ipAddress c d st = (Some r, st') ->
  now_stamp d <= now_timer d ->
  exists due s,
    timers st' = timers st ++ [(due, sessionId r)] /\
    activeSessions st' !! sessionId r = Some s /\
    expiresAt s <= due.
Proof.
  intros H L. unfold issue in H.
  destruct (toFile_ok d); cbn [negb] in H; [|discriminate].
  inversion H; subst; clear H. cbn.
  eexists. eexists. split; [reflexivity|]. split; [apply lookup_insert_eq|].
  cbn. lia.
Qed.

(** getSessionDetails by cases. *)
Lemma getSessionDetails_absent now sessionId st :
  activeSessions st !! sessionId = None ->
  getSessionDetails now sessionId st = (None, st).
Proof. intros H. unfold getSessionDetails. now rewrite H. Qed.

Lemma getSessionDetails_live now sessionId st s :
  activeSessions st !! sessionId = Some s -> now <= expiresAt s ->
  getSessionDetails now sessionId st = (Some (sessionId, s), st).
Proof.
  intros H L. unfold getSessionDetails. rewrite H.
  destruct (now >? expiresAt s) eqn:E; [lia|reflexivity].
Qed.

Lemma getSessionDetails_expired now sessionId st s :
  activeSessions st !! sessionId = Some s -> expiresAt s < now ->
  getSessionDetails now sessionId st =
  (None, {| activeSessions := delete sessionId (activeSessions st);
            ipCache := ipCache st; timers := timers st; qrFiles := qrFiles st |}).
Proof.
  intros H L. unfold getSessionDetails. rewrite H.
  destruct (now >? expiresAt s) eqn:E; [reflexivity|lia].
Qed.

End Facts.

Lemma issued_lookup :
  activeSessions Examples.issued !! Examples.sid = Some Examples.issued_record.
Proof. vm_compute. reflexivity. Qed.

End SessionFacts.

(** C2, as stated, fails at the boundary: a lookup made at the very
    millisecond [expiresAt] still returns the session. *)
Lemma lookup_at_expiresAt_returns_session :
  QrGenerator.activeSessions Examples.issued !! Examples.sid = Some Examples.issued_record /\
  QrGenerator.expiresAt Examples.issued_record = 91000 /\
  QrGenerator.getSessionDetails 91000 Examples.sid Examples.issued
  = (Some (Examples.sid, Examples.issued_record), Examples.issued).
Proof.
  split; [vm_compute; reflexivity|]. split; vm_compute; reflexivity.
Qed.

(** C2, amended.  A stored session is returned by a lookup at every time up
    to and including [expiresAt], with the store unchanged; a lookup at a
    later time returns nothing and deletes the entry, so that the
    identifier is absent afterwards; a lookup of an unknown identifier
    returns nothing and changes nothing.  The lookup is a total function
    (it cannot throw), and validateSession is its truth value.  A session
    just issued is stored with [expiresAt = timestamp + 90000]. *)
Theorem lookup_valid_through_expiresAt :
  forall (rt : Builtins) (now : Z) (sessionId : string) (st : QrGenerator.State),
    (forall s,
        QrGenerator.activeSessions st !! sessionId = Some s ->
        now <= QrGenerator.expiresAt s ->
        QrGenerator.getSessionDetails now sessionId st = (Some (sessionId, s), st) /\
        QrGenerator.validateSession now sessionId st = (true, st))
    /\
    (forall s,
        QrGenerator.activeSessions st !! sessionId = Some s ->
        QrGenerator.expiresAt s < now ->
        fst (QrGenerator.getSessionDetails now sessionId st) = None /\
        fst (QrGenerator.validateSession now sessionId st) = false /\
        QrGenerator.activeSessions (snd (QrGenerator.getSessionDetails now sessionId st))
        = delete sessionId (QrGenerator.activeSessions st) /\
        QrGenerator.activeSessions (snd (QrGenerator.getSessionDetails now sessionId st))
          !! sessionId = None)
    /\
    (QrGenerator.activeSessions st !! sessionId = None ->
     QrGenerator.getSessionDetails now sessionId st = (None, st) /\
     QrGenerator.validateSession now sessionId st = (false, st))
    /\
    (forall ipAddress c d r st',
        QrGenerator.issue ipAddress c d st = (Some r, st') ->
        exists s,
          QrGenerator.activeSessions st' !! QrGenerator.sessionId r = Some s /\
          QrGenerator.expiresAt s = QrGenerator.now_stamp d + 90000).
Proof.
  intros rt now sessionId st. repeat split.
  - now apply SessionFacts.getSessionDetails_live.
  - unfold QrGenerator.validateSession.
    now rewrite (SessionFacts.getSessionDetails_live now sessionId st s).
  - now rewrite (SessionFacts.getSessionDetails_expired now sessionId st s).
  - unfold QrGenerator.validateSession.
    now rewrite (SessionFacts.getSessionDetails_expired now sessionId st s).
  - now rewrite (SessionFacts.getSessionDetails_expired now sessionId st s).
  - rewrite (SessionFacts.getSessionDetails_expired now sessionId st s) by assumption.
    apply lookup_delete_eq.
  - now apply SessionFacts.getSessionDetails_absent.
  - unfold QrGenerator.validateSession.
    now rewrite SessionFacts.getSessionDetails_absent.
  - intros ipAddress c d r st' H. unfold QrGenerator.issue in H.
    destruct (QrGenerator.toFile_ok d); cbn [negb] in H; [|discriminate].
    inversion H; subst; clear H. cbn.
    eexists. split; [apply lookup_insert_eq|reflexivity].
Qed.

Lemma lookup_valid_through_expiresAt_witness :
  QrGenerator.getSessionDetails 91000 Examples.sid Examples.issued
  = (Some (Examples.sid, Examples.issued_record), Examples.issued)
  /\ fst (QrGenerator.getSessionDetails 91001 Examples.sid Examples.issued) = None
  /\ QrGenerator.getSessionDetails 5 "unknown" Examples.issued = (None, Examples.issued).
Proof.
  pose proof SessionFacts.issued_lookup as Hs.
  pose proof (lookup_valid_through_expiresAt Examples.node 91000 Examples.sid Examples.issued)
    as [Hlive _].
  pose proof (lookup_valid_through_expiresAt Examples.node 91001 Examples.sid Examples.issued)
    as [_ [Hdead _]].
  pose proof (lookup_valid_through_expiresAt Examples.node 5 "unknown" Examples.issued)
    as [_ [_ [Habs _]]].
  split; [|split].
  - apply (Hlive _ Hs). vm_compute. discriminate.
  - apply (Hdead _ Hs). vm_compute. reflexivity.
  - apply Habs. vm_compute. reflexivity.
Defined.

(** C5, as stated, fails: a second call with the same address and context
    within the cache period returns the first call's result, whatever the
    random source would have given, and stores nothing. *)
Lemma second_issuance_returns_cached_session :
  exists r1 st1 r2,
    QrGenerator.generateQRCode (rt := Examples.node) "10.0.0.9" Examples.ctx
      (Examples.draw 1000 Byte.xab) QrGenerator.initial = (Some r1, st1) /\
    QrGenerator.generateQRCode (rt := Examples.node) "10.0.0.9" Examples.ctx
      (Examples.draw 2000 Byte.xcd) st1 = (Some r2, st1) /\
    QrGenerator.sessionId r1 = QrGenerator.sessionId r2.
Proof.
  eexists. eexists. eexists.
  split; [vm_compute; reflexivity|].
  split; vm_compute; reflexivity.
Qed.

(** C5, amended.  A call whose cache key (address, institution, issuer,
    course, section) has no cache entry younger than 90 s, and whose image
    is written, issues a fresh session: the identifier is the hexadecimal
    text of the 16 bytes drawn from the random source (32 characters, and
    distinct draws give distinct identifiers), and the stored record has
    [createdAt = now] and [expiresAt = now + 90000].  A call whose key has
    a cache entry younger than 90 s returns the cached result, with the
    identifier issued earlier, and leaves the state as it is. *)
Theorem issuance_is_fresh_unless_cached :
  forall (rt : Builtins) (ipAddress : string) (c : QrGenerator.SessionContext)
         (d : QrGenerator.Draw) (st : QrGenerator.State),
    ((QrGenerator.ipCache st !! QrGenerator.makeCacheKey ipAddress c = None \/
      exists cached,
        QrGenerator.ipCache st !! QrGenerator.makeCacheKey ipAddress c = Some cached /\
        QrGenerator.CACHE_TIME <= QrGenerator.now_check d - QrGenerator.timestamp cached) ->
     QrGenerator.toFile_ok d = true ->
     exists r st',
       QrGenerator.generateQRCode ipAddress c d st = (Some r, st') /\
       QrGenerator.sessionId r = QrGenerator.toHex (QrGenerator.randomBytes16 d) /\
       QrGenerator.expiresIn r = 90000 /\
       (List.length (QrGenerator.randomBytes16 d) = 16%nat ->
        String.length (QrGenerator.sessionId r) = 32%nat) /\
       (forall bytes',
           List.length bytes' = List.length (QrGenerator.randomBytes16 d) ->
           bytes' <> QrGenerator.randomBytes16 d ->
           QrGenerator.toHex bytes' <> QrGenerator.sessionId r) /\
       exists s,
         QrGenerator.activeSessions st' !! QrGenerator.sessionId r = Some s /\
         QrGenerator.createdAt s = QrGenerator.now_stamp d /\
         QrGenerator.expiresAt s = QrGenerator.now_stamp d + 90000)
    /\
    (forall cached,
        QrGenerator.ipCache st !! QrGenerator.makeCacheKey ipAddress c = Some cached ->
        QrGenerator.now_check d - QrGenerator.timestamp cached < QrGenerator.CACHE_TIME ->
        QrGenerator.generateQRCode ipAddress c d st = (Some (QrGenerator.data cached), st)).
Proof.
  intros rt ipAddress c d st. split.
  - intros Hcache Hfile.
    destruct (SessionFacts.issue_ok ipAddress c d st Hfile)
      as [r [st' [Hi [Hid [Hexp [s [Hs [Hc He]]]]]]]].
    exists r, st'. split.
    + unfold QrGenerator.generateQRCode.
      destruct Hcache as [Hn | [cached [Hsome Hold]]].
      * rewrite Hn. exact Hi.
      * rewrite Hsome.
        destruct (QrGenerator.now_check d - QrGenerator.timestamp cached
                  <? QrGenerator.CACHE_TIME) eqn:E; [lia|exact Hi].
    + split; [exact Hid|]. split; [exact Hexp|]. split; [|split].
      * intros L. rewrite Hid, SessionFacts.toHex_length, L. reflexivity.
      * intros bytes' L N E. apply N. rewrite Hid in E.
        apply SessionFacts.toHex_injective; assumption.
      * exists s. repeat split; assumption.
  - intros cached Hsome Hyoung. unfold QrGenerator.generateQRCode. rewrite Hsome.
    destruct (QrGenerator.now_check d - QrGenerator.timestamp cached
              <? QrGenerator.CACHE_TIME) eqn:E; [reflexivity|lia].
Qed.

Lemma issuance_is_fresh_unless_cached_witness :
  (exists r st',
      QrGenerator.generateQRCode (rt := Examples.node) "10.0.0.9" Examples.ctx
        (Examples.draw 1000 Byte.xab) QrGenerator.initial = (Some r, st') /\
      QrGenerator.sessionId r = Examples.sid)
  /\ (exists r,
        QrGenerator.generateQRCode (rt := Examples.node) "10.0.0.9" Examples.ctx
          (Examples.draw 2000 Byte.xcd) Examples.issued = (Some r, Examples.issued)).
Proof.
  split.
  - destruct (proj1 (issuance_is_fresh_unless_cached Examples.node "10.0.0.9" Examples.ctx
                       (Examples.draw 1000 Byte.xab) QrGenerator.initial))
      as [r [st' [H1 [H2 _]]]].
    + left. vm_compute. reflexivity.
    + reflexivity.
    + exists r, st'. split; [exact H1|exact H2].
  - eexists.
    apply (proj2 (issuance_is_fresh_unless_cached Examples.node "10.0.0.9" Examples.ctx
                    (Examples.draw 2000 Byte.xcd) Examples.issued)).
    + vm_compute. reflexivity.
    + vm_compute. reflexivity.
Defined.

(** ** The mark-attendance pipeline *)

Module PipelineFacts.
Import JsString Server.

Lemma bind_Continue {A B : Type} (s : Step A) (k : A -> Step B) (b : B) :
  bind s k = Continue b -> exists a, s = Continue a /\ k a = Continue b.
Proof. destruct s as [r|a]; simpl; [discriminate|]. intros H. now exists a. Qed.

Lemma truthy_append_mid a c b : truthy (a +:+ String c b) = true.
Proof. destruct a; reflexivity. Qed.

Lemma isoDate_truthy d : truthy (isoDate d) = true.
Proof. unfold isoDate. apply truthy_append_mid. Qed.

Lemma isValidEmail_truthy s : isValidEmail s = true -> truthy s = true.
Proof. destruct s; [discriminate|reflexivity]. Qed.

Lemma present_truthy o s : present o = Some s -> truthy s = true /\ o = Some s.
Proof.
  unfold present. destruct o as [x|]; [|discriminate].
  destruct (truthy x) eqn:E; [|discriminate]. intros [= <-]. now split.
Qed.

Lemma bind_Reject {A B : Type} (s : Step A) (k : A -> Step B) (r : Response) :
  bind s k = Reject r -> s = Reject r \/ exists a, s = Continue a /\ k a = Reject r.
Proof.
  destruct s as [r'|a]; simpl; intros H; [left; now inversion H|right; now exists a].
Qed.

Lemma guard_Reject c r r' : guard c r = Reject r' -> c = true /\ r' = r.
Proof. unfold guard. destruct c; [|discriminate]. intros [= <-]. now split. Qed.

Section Facts.
Context {rt : Builtins}.

(** Every early return of the handler answers with an error status. *)
Lemma check_network_Reject policy ip r :
  check_network policy ip = Reject r -> res_status r <> 200.
Proof.
  unfold check_network. destruct (Policy.requireIpAllowlist policy); [|discriminate].
  intros H. apply bind_Reject in H. destruct H as [H|[[] [_ H]]];
    apply guard_Reject in H; destruct H as [_ ->]; discriminate.
Qed.

Lemma check_geofence_Reject policy loc r :
  check_geofence policy loc = Reject r -> res_status r <> 200.
Proof.
  unfold check_geofence. destruct (Policy.requireGeofence policy); [|discriminate].
  destruct loc as [[[plat| | |] [plng| | |]]|]; try (intros [= <-]; discriminate).
  destruct (Policy.lat (Policy.geofence policy)), (Policy.lng (Policy.geofence policy));
    try (intros [= <-]; discriminate).
  destruct (JsNum.gt _ _); intros [= <-]; discriminate.
Qed.

Lemma check_signature_Reject policy sig r :
  check_signature policy sig = Reject r -> res_status r <> 200.
Proof.
  unfold check_signature.
  destruct (Policy.requireSignature policy).
  - destruct (validateSignatureDataUrl sig); intros [= <-]; discriminate.
  - destruct (truthy sig); [|discriminate].
    destruct (validateSignatureDataUrl sig); intros [= <-]; discriminate.
Qed.

Lemma check_identity_Reject policy i c e n d r :
  check_identity policy i c e n d = Reject r -> res_status r <> 200.
Proof.
  unfold check_identity.
  destruct (Store.CourseEnrollment_findOne i c e n d) as [row|].
  - destruct (negb (namesMatch (Store.e_fullName row) n)); intros [= <-]; discriminate.
  - destruct (Policy.requireEnrollment policy); intros [= <-]; discriminate.
Qed.

Lemma check_duplicates_Reject policy i today c id dev d r :
  check_duplicates policy i today c id dev d = Reject r -> res_status r <> 200.
Proof.
  unfold check_duplicates.
  destruct (Store.Attendance_findOne_student i today c id d);
    [intros [= <-]; discriminate|].
  destruct (Policy.singleDevicePerDay policy); [|discriminate].
  destruct (Store.Attendance_findOne_device i dev today c d);
    intros [= <-]; discriminate.
Qed.

Lemma policy_checks_Reject t req session courseId institutionId course d r :
  policy_checks t req session courseId institutionId course d = Reject r ->
  res_status r <> 200.
Proof.
  unfold policy_checks. intros H.
  apply bind_Reject in H. destruct H as [H|[[] [_ H]]];
    [eapply check_network_Reject; eassumption|].
  apply bind_Reject in H. destruct H as [H|[distance [_ H]]];
    [eapply check_geofence_Reject; eassumption|].
  apply bind_Reject in H. destruct H as [H|[[] [_ H]]];
    [eapply check_signature_Reject; eassumption|].
  apply bind_Reject in H. destruct H as [H|[enrollment [_ H]]];
    [eapply check_identity_Reject; eassumption|].
  apply bind_Reject in H. destruct H as [H|[[] [_ H]]];
    [eapply check_duplicates_Reject; eassumption|].
  discriminate.
Qed.

Lemma precommit_Reject t req w r q' :
  precommit t req w = (Reject r, q') -> res_status r <> 200.
Proof.
  unfold precommit. intros H.
  destruct (truthy (body_sessionId req)); cbn [negb] in H;
    [|inversion H; discriminate].
  destruct (truthy (trim (body_name req))); cbn [negb] in H;
    [|inversion H; discriminate].
  destruct (isValidEmail (normalizeEmail (body_email req))); cbn [negb] in H;
    [|inversion H; discriminate].
  destruct (QrGenerator.getSessionDetails (now t) (body_sessionId req) (qr w))
    as [sd q1].
  destruct sd as [[x session]|]; [|inversion H; discriminate].
  destruct (present (QrGenerator.courseId session)) as [courseId|];
    [|inversion H; discriminate].
  destruct (present (QrGenerator.institutionId session)) as [institutionId|];
    [|inversion H; discriminate].
  destruct (ObjectId_casts courseId && ObjectId_casts institutionId); cbn [negb] in H;
    [|inversion H; discriminate].
  destruct (Store.Course_findOne courseId institutionId (db w)) as [course|];
    [|inversion H; discriminate].
  inversion H as [[H1 H2]]. eapply policy_checks_Reject; eassumption.
Qed.

Lemma validateAttendance_None req :
  validateAttendance req = None <->
  truthy (body_name req) = true /\ truthy (body_email req) = true /\
  truthy (body_deviceFingerprint req) = true.
Proof.
  unfold validateAttendance. cbn [List.filter snd].
  destruct (truthy (body_name req)), (truthy (body_email req)),
    (truthy (body_deviceFingerprint req)); cbn; split; intros H;
    try discriminate; try reflexivity; try tauto;
    destruct H as [H1 [H2 H3]]; discriminate.
Qed.

Lemma validateAttendance_Some req r :
  validateAttendance req = Some r -> res_status r = 400.
Proof.
  unfold validateAttendance.
  destruct (List.filter _ _); [discriminate|]. intros [= <-]. reflexivity.
Qed.

(** What a passed run of the checks after the course lookup tells. *)
Lemma policy_checks_Continue t req session courseId institutionId course d p :
  policy_checks t req session courseId institutionId course d = Continue p ->
  let deliveryMode := Policy.normalizeDeliveryMode (Store.c_deliveryMode course) in
  let policy := Policy.normalizeAttendancePolicy (Store.c_attendancePolicy course)
                  deliveryMode in
  exists distance enrollment,
    check_network policy (getClientIpFromRequest req) = Continue tt /\
    check_geofence policy (body_location req) = Continue distance /\
    check_signature policy (normalizeSignatureDataUrl (body_signatureDataUrl req))
    = Continue tt /\
    check_identity policy institutionId courseId (normalizeEmail (body_email req))
      (trim (body_name req)) d = Continue enrollment /\
    check_duplicates policy institutionId (isoDate (date t)) courseId
      (normalizeEmail (body_email req)) (body_deviceFingerprint req) d = Continue tt /\
    p = make_plan t req session courseId institutionId course deliveryMode policy
          distance enrollment.
Proof.
  unfold policy_checks. intros H.
  apply bind_Continue in H. destruct H as [[] [H1 H]].
  apply bind_Continue in H. destruct H as [distance [H2 H]].
  apply bind_Continue in H. destruct H as [[] [H3 H]].
  apply bind_Continue in H. destruct H as [enrollment [H4 H]].
  apply bind_Continue in H. destruct H as [[] [H5 H]].
  inversion H; subst. exists distance, enrollment. repeat split; assumption.
Qed.

(** What a passed run of all the checks tells. *)
Lemma precommit_Continue t req w p q' :
  precommit t req w = (Continue p, q') ->
  truthy (body_sessionId req) = true /\
  truthy (trim (body_name req)) = true /\
  isValidEmail (normalizeEmail (body_email req)) = true /\
  exists session courseId institutionId course,
    QrGenerator.getSessionDetails (now t) (body_sessionId req) (qr w)
    = (Some (body_sessionId req, session), q') /\
    present (QrGenerator.courseId session) = Some courseId /\
    present (QrGenerator.institutionId session) = Some institutionId /\
    Store.Course_findOne courseId institutionId (db w) = Some course /\
    policy_checks t req session courseId institutionId course (db w) = Continue p.
Proof.
  unfold precommit. intros H.
  destruct (truthy (body_sessionId req)) eqn:E1; cbn [negb] in H; [|inversion H].
  destruct (truthy (trim (body_name req))) eqn:E2; cbn [negb] in H; [|inversion H].
  destruct (isValidEmail (normalizeEmail (body_email req))) eqn:E3; cbn [negb] in H;
    [|inversion H].
  destruct (QrGenerator.getSessionDetails (now t) (body_sessionId req) (qr w))
    as [sd q1] eqn:E4.
  assert (Hid : forall x s, sd = Some (x, s) -> x = body_sessionId req).
  { intros x s ->. unfold QrGenerator.getSessionDetails in E4.
    destruct (QrGenerator.activeSessions (qr w) !! body_sessionId req); [|inversion E4].
    destruct (now t >? QrGenerator.expiresAt s0); inversion E4; reflexivity. }
  destruct sd as [[x session]|]; [|inversion H].
  rewrite (Hid x session eq_refl) in *.
  destruct (present (QrGenerator.courseId session)) as [courseId|] eqn:E5; [|inversion H].
  destruct (present (QrGenerator.institutionId session)) as [institutionId|] eqn:E6;
    [|inversion H].
  destruct (ObjectId_casts courseId && ObjectId_casts institutionId); cbn [negb] in H;
    [|inversion H].
  destruct (Store.Course_findOne courseId institutionId (db w)) as [course|] eqn:E7;
    [|inversion H].
  inversion H; subst. repeat split.
  exists session, courseId, institutionId, course. repeat split; assumption.
Qed.

(** The course and the institution of a passed run cast to ObjectIds:
    the course lookup has cast them. *)
Lemma precommit_casts t req w p q' studentId :
  precommit t req w = (Continue p, q') ->
  ObjectId_casts (Store.a_institutionId (plan_attendance p studentId)) = true /\
  ObjectId_casts (Store.a_courseId (plan_attendance p studentId)) = true.
Proof.
  unfold precommit. intros H.
  destruct (truthy (body_sessionId req)); cbn [negb] in H; [|inversion H].
  destruct (truthy (trim (body_name req))); cbn [negb] in H; [|inversion H].
  destruct (isValidEmail (normalizeEmail (body_email req))); cbn [negb] in H;
    [|inversion H].
  destruct (QrGenerator.getSessionDetails (now t) (body_sessionId req) (qr w))
    as [sd q1].
  destruct sd as [[x session]|]; [|inversion H].
  destruct (present (QrGenerator.courseId session)) as [courseId|]; [|inversion H].
  destruct (present (QrGenerator.institutionId session)) as [institutionId|];
    [|inversion H].
  destruct (ObjectId_casts courseId && ObjectId_casts institutionId) eqn:E;
    cbn [negb] in H; [|inversion H].
  destruct (Store.Course_findOne courseId institutionId (db w)) as [course|];
    [|inversion H].
  inversion H as [[Hc Hq]].
  apply policy_checks_Continue in Hc.
  destruct Hc as [distance [enrollment [_ [_ [_ [_ [_ ->]]]]]]].
  apply andb_true_iff in E. destruct E as [E1 E2]. split; [exact E2|exact E1].
Qed.

(** The document of a passed run satisfies the schema's required paths
    and the casts of its institution and course; what is left of the
    validation of [Attendance.create] are the casts of the session's
    issuer and of the distance. *)
Lemma plan_attendance_valid t req w p q' studentId :
  validateAttendance req = None ->
  precommit t req w = (Continue p, q') ->
  Store.attendance_valid (plan_attendance p studentId)
  = Store.optional_ObjectId_casts (Store.a_generatedBy (plan_attendance p studentId))
    && Store.Number_casts (Store.a_distanceFromClass (plan_attendance p studentId)).
Proof.
  intros Hv Hp. apply validateAttendance_None in Hv. destruct Hv as [_ [_ Hd]].
  destruct (precommit_casts t req w p q' studentId Hp) as [Ci Cc].
  apply precommit_Continue in Hp.
  destruct Hp as [Hs [Hn [He [session [courseId [institutionId [course
                   [_ [_ [Hi [_ Hc]]]]]]]]]]].
  apply policy_checks_Continue in Hc.
  destruct Hc as [distance [enrollment [_ [_ [_ [_ [_ ->]]]]]]].
  apply present_truthy in Hi. destruct Hi as [Hi _].
  apply isValidEmail_truthy in He.
  assert (F : forall x, truthy (if truthy x then x else "N/A") = true).
  { intros x. destruct (truthy x) eqn:E; [exact E|reflexivity]. }
  unfold Store.attendance_valid. rewrite Ci, Cc.
  match goal with
  | |- ?r && true && true && ?g && ?n = ?g' && ?n' =>
      assert (R : r = true); [|rewrite R; reflexivity]
  end.
  unfold make_plan. cbn.
  rewrite !andb_true_iff. repeat split;
    try assumption; try apply isoDate_truthy.
  - destruct enrollment as [e|]; [|exact Hn].
    destruct (truthy (Store.e_fullName e)) eqn:E; [exact E|exact Hn].
  - destruct enrollment as [e|]; [|apply F].
    destruct (truthy (Store.e_section e)) eqn:E; [exact E|apply F].
  - destruct enrollment as [e|]; [|reflexivity].
    destruct (truthy (Store.e_classRollNo e)) eqn:E; [exact E|reflexivity].
Qed.

(** The two writes, for the plan of a passed run: the upsert is refused
    and nothing is written; or both writes are done; or the upsert is
    done and [Attendance.create] refuses the document, which leaves the
    upsert behind. *)
Lemma commit_cases t req w p q' :
  validateAttendance req = None ->
  precommit t req w = (Continue p, q') ->
  (Store.User_findOneAndUpdate (plan_institutionId p) (plan_studentId p)
     (plan_name p) (plan_studentId p) (plan_section p) (plan_classRollNo p)
     (freshUserId t) (Store.users (db w)) = None /\
   commit t p (db w) = (error_response 500 "E11000 duplicate key error", db w))
  \/
  (exists student users',
      Store.User_findOneAndUpdate (plan_institutionId p) (plan_studentId p)
        (plan_name p) (plan_studentId p) (plan_section p) (plan_classRollNo p)
        (freshUserId t) (Store.users (db w)) = Some (student, users') /\
      commit t p (db w) =
      (success_response (plan_attendance p (Store.u_id student)),
       {| Store.courses := Store.courses (db w);
          Store.enrollments := Store.enrollments (db w);
          Store.users := users';
          Store.attendances :=
            Store.attendances (db w) ++ [plan_attendance p (Store.u_id student)] |}))
  \/
  (exists student users',
      Store.User_findOneAndUpdate (plan_institutionId p) (plan_studentId p)
        (plan_name p) (plan_studentId p) (plan_section p) (plan_classRollNo p)
        (freshUserId t) (Store.users (db w)) = Some (student, users') /\
      Store.attendance_valid (plan_attendance p (Store.u_id student)) = false /\
      commit t p (db w) =
      (error_response 500 "Attendance validation failed",
       {| Store.courses := Store.courses (db w);
          Store.enrollments := Store.enrollments (db w);
          Store.users := users';
          Store.attendances := Store.attendances (db w) |})).
Proof.
  intros Hv Hp. unfold commit.
  destruct (Store.User_findOneAndUpdate _ _ _ _ _ _ _ _) as [[student users']|] eqn:E.
  - right. unfold Store.Attendance_create.
    destruct (Store.attendance_valid (plan_attendance p (Store.u_id student))) eqn:V.
    + left. exists student, users'. split; reflexivity.
    + right. exists student, users'. split; [reflexivity|]. split; [exact V|reflexivity].
  - left. split; reflexivity.
Qed.

(** A stored document has passed the casts of [Attendance.create]. *)
Lemma commit_success_valid t p d r d' :
  commit t p d = (r, d') -> res_status r = 200 ->
  exists student,
    Store.attendance_valid (plan_attendance p (Store.u_id student)) = true /\
    res_data r = Some (plan_attendance p (Store.u_id student)).
Proof.
  unfold commit.
  destruct (Store.User_findOneAndUpdate _ _ _ _ _ _ _ _) as [[student users']|];
    [|intros [= <- _] C; discriminate C].
  unfold Store.Attendance_create.
  destruct (Store.attendance_valid (plan_attendance p (Store.u_id student))) eqn:V;
    [|intros [= <- _] C; discriminate C].
  intros [= <- _] _. exists student. split; [exact V|reflexivity].
Qed.

(** mark-attendance by outcome. *)
Lemma mark_attendance_cases t req w :
  (exists r, validateAttendance req = Some r /\ res_status r <> 200 /\
             mark_attendance t req w = (r, w))
  \/
  (validateAttendance req = None /\
   exists r q', precommit t req w = (Reject r, q') /\ res_status r <> 200 /\
                mark_attendance t req w = (r, {| qr := q'; db := db w |}))
  \/
  (validateAttendance req = None /\
   exists p q', precommit t req w = (Continue p, q') /\
                mark_attendance t req w =
                (fst (commit t p (db w)), {| qr := q'; db := snd (commit t p (db w)) |})).
Proof.
  unfold mark_attendance.
  destruct (validateAttendance req) as [r|] eqn:Hv.
  - left. exists r. repeat split.
    apply validateAttendance_Some in Hv. rewrite Hv. discriminate.
  - right. destruct (precommit t req w) as [[r|p] q'] eqn:Hp.
    + left. split; [reflexivity|]. exists r, q'. repeat split.
      eapply precommit_Reject; eassumption.
    + right. split; [reflexivity|]. exists p, q'. split; [reflexivity|].
      destruct (commit t p (db w)); reflexivity.
Qed.

(** A success has stored the document it answers with, and that
    document has passed the validation of [Attendance.create]. *)
Lemma success_stored t req w :
  res_status (fst (mark_attendance t req w)) = 200 ->
  exists doc users',
    res_data (fst (mark_attendance t req w)) = Some doc /\
    Store.attendance_valid doc = true /\
    db (snd (mark_attendance t req w)) =
    {| Store.courses := Store.courses (db w);
       Store.enrollments := Store.enrollments (db w);
       Store.users := users';
       Store.attendances := Store.attendances (db w) ++ [doc] |}.
Proof.
  intros Hs.
  destruct (mark_attendance_cases t req w)
    as [[r [_ [N E]]] | [[_ [r [q' [_ [N E]]]]] | [Hv [p [q' [Hp E]]]]]];
    rewrite E in *; cbn [fst snd db] in *; try contradiction.
  destruct (commit t p (db w)) as [r d'] eqn:C. cbn [fst snd] in *.
  destruct (commit_success_valid t p _ r d' C Hs) as [student [V D]].
  destruct (commit_cases t req w p q' Hv Hp)
    as [[_ C'] | [[student' [users' [Hu C']]] | [student' [users' [_ [_ C']]]]]];
    rewrite C' in C; inversion C; subst; try discriminate Hs.
  cbn [res_data success_response] in D |- *.
  injection D as D.
  eexists. exists users'. split; [reflexivity|]. split; [|reflexivity].
  rewrite D. exact V.
Qed.

(** The distance of the document of a passed run is the one the geofence
    check has computed, whatever the student's identifier. *)
Lemma plan_distance_fixed t req w p q' x y :
  precommit t req w = (Continue p, q') ->
  Store.a_distanceFromClass (plan_attendance p x)
  = Store.a_distanceFromClass (plan_attendance p y).
Proof.
  intros Hp. apply precommit_Continue in Hp.
  destruct Hp as [_ [_ [_ [session [courseId [institutionId [course
                   [_ [_ [_ [_ Hc]]]]]]]]]]].
  apply policy_checks_Continue in Hc.
  destruct Hc as [distance [enrollment [_ [_ [_ [_ [_ ->]]]]]]].
  reflexivity.
Qed.

(** [Attendance.create] refuses a distance that is NaN. *)
Lemma Attendance_create_NaN a d :
  Store.a_distanceFromClass a = Some JsNum.NaN -> Store.Attendance_create a d = None.
Proof.
  intros H. unfold Store.Attendance_create, Store.attendance_valid. rewrite H.
  cbn [Store.Number_casts]. rewrite andb_false_r. reflexivity.
Qed.

End Facts.

End PipelineFacts.



(** ** Identity resolution *)

(** When the roster lookup of mark-attendance returns a row whose stored
    name does not normalise to the same text as the submitted name, the
    identity check answers with the name-mismatch error, and so does the
    sequence of checks when the network, geofence and signature checks
    before it have passed; such a submission is never answered with
    success.  (A stored name is non-empty, as the roster's schema
    requires.) *)
Lemma returned_row_name_mismatch_rejected :
  forall (rt : Builtins) (t : Server.Tick) (req : Server.Request) (w : Server.World)
         (session : QrGenerator.SessionRecord) (courseId institutionId : string)
         (e : Store.EnrollmentDoc),
    QrGenerator.activeSessions (Server.qr w) !! Server.body_sessionId req = Some session ->
    Server.present (QrGenerator.courseId session) = Some courseId ->
    Server.present (QrGenerator.institutionId session) = Some institutionId ->
    Store.CourseEnrollment_findOne institutionId courseId
      (Server.normalizeEmail (Server.body_email req))
      (JsString.trim (Server.body_name req)) (Server.db w) = Some e ->
    Store.e_fullName e <> EmptyString ->
    JsString.trim (Server.body_name req) <> EmptyString ->
    Server.normalizeName (Store.e_fullName e)
    <> Server.normalizeName (JsString.trim (Server.body_name req)) ->
    (forall policy,
        Server.check_identity policy institutionId courseId
          (Server.normalizeEmail (Server.body_email req))
          (JsString.trim (Server.body_name req)) (Server.db w)
        = Server.Reject
            (Server.error_response 400 "Student name does not match course enrollment record"))
    /\
    (forall course distance,
        let policy :=
          Policy.normalizeAttendancePolicy (Store.c_attendancePolicy course)
            (Policy.normalizeDeliveryMode (Store.c_deliveryMode course)) in
        Server.check_network policy (Server.getClientIpFromRequest req) = Server.Continue tt ->
        Server.check_geofence policy (Server.body_location req) = Server.Continue distance ->
        Server.check_signature policy
          (Server.normalizeSignatureDataUrl (Server.body_signatureDataUrl req))
        = Server.Continue tt ->
        Server.policy_checks t req session courseId institutionId course (Server.db w)
        = Server.Reject
            (Server.error_response 400 "Student name does not match course enrollment record"))
    /\
    Server.res_status (fst (Server.mark_attendance t req w)) <> 200.
Proof.
  intros rt t req w session courseId institutionId e Hs Hc Hi He Hfull Hname Hneq.
  assert (Hid : forall policy,
             Server.check_identity policy institutionId courseId
               (Server.normalizeEmail (Server.body_email req))
               (JsString.trim (Server.body_name req)) (Server.db w)
             = Server.Reject
                 (Server.error_response 400
                    "Student name does not match course enrollment record")).
  { intros policy. unfold Server.check_identity. rewrite He.
    unfold Server.namesMatch.
    destruct (Store.e_fullName e) as [|c1 r1] eqn:E1; [contradiction|].
    destruct (JsString.trim (Server.body_name req)) as [|c2 r2] eqn:E2; [contradiction|].
    cbn [JsString.truthy negb orb].
    destruct (String.eqb_spec (Server.normalizeName (String c1 r1))
                (Server.normalizeName (String c2 r2))) as [Q|Q]; [contradiction|].
    reflexivity. }
  split; [exact Hid|]. split.
  - intros course distance policy H1 H2 H3. unfold Server.policy_checks.
    fold policy. rewrite H1. cbn [Server.bind]. rewrite H2. cbn [Server.bind].
    rewrite H3. cbn [Server.bind]. rewrite Hid. reflexivity.
  - intros Hok.
    destruct (PipelineFacts.mark_attendance_cases t req w)
      as [[r [_ [N E]]] | [[_ [r [q' [_ [N E]]]]] | [Hv [p [q' [Hp E]]]]]];
      rewrite E in Hok; cbn [fst] in Hok; try contradiction.
    apply PipelineFacts.precommit_Continue in Hp.
    destruct Hp as [_ [_ [_ [session' [courseId' [institutionId' [course
                     [Hg [Hc' [Hi' [_ Hp]]]]]]]]]]].
    unfold QrGenerator.getSessionDetails in Hg. rewrite Hs in Hg.
    destruct (Server.now t >? QrGenerator.expiresAt session); inversion Hg; subst.
    rewrite Hc in Hc'. rewrite Hi in Hi'. inversion Hc'; inversion Hi'; subst.
    apply PipelineFacts.policy_checks_Continue in Hp.
    destruct Hp as [distance [enrollment [_ [_ [_ [Hident _]]]]]].
    rewrite Hid in Hident. discriminate.
Qed.

Example name_mismatch_on_returned_row :
  fst (Server.mark_attendance (rt := Examples.node) (Examples.tick 2000 "u1")
         (Examples.submission "Bob" "ada@uni.edu" "dev1" EmptyString)
         (Examples.classroom_with (Examples.raw true false true false [])
            [Examples.ada_by_email_roll]))
  = Server.error_response 400 "Student name does not match course enrollment record".
Proof. vm_compute. reflexivity. Qed.

(** C8.  A submission whose email is the email of a roster row of the
    course, made under a name that does not normalise to the row's stored
    name, is not rejected with the name-mismatch error: the lookup of
    mark-attendance compares the submitted email with the row's roll
    number and never reads the row's email, so it returns no row.  When
    the policy does not require enrollment the submission is accepted and
    recorded under that email with the submitted name; when it does, the
    answer is the not-enrolled error. *)
Theorem roster_email_match_with_other_name_not_checked :
  In Examples.ada
    (Store.enrollments (Server.db (Examples.classroom (Examples.raw true false false false []))))
  /\ Store.e_email Examples.ada
     = Server.normalizeEmail
         (Server.body_email (Examples.submission "Bob" "ada@uni.edu" "dev1" EmptyString))
  /\ Server.normalizeName (Store.e_fullName Examples.ada)
     <> Server.normalizeName
          (JsString.trim
             (Server.body_name (Examples.submission "Bob" "ada@uni.edu" "dev1" EmptyString)))
  /\ Store.CourseEnrollment_findOne (rt := Examples.node) "inst1" "course1" "ada@uni.edu" "Bob"
       (Server.db (Examples.classroom (Examples.raw true false false false []))) = None
  /\ (exists doc,
         fst (Server.mark_attendance (rt := Examples.node) (Examples.tick 2000 "u1")
                (Examples.submission "Bob" "ada@uni.edu" "dev1" EmptyString)
                (Examples.classroom (Examples.raw true false false false [])))
         = Server.success_response doc
         /\ Store.a_studentEmail doc = "ada@uni.edu" /\ Store.a_name doc = "Bob")
  /\ fst (Server.mark_attendance (rt := Examples.node) (Examples.tick 2000 "u1")
            (Examples.submission "Bob" "ada@uni.edu" "dev1" EmptyString)
            (Examples.classroom (Examples.raw true false true false [])))
     = Server.error_response 400 "You are not enrolled in this course roster".
Proof.
  split; [left; reflexivity|]. split; [vm_compute; reflexivity|].
  split; [vm_compute; discriminate|]. split; [vm_compute; reflexivity|].
  split; [|vm_compute; reflexivity].
  eexists. split; [vm_compute; reflexivity|]. split; reflexivity.
Qed.

(** ** Session checking: the token and the store *)

Module TokenFacts.
Import JsString Server.

Section Facts.
Context {rt : Builtins}.

(** verify-attendance by outcome. *)
Lemma verify_attendance_redirects currentTime data st :
  (exists url, fst (verify_attendance currentTime (Some data) st) = Redirect url) <->
  (truthy (QrGenerator.qd_sessionId data) = true /\
   QrGenerator.qd_timestamp data <> 0 /\
   truthy (QrGenerator.qd_hash data) = true /\
   QrGenerator.qd_hash data
   = sha256 (QrGenerator.qd_sessionId data +:+ decimal (QrGenerator.qd_timestamp data)
               +:+ QrGenerator.secretKey) /\
   currentTime - QrGenerator.qd_timestamp data <= 15 * 60 * 1000).
Proof.
  unfold verify_attendance.
  destruct (truthy (QrGenerator.qd_sessionId data)) eqn:E1; cbn [negb orb].
  2:{ split; [intros [url H]; discriminate|intros [H _]; discriminate]. }
  destruct (Z.eqb_spec (QrGenerator.qd_timestamp data) 0) as [E2|E2]; cbn [orb].
  { split; [intros [url H]; discriminate|intros [_ [H _]]; contradiction]. }
  destruct (truthy (QrGenerator.qd_hash data)) eqn:E3; cbn [negb].
  2:{ split; [intros [url H]; discriminate|intros [_ [_ [H _]]]; discriminate]. }
  destruct (String.eqb_spec (QrGenerator.qd_hash data)
              (sha256 (QrGenerator.qd_sessionId data
                         +:+ decimal (QrGenerator.qd_timestamp data)
                         +:+ QrGenerator.secretKey))) as [E4|E4]; cbn [negb].
  2:{ split; [intros [url H]; discriminate|intros [_ [_ [_ [H _]]]]; contradiction]. }
  destruct (currentTime - QrGenerator.qd_timestamp data >? 15 * 60 * 1000) eqn:E5.
  { split; [intros [url H]; discriminate|intros [_ [_ [_ [_ H]]]]; lia]. }
  destruct (QrGenerator.getSessionDetails currentTime (QrGenerator.qd_sessionId data) st)
    as [sd st'].
  split; [intros _; repeat split; try assumption; lia|].
  intros _. eexists. reflexivity.
Qed.

End Facts.

End TokenFacts.

(** C3, as stated, fails: mark-attendance receives the session identifier
    alone and accepts a submission for a stored session, although the token
    presented for that session carries a forged tag that verify-attendance
    rejects; and verify-attendance lets a token with a good tag and an open
    window through although the store no longer holds its session. *)
Lemma submission_accepted_without_token_check :
  fst (Server.verify_attendance (rt := Examples.node) 2000 (Some Examples.forged)
         Examples.issued)
  = Server.Send 400 "Invalid QR code: Hash mismatch"
  /\ Server.body_sessionId
       (Examples.submission "Ada Lovelace" "ada@uni.edu" "dev1" EmptyString)
     = QrGenerator.qd_sessionId Examples.forged
  /\ Server.res_status
       (fst (Server.mark_attendance (rt := Examples.node) (Examples.tick 2000 "u1")
               (Examples.submission "Ada Lovelace" "ada@uni.edu" "dev1" EmptyString)
               (Examples.classroom (Examples.raw true false true false [])))) = 200
  /\ fst (QrGenerator.getSessionDetails 200000 Examples.sid Examples.issued) = None
  /\ fst (Server.verify_attendance (rt := Examples.node) 200000 (Some Examples.genuine)
            Examples.issued)
     = Server.Redirect "/index.html?sessionId=abababababababababababababababab".
Proof. repeat split; vm_compute; reflexivity. Qed.

(** C3, amended.  The two layers are checked by two handlers.
    mark-attendance checks the session store alone: a structurally valid
    submission whose session lookup finds no unexpired entry is rejected
    with the invalid-session error, and an accepted submission names a
    stored session at a time not after its [expiresAt]; no token reaches
    this handler.  verify-attendance checks the token alone: it redirects
    exactly when the three fields are present, the tag equals the digest
    recomputed over the session identifier, the timestamp and the secret,
    and at most 15 minutes have passed since the timestamp, whether or not
    the store still holds the session. *)
Theorem session_layers_checked_by_separate_handlers :
  forall (rt : Builtins),
    (forall t req w,
        Server.validateAttendance req = None ->
        JsString.truthy (Server.body_sessionId req) = true ->
        JsString.truthy (JsString.trim (Server.body_name req)) = true ->
        Server.isValidEmail (Server.normalizeEmail (Server.body_email req)) = true ->
        fst (QrGenerator.getSessionDetails (Server.now t) (Server.body_sessionId req)
               (Server.qr w)) = None ->
        fst (Server.mark_attendance t req w)
        = Server.error_response 400 "Invalid or expired session. Please scan a fresh QR.")
    /\
    (forall t req w,
        Server.res_status (fst (Server.mark_attendance t req w)) = 200 ->
        exists s,
          QrGenerator.activeSessions (Server.qr w) !! Server.body_sessionId req = Some s /\
          Server.now t <= QrGenerator.expiresAt s)
    /\
    (forall currentTime data st,
        (exists url,
            fst (Server.verify_attendance currentTime (Some data) st) = Server.Redirect url)
        <->
        (JsString.truthy (QrGenerator.qd_sessionId data) = true /\
         QrGenerator.qd_timestamp data <> 0 /\
         JsString.truthy (QrGenerator.qd_hash data) = true /\
         QrGenerator.qd_hash data
         = sha256 (QrGenerator.qd_sessionId data +:+ decimal (QrGenerator.qd_timestamp data)
                     +:+ QrGenerator.secretKey) /\
         currentTime - QrGenerator.qd_timestamp data <= 15 * 60 * 1000)).
Proof.
  intros rt. split; [|split].
  - intros t req w Hv H1 H2 H3 Hl.
    unfold Server.mark_attendance. rewrite Hv.
    unfold Server.precommit. rewrite H1, H2, H3. cbn [negb].
    destruct (QrGenerator.getSessionDetails (Server.now t) (Server.body_sessionId req)
                (Server.qr w)) as [sd q']. cbn [fst] in Hl. subst sd. reflexivity.
  - intros t req w Hok.
    destruct (PipelineFacts.mark_attendance_cases t req w)
      as [[r [_ [N E]]] | [[_ [r [q' [_ [N E]]]]] | [Hv [p [q' [Hp E]]]]]];
      rewrite E in Hok; cbn [fst] in Hok; try contradiction.
    apply PipelineFacts.precommit_Continue in Hp.
    destruct Hp as [_ [_ [_ [session [courseId [institutionId [course [Hg _]]]]]]]].
    unfold QrGenerator.getSessionDetails in Hg.
    destruct (QrGenerator.activeSessions (Server.qr w) !! Server.body_sessionId req)
      as [s|]; [|inversion Hg].
    exists s. split; [reflexivity|].
    destruct (Server.now t >? QrGenerator.expiresAt s) eqn:G; [inversion Hg|lia].
  - intros currentTime data st. apply TokenFacts.verify_attendance_redirects.
Qed.

Lemma session_layers_checked_by_separate_handlers_witness :
  fst (Server.mark_attendance (rt := Examples.node) (Examples.tick 91001 "u1")
         (Examples.submission "Ada Lovelace" "ada@uni.edu" "dev1" EmptyString)
         (Examples.classroom (Examples.raw true false true false [])))
  = Server.error_response 400 "Invalid or expired session. Please scan a fresh QR."
  /\ exists url,
      fst (Server.verify_attendance (rt := Examples.node) 2000 (Some Examples.genuine)
             Examples.issued) = Server.Redirect url.
Proof.
  split.
  - apply (proj1 (session_layers_checked_by_separate_handlers Examples.node));
      vm_compute; reflexivity.
  - apply (proj2 (proj2 (session_layers_checked_by_separate_handlers Examples.node))).
    repeat split; vm_compute; try reflexivity; discriminate.
Defined.

(** ** Signatures *)

Module SignatureFacts.
Import JsString Server.

Section Facts.
Context {rt : Builtins}.

(** validateSignatureDataUrl accepts exactly the values that pass its
    four tests; the alphabet and the size are those of the piece
    between the first comma and the next one. *)
Lemma validateSignatureDataUrl_None s :
  validateSignatureDataUrl s = None <->
  (truthy s = true /\
   startsWith "data:image/png;base64," s = true /\
   Z.of_nat (String.length s) <= 700000 /\
   base64_regex_test (second_piece s) = true /\
   120 <= base64_decoded_length (second_piece s) <= 500000).
Proof.
  unfold validateSignatureDataUrl.
  destruct (truthy s); cbn [negb]; [|split; [discriminate|intros [H _]; discriminate]].
  destruct (startsWith "data:image/png;base64," s); cbn [negb];
    [|split; [discriminate|intros [_ [H _]]; discriminate]].
  destruct (Z.of_nat (String.length s) >? 700000) eqn:E1;
    [split; [discriminate|intros [_ [_ [H _]]]; lia]|].
  destruct (base64_regex_test (second_piece s)); cbn [negb];
    [|split; [discriminate|intros [_ [_ [_ [H _]]]]; discriminate]].
  destruct (base64_decoded_length (second_piece s) <? 120) eqn:E2; cbn [orb];
    [split; [discriminate|intros [_ [_ [_ [_ H]]]]; lia]|].
  destruct (base64_decoded_length (second_piece s) >? 500000) eqn:E3;
    [split; [discriminate|intros [_ [_ [_ [_ H]]]]; lia]|].
  split; [|reflexivity].
  intros _. repeat split; lia.
Qed.

(** The optional branch: a supplied signature is validated although
    the policy does not require one. *)
Lemma check_signature_optional policy sig :
  Policy.requireSignature policy = false -> truthy sig = true ->
  check_signature policy sig =
  match validateSignatureDataUrl sig with
  | Some e => Reject (error_response 400 e)
  | None => Continue tt
  end.
Proof. intros H1 H2. unfold check_signature. rewrite H1, H2. reflexivity. Qed.

End Facts.

End SignatureFacts.

(** C10.  With a policy that does not require a signature, a supplied data
    URL whose text after the prefix holds a second comma followed by
    characters outside the base64 alphabet passes validateSignatureDataUrl:
    only the piece between the first two commas is tested.  The submission
    is accepted and the whole value is stored. *)
Theorem optional_signature_checked_to_second_comma_only :
  Policy.requireSignature
    (Policy.normalizeAttendancePolicy (rt := Examples.node)
       (Some (Examples.raw true false true false [])) "in_person") = false
  /\ JsString.startsWith "data:image/png;base64," Examples.two_comma_signature = true
  /\ Server.all_chars Server.is_base64_char
       (Server.after_prefix Examples.two_comma_signature) = false
  /\ Server.validateSignatureDataUrl (rt := Examples.node) Examples.two_comma_signature = None
  /\ exists doc,
      fst (Server.mark_attendance (rt := Examples.node) (Examples.tick 2000 "u1")
             (Examples.submission "Ada Lovelace" "ada@uni.edu" "dev1"
                Examples.two_comma_signature)
             (Examples.classroom (Examples.raw true false true false [])))
      = Server.success_response doc
      /\ Store.a_signatureDataUrl doc = Some Examples.two_comma_signature.
Proof.
  repeat split; try (vm_compute; reflexivity).
  eexists. split; vm_compute; reflexivity.
Qed.

(** ** Policy resolution *)

Module PolicyFacts.
Import JsString Policy.

Section Facts.
Context {rt : Builtins}.

Lemma Qmax'_lower a b : Qle_bool a (Qmax' a b) = true.
Proof.
  unfold Qmax'. destruct (Qle_bool a b) eqn:E; [exact E|].
  apply Qle_bool_iff. apply Qle_refl.
Qed.

Lemma Qmax'_upper a b c :
  Qle_bool a c = true -> Qle_bool b c = true -> Qle_bool (Qmax' a b) c = true.
Proof. intros Ha Hb. unfold Qmax'. destruct (Qle_bool a b); assumption. Qed.

Lemma Qmin'_upper a b : Qle_bool (Qmin' a b) a = true.
Proof.
  unfold Qmin'. destruct (Qle_bool a b) eqn:E.
  - apply Qle_bool_iff. apply Qle_refl.
  - apply Qle_bool_iff. apply Qlt_le_weak. apply Qnot_le_lt.
    intros C. apply Qle_bool_iff in C. congruence.
Qed.

(** The radius of a policy resolved at redemption time lies in
    [10, 100000]. *)
Lemma normalize_radius_clamped rawPolicy mode :
  let r := radiusMeters (geofence (normalizeAttendancePolicy rawPolicy mode)) in
  Qle_bool 10 r = true /\ Qle_bool r 100000 = true.
Proof.
  cbn. split; [apply Qmax'_lower|].
  apply Qmax'_upper; [reflexivity|apply Qmin'_upper].
Qed.

(** What creation or update accepts satisfies the invariant of the
    data model. *)
Lemma build_accepts_consistent rawPolicy mode fallbackPolicy p :
  buildAttendancePolicy rawPolicy mode fallbackPolicy = inr p ->
  (requireIpAllowlist p = true -> ipAllowlist p <> []) /\
  (requireGeofence p = true ->
   lat (geofence p) <> None /\ lng (geofence p) <> None /\
   Qle_bool 10 (radiusMeters (geofence p)) = true /\
   Qle_bool (radiusMeters (geofence p)) 100000 = true).
Proof.
  unfold buildAttendancePolicy.
  set (src := match rawPolicy with Some r => r | None => empty_raw end).
  set (fb := match fallbackPolicy with Some r => r | None => empty_raw end).
  set (ri := normalizeBoolean (raw_requireIpAllowlist src) _).
  set (il := match raw_ipAllowlist src with
             | LUndefined => normalizeIpAllowlist (raw_ipAllowlist fb)
             | _ => _ end).
  set (rg := normalizeBoolean (raw_requireGeofence src) _).
  set (gs := match raw_geofence src with Some g => g | None => _ end).
  set (la := toNullableNumber (raw_lat gs)).
  set (lo := toNullableNumber (raw_lng gs)).
  set (ra := match toNullableNumber (raw_radiusMeters gs) with
             | None => 120%Q | Some r => r end).
  destruct (ri && Nat.eqb (List.length il) 0) eqn:E1; [discriminate|].
  destruct (rg && match la, lo with Some _, Some _ => false | _, _ => true end) eqn:E2;
    [discriminate|].
  destruct (rg && (negb (Qle_bool 10 ra) || negb (Qle_bool ra 100000))) eqn:E3;
    [discriminate|].
  intros [= <-]. cbn. split.
  - intros H. rewrite H in E1. cbn in E1. destruct il; [discriminate|discriminate].
  - intros H. rewrite H in E2, E3. cbn in E2, E3.
    destruct la, lo; try discriminate.
    apply orb_false_iff in E3. destruct E3 as [A B].
    apply negb_false_iff in A, B. repeat split; try discriminate; assumption.
Qed.

Lemma build_creation_cases r mode :
  buildAttendancePolicy (Some r) mode None =
  if inconsistent r
  then
    if normalizeBoolean (raw_requireIpAllowlist r) false
       && Nat.eqb (List.length (normalizeIpAllowlist (raw_ipAllowlist r))) 0
    then inl {| status := 400;
                message := "attendancePolicy.ipAllowlist is required when requireIpAllowlist=true" |}
    else
      let g := match raw_geofence r with Some g => g | None => empty_geofence end in
      match toNullableNumber (raw_lat g), toNullableNumber (raw_lng g) with
      | Some _, Some _ =>
          inl {| status := 400;
                 message := "attendancePolicy.geofence.radiusMeters must be between 10 and 100000" |}
      | _, _ =>
          inl {| status := 400;
                 message := "attendancePolicy.geofence.lat/lng are required when requireGeofence=true" |}
      end
  else
    inr {| deliveryMode := mode;
           singleDevicePerDay := normalizeBoolean (raw_singleDevicePerDay r) true;
           requireSignature := normalizeBoolean (raw_requireSignature r) true;
           requireEnrollment :=
             normalizeBoolean (raw_requireEnrollment r) ATTENDANCE_REQUIRE_ENROLLMENT;
           requireIpAllowlist := normalizeBoolean (raw_requireIpAllowlist r) false;
           ipAllowlist := normalizeIpAllowlist (raw_ipAllowlist r);
           requireGeofence := normalizeBoolean (raw_requireGeofence r) false;
           geofence :=
             let g := match raw_geofence r with Some g => g | None => empty_geofence end in
             {| lat := toNullableNumber (raw_lat g);
                lng := toNullableNumber (raw_lng g);
                radiusMeters := match toNullableNumber (raw_radiusMeters g) with
                                | None => 120%Q | Some x => x end |} |}.
Proof.
  unfold buildAttendancePolicy, inconsistent. cbn [empty_raw raw_singleDevicePerDay
    raw_requireSignature raw_requireEnrollment raw_requireIpAllowlist raw_ipAllowlist
    raw_requireGeofence raw_geofence normalizeBoolean].
  assert (L : match raw_ipAllowlist r with
              | LUndefined => normalizeIpAllowlist LUndefined
              | LNotArray => normalizeIpAllowlist LNotArray
              | LArray entries => normalizeIpAllowlist (LArray entries)
              end = normalizeIpAllowlist (raw_ipAllowlist r))
    by (destruct (raw_ipAllowlist r); reflexivity).
  rewrite L. clear L.
  set (g := match raw_geofence r with Some g => g | None => empty_geofence end).
  destruct (normalizeBoolean (raw_requireIpAllowlist r) false
            && Nat.eqb (List.length (normalizeIpAllowlist (raw_ipAllowlist r))) 0);
    cbn [orb]; [reflexivity|].
  destruct (normalizeBoolean (raw_requireGeofence r) false); cbn [andb]; [|reflexivity].
  destruct (toNullableNumber (raw_lat g)), (toNullableNumber (raw_lng g));
    cbn [orb]; reflexivity.
Qed.


End Facts.

End PolicyFacts.




(** ** Uniqueness of attendance records *)

Module UniquenessFacts.
Import JsString Server.

Lemma lookup_snoc_cases {A : Type} (l : list A) (d x : A) (i : nat) :
  (l ++ [d]) !! i = Some x ->
  ((i < List.length l)%nat /\ l !! i = Some x) \/ (i = List.length l /\ x = d).
Proof.
  intros H. apply lookup_app_Some in H. destruct H as [H|[Hge H]].
  - left. split; [|exact H]. eapply lookup_lt_Some; eassumption.
  - right. destruct (i - List.length l)%nat as [|k] eqn:E; simpl in H.
    + inversion H; subst. split; [lia|reflexivity].
    + discriminate.
Qed.

Lemma lookup_In {A : Type} (l : list A) (i : nat) (x : A) : l !! i = Some x -> In x l.
Proof. intros H. apply list_elem_of_In. eapply list_elem_of_lookup_2; eassumption. Qed.

Lemma same_student_day_sym a b : same_student_day a b = same_student_day b a.
Proof.
  unfold same_student_day.
  rewrite (String.eqb_sym (Store.a_institutionId a)), (String.eqb_sym (Store.a_courseId a)),
    (String.eqb_sym (Store.a_studentEmail a)), (String.eqb_sym (Store.a_date a)).
  reflexivity.
Qed.

Lemma student_day_unique_snoc l d :
  student_day_unique l ->
  (forall a, In a l -> same_student_day a d = false) ->
  student_day_unique (l ++ [d]).
Proof.
  intros U F i j a b Hi Hj S.
  apply lookup_snoc_cases in Hi. apply lookup_snoc_cases in Hj.
  destruct Hi as [[Li Hi]|[Ei ->]], Hj as [[Lj Hj]|[Ej ->]].
  - exact (U i j a b Hi Hj S).
  - apply lookup_In in Hi. rewrite (F a Hi) in S. discriminate.
  - apply lookup_In in Hj. rewrite same_student_day_sym, (F b Hj) in S. discriminate.
  - congruence.
Qed.

Lemma device_day_unique_snoc l d :
  device_day_unique l ->
  (Policy.singleDevicePerDay (Store.a_attendancePolicySnapshot d) = true ->
   forall a, In a l -> same_device_day a d = false) ->
  device_day_unique (l ++ [d]).
Proof.
  intros U F i j a b Lt Hi Hj P.
  apply lookup_snoc_cases in Hi. apply lookup_snoc_cases in Hj.
  destruct Hi as [[Li Hi]|[Ei ->]], Hj as [[Lj Hj]|[Ej ->]].
  - exact (U i j a b Lt Hi Hj P).
  - apply lookup_In in Hi. apply F; assumption.
  - lia.
  - lia.
Qed.

(** What the two lookups of the duplicate check exclude. *)
Lemma findOne_student_None institutionId date courseId id d a b :
  Store.Attendance_findOne_student institutionId date courseId id d = None ->
  In a (Store.attendances d) ->
  Store.a_institutionId b = institutionId -> Store.a_courseId b = courseId ->
  Store.a_studentEmail b = id -> Store.a_date b = date ->
  same_student_day a b = false.
Proof.
  intros H Hin <- <- <- <-. unfold Store.Attendance_findOne_student in H.
  pose proof (find_none _ _ H a Hin) as N. cbn beta in N.
  unfold same_student_day.
  destruct (String.eqb (Store.a_institutionId a) (Store.a_institutionId b));
    [|reflexivity].
  destruct (String.eqb (Store.a_courseId a) (Store.a_courseId b));
    [|reflexivity].
  destruct (String.eqb (Store.a_date a) (Store.a_date b));
    [|now rewrite andb_false_r].
  destruct (String.eqb (Store.a_studentEmail a) (Store.a_studentEmail b));
    [discriminate|reflexivity].
Qed.

Lemma findOne_device_None institutionId deviceFingerprint date courseId d a b :
  Store.Attendance_findOne_device institutionId deviceFingerprint date courseId d = None ->
  In a (Store.attendances d) ->
  Store.a_institutionId b = institutionId -> Store.a_courseId b = courseId ->
  Store.a_deviceFingerprint b = deviceFingerprint -> Store.a_date b = date ->
  same_device_day a b = false.
Proof.
  intros H Hin <- <- <- <-. unfold Store.Attendance_findOne_device in H.
  pose proof (find_none _ _ H a Hin) as N. cbn beta in N.
  unfold same_device_day.
  destruct (String.eqb (Store.a_institutionId a) (Store.a_institutionId b));
    [|reflexivity].
  destruct (String.eqb (Store.a_courseId a) (Store.a_courseId b));
    [|now rewrite andb_false_r in *].
  destruct (String.eqb (Store.a_deviceFingerprint a) (Store.a_deviceFingerprint b));
    [|reflexivity].
  destruct (String.eqb (Store.a_date a) (Store.a_date b)); [discriminate|reflexivity].
Qed.

Section Facts.
Context {rt : Builtins}.

Lemma check_duplicates_Continue policy institutionId today courseId id device d :
  check_duplicates policy institutionId today courseId id device d = Continue tt ->
  Store.Attendance_findOne_student institutionId today courseId id d = None /\
  (Policy.singleDevicePerDay policy = true ->
   Store.Attendance_findOne_device institutionId device today courseId d = None).
Proof.
  unfold check_duplicates.
  destruct (Store.Attendance_findOne_student institutionId today courseId id d);
    [discriminate|].
  intros H. split; [reflexivity|]. intros P. rewrite P in H.
  destruct (Store.Attendance_findOne_device institutionId device today courseId d);
    [discriminate|reflexivity].
Qed.

End Facts.

End UniquenessFacts.

(** C1, as stated, fails: the insert itself refuses nothing.  Two
    submissions of one student from one device, interleaved so that both
    run their lookups before either writes, are both answered with success
    and leave two records for the same institution, course, student and
    date, and for the same device although the policy has
    singleDevicePerDay; and a direct insert of a document whose key is
    already stored succeeds. *)
Lemma racing_submissions_store_two_records :
  let run :=
    Server.mark_attendance_interleaved (rt := Examples.node)
      (Examples.tick 2000 "u1")
      (Examples.submission "Ada Lovelace" "ada@uni.edu" "dev1" EmptyString)
      (Examples.tick 2001 "u2")
      (Examples.submission "Ada Lovelace" "ada@uni.edu" "dev1" EmptyString)
      (Examples.classroom (Examples.raw true false true false [])) in
  Server.res_status (fst (fst run)) = 200 /\
  Server.res_status (snd (fst run)) = 200 /\
  exists a b,
    Store.attendances (Server.db (snd run)) = [a; b] /\
    Server.same_student_day a b = true /\
    Server.same_device_day a b = true /\
    Policy.singleDevicePerDay (Store.a_attendancePolicySnapshot b) = true /\
    ~ Server.student_day_unique [a; b] /\
    exists d', Store.Attendance_create (rt := Examples.node) a (Server.db (snd run))
               = Some (a, d') /\
               Store.attendances d' = [a; b; a].
Proof.
  cbv zeta. split; [vm_compute; reflexivity|]. split; [vm_compute; reflexivity|].
  eexists. eexists. split; [vm_compute; reflexivity|].
  split; [vm_compute; reflexivity|]. split; [vm_compute; reflexivity|].
  split; [vm_compute; reflexivity|]. split.
  - intros U. specialize (U 0%nat 1%nat _ _ eq_refl eq_refl).
    assert (C : 0%nat = 1%nat) by (apply U; vm_compute; reflexivity).
    discriminate.
  - eexists. split; vm_compute; reflexivity.
Qed.

(** C1, amended.  The uniqueness of attendance records rests on the two
    lookups of the pipeline alone; the attendances collection has no unique
    index.  For submissions handled one after the other it holds: when the
    stored records have at most one record per institution, course, student
    and date, and every record made under singleDevicePerDay has a device
    that no earlier record of its institution, course and date has, the
    same is true after mark-attendance has handled one more submission; a
    submission whose student, or whose device under singleDevicePerDay, is
    already recorded for the day is rejected by the lookups and stores
    nothing. *)
Theorem sequential_submissions_keep_records_unique :
  forall (rt : Builtins) (t : Server.Tick) (req : Server.Request) (w : Server.World),
    Server.student_day_unique (Store.attendances (Server.db w)) ->
    Server.device_day_unique (Store.attendances (Server.db w)) ->
    Server.student_day_unique
      (Store.attendances (Server.db (snd (Server.mark_attendance t req w)))) /\
    Server.device_day_unique
      (Store.attendances (Server.db (snd (Server.mark_attendance t req w)))) /\
    (forall policy institutionId today courseId id device existing,
        Store.Attendance_findOne_student institutionId today courseId id (Server.db w)
        = Some existing ->
        Server.check_duplicates policy institutionId today courseId id device (Server.db w)
        = Server.Reject
            (Server.error_response 400
               "You've already marked attendance for this course today")) /\
    (forall policy institutionId today courseId id device existing,
        Store.Attendance_findOne_student institutionId today courseId id (Server.db w) = None ->
        Policy.singleDevicePerDay policy = true ->
        Store.Attendance_findOne_device institutionId device today courseId (Server.db w)
        = Some existing ->
        Server.check_duplicates policy institutionId today courseId id device (Server.db w)
        = Server.Reject
            (Server.error_response 400
               "This device has already been used for this course today")).
Proof.
  intros rt t req w US UD.
  assert (Inv : Server.student_day_unique
                  (Store.attendances (Server.db (snd (Server.mark_attendance t req w)))) /\
                Server.device_day_unique
                  (Store.attendances (Server.db (snd (Server.mark_attendance t req w))))).
  { destruct (PipelineFacts.mark_attendance_cases t req w)
      as [[r [_ [_ E]]] | [[_ [r [q' [_ [_ E]]]]] | [Hv [p [q' [Hp E]]]]]];
      rewrite E; cbn [snd Server.db]; try (split; assumption).
    destruct (PipelineFacts.commit_cases t req w p q' Hv Hp)
      as [[_ C] | [[student [users' [_ C]]] | [student [users' [_ [_ C]]]]]];
      rewrite C; cbn [snd Store.attendances];
      [split; assumption| |split; assumption].
    apply PipelineFacts.precommit_Continue in Hp.
    destruct Hp as [_ [_ [_ [session [courseId [institutionId [course
                     [_ [_ [_ [_ Hp]]]]]]]]]]].
    apply PipelineFacts.policy_checks_Continue in Hp.
    destruct Hp as [distance [enrollment [_ [_ [_ [_ [Hd ->]]]]]]].
    apply UniquenessFacts.check_duplicates_Continue in Hd. destruct Hd as [H1 H2].
    split.
    - apply UniquenessFacts.student_day_unique_snoc; [exact US|].
      intros a Ha.
      eapply UniquenessFacts.findOne_student_None; [exact H1|exact Ha| | | |]; reflexivity.
    - apply UniquenessFacts.device_day_unique_snoc; [exact UD|].
      intros P a Ha.
      eapply UniquenessFacts.findOne_device_None; [exact (H2 P)|exact Ha| | | |]; reflexivity. }
  split; [apply Inv|]. split; [apply Inv|]. split.
  - intros policy institutionId today courseId id device existing H.
    unfold Server.check_duplicates. rewrite H. reflexivity.
  - intros policy institutionId today courseId id device existing H1 P H2.
    unfold Server.check_duplicates. rewrite H1, P, H2. reflexivity.
Qed.

Lemma sequential_submissions_keep_records_unique_witness :
  let policy := Policy.normalizeAttendancePolicy (rt := Examples.node)
                  (Some (Examples.raw true false false false [])) "in_person" in
  let w1 := snd (Server.mark_attendance (rt := Examples.node) (Examples.tick 2000 "u1")
                   (Examples.submission "Ada Lovelace" "ada@uni.edu" "dev1" EmptyString)
                   (Examples.classroom (Examples.raw true false false false []))) in
  let w2 := snd (Server.mark_attendance (rt := Examples.node) (Examples.tick 2001 "u2")
                   (Examples.submission "Bob Stone" "bob@uni.edu" "dev2" EmptyString) w1) in
  let w3 := snd (Server.mark_attendance (rt := Examples.node) (Examples.tick 2002 "u3")
                   (Examples.submission "Ada Lovelace" "ada@uni.edu" "dev3" EmptyString) w2) in
  List.length (Store.attendances (Server.db w1)) = 1%nat /\
  List.length (Store.attendances (Server.db w2)) = 2%nat /\
  Server.student_day_unique (Store.attendances (Server.db w2)) /\
  Server.device_day_unique (Store.attendances (Server.db w2)) /\
  Server.student_day_unique (Store.attendances (Server.db w3)) /\
  Server.device_day_unique (Store.attendances (Server.db w3)) /\
  Server.check_duplicates policy "inst1" "2026-03-09" "course1"
    "ada@uni.edu" "dev3" (Server.db w2)
  = Server.Reject
      (Server.error_response 400 "You've already marked attendance for this course today") /\
  Server.check_duplicates policy "inst1" "2026-03-09" "course1"
    "carol@uni.edu" "dev2" (Server.db w2)
  = Server.Reject
      (Server.error_response 400 "This device has already been used for this course today").
Proof.
  intros policy w1 w2 w3.
  assert (L1 : List.length (Store.attendances (Server.db w1)) = 1%nat)
    by (vm_compute; reflexivity).
  assert (U1 : Server.student_day_unique (Store.attendances (Server.db w1)) /\
               Server.device_day_unique (Store.attendances (Server.db w1))).
  { destruct (Store.attendances (Server.db w1)) as [|d [|d' l]];
      try discriminate L1.
    split.
    - intros i j a b Hi Hj _. destruct i as [|i], j as [|j]; cbn in Hi, Hj;
        try reflexivity; try discriminate Hi; discriminate Hj.
    - intros i j a b Hlt Hi Hj _. destruct i as [|i], j as [|j]; cbn in Hi, Hj;
        try lia; try discriminate Hi; discriminate Hj. }
  pose proof (sequential_submissions_keep_records_unique Examples.node
                (Examples.tick 2001 "u2")
                (Examples.submission "Bob Stone" "bob@uni.edu" "dev2" EmptyString) w1
                (proj1 U1) (proj2 U1)) as [S2 [D2 _]].
  fold w2 in S2, D2.
  pose proof (sequential_submissions_keep_records_unique Examples.node
                (Examples.tick 2002 "u3")
                (Examples.submission "Ada Lovelace" "ada@uni.edu" "dev3" EmptyString) w2
                S2 D2) as [S3 [D3 [Marked Used]]].
  fold w3 in S3, D3.
  split; [exact L1|]. split; [vm_compute; reflexivity|].
  split; [exact S2|]. split; [exact D2|]. split; [exact S3|]. split; [exact D3|].
  split.
  - eapply Marked. vm_compute. reflexivity.
  - eapply Used; vm_compute; reflexivity.
Defined.

(** * Further properties of the code *)

(** ** mark-attendance: what a success leaves behind *)

Module SubmissionFacts.
Import JsString Server.

Lemma find_snoc_some {A : Type} (f : A -> bool) (l : list A) (d : A) :
  f d = true -> exists x, find f (l ++ [d]) = Some x /\ f x = true.
Proof.
  intros H. induction l as [|a l IH]; simpl.
  - rewrite H. exists d. split; [reflexivity|exact H].
  - destruct (f a) eqn:E; [exists a; split; [reflexivity|exact E]|exact IH].
Qed.

(** The user that the upsert returns is stored, under the roll number and
    email it was given. *)
Lemma update_first_result institutionId rollNo name email before rest u us' :
  Store.update_first institutionId rollNo name email before rest = Some (Some (u, us')) ->
  In u us' /\ Store.u_institutionId u = institutionId /\
  Store.u_universityRollNo u = rollNo /\ Store.u_name u = name /\
  Store.u_email u = Some email.
Proof.
  revert before. induction rest as [|x r IH]; intros before H; simpl in H; [discriminate|].
  destruct (String.eqb (Store.u_institutionId x) institutionId
            && String.eqb (Store.u_universityRollNo x) rollNo) eqn:E.
  - destruct (Store.email_taken institutionId email (before ++ r)); [discriminate|].
    inversion H; subst; clear H. cbn.
    apply andb_true_iff in E. destruct E as [E1 E2].
    apply String.eqb_eq in E1, E2.
    repeat split; try assumption.
    apply in_or_app. right. left. reflexivity.
  - apply (IH _ H).
Qed.

Lemma User_findOneAndUpdate_result institutionId rollNo name email section classRollNo
    freshId us u us' :
  Store.User_findOneAndUpdate institutionId rollNo name email section classRollNo freshId us
  = Some (u, us') ->
  In u us' /\ Store.u_institutionId u = institutionId /\
  Store.u_universityRollNo u = rollNo /\ Store.u_name u = name /\
  Store.u_email u = Some email.
Proof.
  unfold Store.User_findOneAndUpdate.
  destruct (Store.update_first institutionId rollNo name email [] us) as [[[u0 us0]|]|] eqn:E.
  - intros [= <- <-]. eapply update_first_result; eassumption.
  - discriminate.
  - destruct (Store.rollNo_taken institutionId rollNo us
              || Store.email_taken institutionId email us); [discriminate|].
    intros [= <- <-]. cbn. repeat split.
    apply in_or_app. right. left. reflexivity.
Qed.

Section Facts.
Context {rt : Builtins}.

(** A success, taken apart. *)
Lemma mark_attendance_success t req w :
  res_status (fst (mark_attendance t req w)) = 200 ->
  validateAttendance req = None /\
  exists p session courseId institutionId course student users',
    precommit t req w = (Continue p, qr w) /\
    QrGenerator.activeSessions (qr w) !! body_sessionId req = Some session /\
    now t <= QrGenerator.expiresAt session /\
    present (QrGenerator.courseId session) = Some courseId /\
    present (QrGenerator.institutionId session) = Some institutionId /\
    Store.Course_findOne courseId institutionId (db w) = Some course /\
    policy_checks t req session courseId institutionId course (db w) = Continue p /\
    Store.User_findOneAndUpdate (plan_institutionId p) (plan_studentId p)
      (plan_name p) (plan_studentId p) (plan_section p) (plan_classRollNo p)
      (freshUserId t) (Store.users (db w)) = Some (student, users') /\
    mark_attendance t req w =
    (success_response (plan_attendance p (Store.u_id student)),
     {| qr := qr w;
        db := {| Store.courses := Store.courses (db w);
                 Store.enrollments := Store.enrollments (db w);
                 Store.users := users';
                 Store.attendances :=
                   Store.attendances (db w) ++ [plan_attendance p (Store.u_id student)] |} |}).
Proof.
  intros Hok.
  destruct (PipelineFacts.mark_attendance_cases t req w)
    as [[r [_ [N E]]] | [[_ [r [q' [_ [N E]]]]] | [Hv [p [q' [Hp E]]]]]];
    rewrite E in Hok; cbn [fst] in Hok; try contradiction.
  split; [exact Hv|].
  destruct (PipelineFacts.commit_cases t req w p q' Hv Hp)
    as [[_ C] | [[student [users' [Hu C]]] | [student [users' [_ [_ C]]]]]];
    rewrite C in Hok, E; [discriminate| |discriminate].
  pose proof (PipelineFacts.precommit_Continue t req w p q' Hp)
    as [_ [_ [_ [session [courseId [institutionId [course [Hg [Hc [Hi [Hf Hpc]]]]]]]]]]].
  unfold QrGenerator.getSessionDetails in Hg.
  destruct (QrGenerator.activeSessions (qr w) !! body_sessionId req) as [s|] eqn:Hs;
    [|inversion Hg].
  destruct (now t >? QrGenerator.expiresAt s) eqn:G; inversion Hg; subst.
  exists p, session, courseId, institutionId, course, student, users'.
  repeat split; try assumption; try reflexivity; try lia.
Qed.

End Facts.

End SubmissionFacts.

(** X1.  After mark-attendance has answered a submission with success, the
    same submission sent again on the same date, while the session is
    still stored and not past its [expiresAt], is rejected with the
    already-marked error and writes nothing. *)
Theorem resubmission_rejected_as_already_marked :
  forall (rt : Builtins) (t t' : Server.Tick) (req : Server.Request) (w : Server.World),
    Server.res_status (fst (Server.mark_attendance t req w)) = 200 ->
    Server.date t' = Server.date t ->
    (forall s, QrGenerator.activeSessions (Server.qr w) !! Server.body_sessionId req = Some s ->
               Server.now t' <= QrGenerator.expiresAt s) ->
    Server.mark_attendance t' req (snd (Server.mark_attendance t req w))
    = (Server.error_response 400 "You've already marked attendance for this course today",
       snd (Server.mark_attendance t req w)).
Proof.
  intros rt t t' req w Hok Hdate Hlive.
  destruct (SubmissionFacts.mark_attendance_success t req w Hok)
    as [Hv [p [session [courseId [institutionId [course [student [users'
         [Hp [Hs [_ [Hc [Hi [Hf [Hpc [_ E]]]]]]]]]]]]]]]].
  rewrite E. cbn [snd].
  pose proof (PipelineFacts.precommit_casts t req w p _ EmptyString Hp) as [Ci Cc].
  apply PipelineFacts.precommit_Continue in Hp.
  destruct Hp as [H1 [H2 [H3 _]]].
  apply PipelineFacts.policy_checks_Continue in Hpc.
  destruct Hpc as [distance [enrollment [Hn [Hg [Hsig [Hid [Hd ->]]]]]]].
  cbn [Server.plan_attendance Server.make_plan Store.a_institutionId Store.a_courseId]
    in Ci, Cc.
  unfold Server.mark_attendance. rewrite Hv.
  unfold Server.precommit. cbn [Server.qr Server.db]. rewrite H1, H2, H3. cbn [negb].
  unfold QrGenerator.getSessionDetails. rewrite Hs.
  destruct (Server.now t' >? QrGenerator.expiresAt session) eqn:G;
    [specialize (Hlive session Hs); lia|].
  rewrite Hc, Hi, Cc, Ci. cbn [andb negb].
  change (Store.Course_findOne courseId institutionId
            {| Store.courses := Store.courses (Server.db w);
               Store.enrollments := Store.enrollments (Server.db w);
               Store.users := users';
               Store.attendances := _ |})
    with (Store.Course_findOne courseId institutionId (Server.db w)).
  rewrite Hf. unfold Server.policy_checks.
  rewrite Hn. cbn [Server.bind]. rewrite Hg. cbn [Server.bind].
  rewrite Hsig. cbn [Server.bind].
  match goal with
  | |- context [Server.check_identity ?pol ?i ?c ?e ?n ?d] =>
      change (Server.check_identity pol i c e n d)
        with (Server.check_identity pol i c e n (Server.db w))
  end.
  rewrite Hid. cbn [Server.bind].
  unfold Server.check_duplicates, Store.Attendance_findOne_student.
  cbn [Store.attendances]. rewrite Hdate.
  match goal with
  | |- context [find ?f (?l ++ [?d])] =>
      destruct (SubmissionFacts.find_snoc_some f l d) as [x [Hx _]]
  end.
  { cbn. rewrite !String.eqb_refl. reflexivity. }
  rewrite Hx. reflexivity.
Qed.

Lemma resubmission_rejected_as_already_marked_witness :
  Server.mark_attendance (rt := Examples.node) (Examples.tick 3000 "u2")
    (Examples.submission "Ada Lovelace" "ada@uni.edu" "dev1" EmptyString)
    (snd (Server.mark_attendance (rt := Examples.node) (Examples.tick 2000 "u1")
            (Examples.submission "Ada Lovelace" "ada@uni.edu" "dev1" EmptyString)
            (Examples.classroom (Examples.raw true false true false []))))
  = (Server.error_response 400 "You've already marked attendance for this course today",
     snd (Server.mark_attendance (rt := Examples.node) (Examples.tick 2000 "u1")
            (Examples.submission "Ada Lovelace" "ada@uni.edu" "dev1" EmptyString)
            (Examples.classroom (Examples.raw true false true false [])))).
Proof.
  apply (resubmission_rejected_as_already_marked Examples.node).
  - vm_compute. reflexivity.
  - reflexivity.
  - intros s H.
    change (QrGenerator.activeSessions Examples.issued !! Examples.sid = Some s) in H.
    rewrite SessionFacts.issued_lookup in H. inversion H; subst.
    vm_compute. discriminate.
Defined.

(** X2.  After mark-attendance has stored a record, the duplicate check of
    any later submission from the same device for the same institution,
    course and date, made under singleDevicePerDay, rejects: with the
    device-already-used error when that student has no record of the day,
    and with the already-marked error otherwise. *)
Theorem device_reuse_rejected_after_success :
  forall (rt : Builtins) (t : Server.Tick) (req : Server.Request) (w : Server.World)
         (doc : Store.AttendanceDoc) (policy : Policy.AttendancePolicy) (id : string),
    fst (Server.mark_attendance t req w) = Server.success_response doc ->
    Policy.singleDevicePerDay policy = true ->
    (Store.Attendance_findOne_student (Store.a_institutionId doc) (Store.a_date doc)
       (Store.a_courseId doc) id (Server.db (snd (Server.mark_attendance t req w))) = None ->
     Server.check_duplicates policy (Store.a_institutionId doc) (Store.a_date doc)
       (Store.a_courseId doc) id (Store.a_deviceFingerprint doc)
       (Server.db (snd (Server.mark_attendance t req w)))
     = Server.Reject
         (Server.error_response 400 "This device has already been used for this course today"))
    /\
    (Store.Attendance_findOne_student (Store.a_institutionId doc) (Store.a_date doc)
       (Store.a_courseId doc) id (Server.db (snd (Server.mark_attendance t req w))) <> None ->
     Server.check_duplicates policy (Store.a_institutionId doc) (Store.a_date doc)
       (Store.a_courseId doc) id (Store.a_deviceFingerprint doc)
       (Server.db (snd (Server.mark_attendance t req w)))
     = Server.Reject
         (Server.error_response 400 "You've already marked attendance for this course today")).
Proof.
  intros rt t req w doc policy id Hdoc Hpol.
  assert (Hok : Server.res_status (fst (Server.mark_attendance t req w)) = 200)
    by (rewrite Hdoc; reflexivity).
  destruct (SubmissionFacts.mark_attendance_success t req w Hok)
    as [_ [p [session [courseId [institutionId [course [student [users' [_ [_ [_ [_ [_ [_ [_ [_ E]]]]]]]]]]]]]]]].
  rewrite E in Hdoc |- *. cbn [fst snd Server.db] in *.
  inversion Hdoc as [Hd]. rewrite Hd.
  unfold Server.check_duplicates. rewrite Hpol. split.
  - intros Hnone. rewrite Hnone.
    unfold Store.Attendance_findOne_device. cbn [Store.attendances].
    match goal with
    | |- context [find ?f (?l ++ [?d])] =>
        destruct (SubmissionFacts.find_snoc_some f l d) as [x [Hx _]]
    end.
    { cbn beta. rewrite !String.eqb_refl. reflexivity. }
    rewrite Hx. reflexivity.
  - intros Hsome.
    destruct (Store.Attendance_findOne_student _ _ _ _ _); [reflexivity|contradiction].
Qed.

Lemma device_reuse_rejected_after_success_witness :
  Server.check_duplicates
    (Policy.normalizeAttendancePolicy (rt := Examples.node)
       (Some (Examples.raw true false true false [])) "in_person")
    "inst1" "2026-03-09" "course1" "bob@uni.edu" "dev1"
    (Server.db
       (snd (Server.mark_attendance (rt := Examples.node) (Examples.tick 2000 "u1")
               (Examples.submission "Ada Lovelace" "ada@uni.edu" "dev1" EmptyString)
               (Examples.classroom (Examples.raw true false true false [])))))
  = Server.Reject
      (Server.error_response 400 "This device has already been used for this course today").
Proof.
  refine (proj1 (device_reuse_rejected_after_success Examples.node (Examples.tick 2000 "u1")
                   (Examples.submission "Ada Lovelace" "ada@uni.edu" "dev1" EmptyString)
                   (Examples.classroom (Examples.raw true false true false []))
                   (Store.Build_AttendanceDoc "inst1" _ _ _ _ _ "2026-03-09" _ _ "course1"
                      _ _ _ _ _ _ _ _ "dev1" _ _ _ _ _ _)
                   _ "bob@uni.edu" _ _) _);
    vm_compute; reflexivity.
Defined.

(** X3.  The record of an accepted submission carries the canonical
    identity: the trimmed, lower-cased and valid email as both student
    email and roll number, a name that normalises to the submitted name
    (the roster's spelling when the roster lookup returned a row with a
    name), the session, device and date of the request, and the resolved
    policy of the course; the record is stored, and the users collection
    holds the student under that email with the record's name. *)
Theorem accepted_record_is_canonical :
  forall (rt : Builtins) (t : Server.Tick) (req : Server.Request) (w : Server.World),
    Server.res_status (fst (Server.mark_attendance t req w)) = 200 ->
    exists doc course,
      fst (Server.mark_attendance t req w) = Server.success_response doc /\
      Store.a_studentEmail doc = Server.normalizeEmail (Server.body_email req) /\
      Store.a_universityRollNo doc = Server.normalizeEmail (Server.body_email req) /\
      Server.isValidEmail (Store.a_studentEmail doc) = true /\
      Store.a_sessionId doc = Server.body_sessionId req /\
      Store.a_deviceFingerprint doc = Server.body_deviceFingerprint req /\
      Store.a_date doc = Server.isoDate (Server.date t) /\
      Store.a_status doc = "present" /\
      Server.normalizeName (Store.a_name doc)
      = Server.normalizeName (JsString.trim (Server.body_name req)) /\
      (forall e,
          Store.CourseEnrollment_findOne (Store.a_institutionId doc) (Store.a_courseId doc)
            (Server.normalizeEmail (Server.body_email req))
            (JsString.trim (Server.body_name req)) (Server.db w) = Some e ->
          Store.e_fullName e <> EmptyString ->
          Store.a_name doc = Store.e_fullName e) /\
      Store.Course_findOne (Store.a_courseId doc) (Store.a_institutionId doc) (Server.db w)
      = Some course /\
      Store.a_attendancePolicySnapshot doc
      = Policy.normalizeAttendancePolicy (Store.c_attendancePolicy course)
          (Policy.normalizeDeliveryMode (Store.c_deliveryMode course)) /\
      In doc (Store.attendances (Server.db (snd (Server.mark_attendance t req w)))) /\
      exists u,
        In u (Store.users (Server.db (snd (Server.mark_attendance t req w)))) /\
        Store.u_id u = Store.a_studentId doc /\
        Store.u_institutionId u = Store.a_institutionId doc /\
        Store.u_universityRollNo u = Store.a_studentEmail doc /\
        Store.u_email u = Some (Store.a_studentEmail doc) /\
        Store.u_name u = Store.a_name doc.
Proof.
  intros rt t req w Hok.
  destruct (SubmissionFacts.mark_attendance_success t req w Hok)
    as [_ [p [session [courseId [institutionId [course [student [users'
         [Hp [_ [_ [_ [_ [Hf [Hpc [Hu E]]]]]]]]]]]]]]]].
  apply PipelineFacts.precommit_Continue in Hp. destruct Hp as [_ [Hname [Hmail _]]].
  apply PipelineFacts.policy_checks_Continue in Hpc.
  destruct Hpc as [distance [enrollment [_ [_ [_ [Hid [_ Hplan]]]]]]].
  apply SubmissionFacts.User_findOneAndUpdate_result in Hu.
  destruct Hu as [Uin [Ui [Ur [Un Ue]]]].
  rewrite E. cbn [fst snd Server.db Store.attendances Store.users].
  exists (Server.plan_attendance p (Store.u_id student)), course.
  subst p. cbn in *.
  unfold Server.check_identity in Hid.
  split; [reflexivity|]. split; [reflexivity|]. split; [reflexivity|].
  split; [exact Hmail|]. split; [reflexivity|]. split; [reflexivity|].
  split; [reflexivity|]. split; [reflexivity|].
  assert (Hcanon :
            Server.normalizeName
              match enrollment with
              | Some e => if JsString.truthy (Store.e_fullName e) then Store.e_fullName e
                          else JsString.trim (Server.body_name req)
              | None => JsString.trim (Server.body_name req)
              end
            = Server.normalizeName (JsString.trim (Server.body_name req)) /\
            forall e,
              Store.CourseEnrollment_findOne institutionId courseId
                (Server.normalizeEmail (Server.body_email req))
                (JsString.trim (Server.body_name req)) (Server.db w) = Some e ->
              Store.e_fullName e <> EmptyString ->
              match enrollment with
              | Some e => if JsString.truthy (Store.e_fullName e) then Store.e_fullName e
                          else JsString.trim (Server.body_name req)
              | None => JsString.trim (Server.body_name req)
              end = Store.e_fullName e).
  { destruct (Store.CourseEnrollment_findOne institutionId courseId
                (Server.normalizeEmail (Server.body_email req))
                (JsString.trim (Server.body_name req)) (Server.db w)) as [e0|] eqn:Hfind.
    - destruct (negb (Server.namesMatch (Store.e_fullName e0)
                        (JsString.trim (Server.body_name req)))) eqn:Hm; [discriminate|].
      inversion Hid; subst enrollment. apply negb_false_iff in Hm.
      unfold Server.namesMatch in Hm. rewrite Hname in Hm.
      destruct (JsString.truthy (Store.e_fullName e0)) eqn:Hfull; cbn in Hm.
      + split; [apply String.eqb_eq; exact Hm|]. intros e [= <-] _. reflexivity.
      + split; [reflexivity|]. intros e [= <-] Hne.
        destruct (Store.e_fullName e0); [contradiction|discriminate].
    - destruct (Policy.requireEnrollment _); [discriminate|].
      inversion Hid; subst enrollment. split; [reflexivity|]. intros e He. discriminate. }
  split; [apply Hcanon|]. split; [apply Hcanon|].
  split; [exact Hf|]. split; [reflexivity|].
  split; [apply in_or_app; right; left; reflexivity|].
  exists student. repeat split; assumption.
Qed.

Lemma accepted_record_is_canonical_witness :
  exists doc course,
    fst (Server.mark_attendance (rt := Examples.node) (Examples.tick 2000 "u1")
           (Examples.submission " ada LOVELACE " " Ada@Uni.edu" "dev1" EmptyString)
           (Examples.classroom (Examples.raw true false true false [])))
    = Server.success_response doc /\
    Store.a_studentEmail doc
    = Server.normalizeEmail
        (Server.body_email
           (Examples.submission " ada LOVELACE " " Ada@Uni.edu" "dev1" EmptyString)) /\
    Store.Course_findOne (Store.a_courseId doc) (Store.a_institutionId doc)
      (Server.db (Examples.classroom (Examples.raw true false true false []))) = Some course.
Proof.
  destruct (accepted_record_is_canonical Examples.node (Examples.tick 2000 "u1")
              (Examples.submission " ada LOVELACE " " Ada@Uni.edu" "dev1" EmptyString)
              (Examples.classroom (Examples.raw true false true false [])))
    as [doc [course [H1 [H2 [_ [_ [_ [_ [_ [_ [_ [_ [H3 _]]]]]]]]]]]]].
  - vm_compute. reflexivity.
  - exists doc, course. repeat split; assumption.
Defined.

(** X4.  The geofence check of mark-attendance, for a course whose
    resolved policy requires the geofence and has both coordinates: a
    submission without finite coordinates is refused with the
    location-required error; with coordinates, it passes the check exactly
    when the distance is not greater than the radius, so a distance equal
    to the radius passes, a greater one is refused with the out-of-range
    error, and a distance that is NaN passes the check.  A NaN distance is
    never stored, though: [Attendance.create] refuses it, so a submission
    that has passed every check with a NaN distance is answered with the
    error 500 and no attendance document is added; and the document of
    every success has a distance that is not NaN and is in the store. *)
Theorem geofence_passes_unless_farther_than_radius :
  forall (rt : Builtins) (rawPolicy : option Policy.RawPolicy) (mode : string)
         (glat glng : Q),
    let policy := Policy.normalizeAttendancePolicy rawPolicy mode in
    let radius := Policy.radiusMeters (Policy.geofence policy) in
    Policy.requireGeofence policy = true ->
    Policy.lat (Policy.geofence policy) = Some glat ->
    Policy.lng (Policy.geofence policy) = Some glng ->
    (forall location,
        match location with
        | Some (JsNum.Finite _, JsNum.Finite _) => False
        | _ => True
        end ->
        Server.check_geofence policy location
        = Server.Reject
            (Server.error_response 400
               "This course requires geolocation. Enable location and try again."))
    /\
    (forall plat plng,
        let distance := getDistanceFromLatLngInMeters plat plng glat glng in
        (JsNum.gt distance radius = false ->
         Server.check_geofence policy (Some (JsNum.Finite plat, JsNum.Finite plng))
         = Server.Continue (Some distance)) /\
        (JsNum.gt distance radius = true ->
         Server.check_geofence policy (Some (JsNum.Finite plat, JsNum.Finite plng))
         = Server.Reject
             (Server.error_response 400 (Server.out_of_range_message radius distance))) /\
        (forall q, distance = JsNum.Finite q ->
                   (JsNum.gt distance radius = false <-> (q <= radius)%Q)) /\
        (distance = JsNum.NaN ->
         Server.check_geofence policy (Some (JsNum.Finite plat, JsNum.Finite plng))
         = Server.Continue (Some JsNum.NaN)))
    /\
    (forall a d,
        Store.a_distanceFromClass a = Some JsNum.NaN -> Store.Attendance_create a d = None)
    /\
    (forall t req w p q',
        Server.validateAttendance req = None ->
        Server.precommit t req w = (Server.Continue p, q') ->
        Store.a_distanceFromClass (Server.plan_attendance p EmptyString) = Some JsNum.NaN ->
        Server.res_status (fst (Server.mark_attendance t req w)) = 500 /\
        Store.attendances (Server.db (snd (Server.mark_attendance t req w)))
        = Store.attendances (Server.db w))
    /\
    (forall t req w doc,
        fst (Server.mark_attendance t req w) = Server.success_response doc ->
        Store.a_distanceFromClass doc <> Some JsNum.NaN /\
        In doc (Store.attendances (Server.db (snd (Server.mark_attendance t req w))))).
Proof.
  intros rt rawPolicy mode glat glng policy radius Hreq Hlat Hlng.
  assert (Hr : Qeq_bool radius 0 = false).
  { destruct (Qeq_bool radius 0) eqn:E; [|reflexivity].
    apply Qeq_bool_iff in E.
    pose proof (proj1 (PolicyFacts.normalize_radius_clamped rawPolicy mode)) as L.
    apply Qle_bool_iff in L. fold policy in L. fold radius in L.
    rewrite E in L. exfalso. revert L. apply Qlt_not_le. reflexivity. }
  split; [|split; [|split; [|split]]].
  - intros location Hloc. unfold Server.check_geofence. rewrite Hreq.
    destruct location as [[[a| | |] [b| | |]]|]; try reflexivity. contradiction.
  - intros plat plng distance.
    assert (Hc : Server.check_geofence policy (Some (JsNum.Finite plat, JsNum.Finite plng))
                 = if JsNum.gt distance radius
                   then Server.Reject
                          (Server.error_response 400
                             (Server.out_of_range_message radius distance))
                   else Server.Continue (Some distance)).
    { unfold Server.check_geofence. rewrite Hreq, Hlat, Hlng. fold radius. rewrite Hr.
      reflexivity. }
    split; [intros H; rewrite Hc, H; reflexivity|].
    split; [intros H; rewrite Hc, H; reflexivity|].
    split.
    + intros q ->. cbn. rewrite negb_false_iff. apply Qle_bool_iff.
    + intros H. rewrite Hc, H. reflexivity.
  - intros a d. apply PipelineFacts.Attendance_create_NaN.
  - intros t req w p q' Hv Hp Hnan.
    destruct (PipelineFacts.mark_attendance_cases t req w)
      as [[r [Hv' _]] | [[_ [r [q'' [Hp' _]]]] | [_ [p' [q'' [Hp' E]]]]]].
    + rewrite Hv in Hv'. discriminate Hv'.
    + rewrite Hp in Hp'. discriminate Hp'.
    + rewrite Hp in Hp'. injection Hp' as <- <-. rewrite E. cbn [fst snd Server.db].
      destruct (PipelineFacts.commit_cases t req w p q' Hv Hp)
        as [[_ C] | [[student [users' [_ C]]] | [student [users' [_ [_ C]]]]]];
        rewrite C; cbn [fst snd]; [split; reflexivity| |split; reflexivity].
      exfalso.
      destruct (PipelineFacts.commit_success_valid t p _ _ _ C eq_refl)
        as [student' [V _]].
      rewrite (PipelineFacts.plan_attendance_valid t req w p q' _ Hv Hp) in V.
      rewrite (PipelineFacts.plan_distance_fixed t req w p q' _ EmptyString Hp), Hnan in V.
      cbn [Store.Number_casts] in V. rewrite andb_false_r in V. discriminate V.
  - intros t req w doc E.
    assert (Hs : Server.res_status (fst (Server.mark_attendance t req w)) = 200)
      by (rewrite E; reflexivity).
    destruct (PipelineFacts.success_stored t req w Hs) as [doc' [users' [D [V S]]]].
    rewrite E in D. injection D as <-. split.
    + intros N. unfold Store.attendance_valid in V. rewrite N in V.
      cbn [Store.Number_casts] in V. rewrite andb_false_r in V. discriminate V.
    + rewrite S. cbn [Store.attendances]. apply in_or_app. right. left. reflexivity.
Qed.

Lemma geofence_passes_unless_farther_than_radius_witness :
  Server.check_geofence (rt := Scenarios.unreadable_distance)
    (Policy.normalizeAttendancePolicy (rt := Scenarios.unreadable_distance)
       (Some Scenarios.fenced_policy) "in_person")
    (Some (JsNum.Finite (-12), JsNum.Finite (-77)))
  = Server.Continue (Some JsNum.NaN)
  /\
  Server.res_status
    (fst (Server.mark_attendance (rt := Scenarios.unreadable_distance)
            (Examples.tick 2000 "u1") Scenarios.located_submission
            Scenarios.fenced_classroom)) = 500
  /\
  Store.attendances
    (Server.db (snd (Server.mark_attendance (rt := Scenarios.unreadable_distance)
                       (Examples.tick 2000 "u1") Scenarios.located_submission
                       Scenarios.fenced_classroom)))
  = Store.attendances (Server.db Scenarios.fenced_classroom).
Proof.
  pose proof (geofence_passes_unless_farther_than_radius Scenarios.unreadable_distance
                (Some Scenarios.fenced_policy) "in_person" (-12) (-77)
                eq_refl eq_refl eq_refl) as [_ [G [_ [P _]]]].
  split.
  - apply (proj2 (proj2 (proj2 (G (-12)%Q (-77)%Q)))). reflexivity.
  - apply (P (Examples.tick 2000 "u1") Scenarios.located_submission
             Scenarios.fenced_classroom Scenarios.located_plan
             (snd (Server.precommit (rt := Scenarios.unreadable_distance)
                     (Examples.tick 2000 "u1") Scenarios.located_submission
                     Scenarios.fenced_classroom))).
    + reflexivity.
    + apply injective_projections; [vm_compute; reflexivity|reflexivity].
    + reflexivity.
Defined.

(** ** Strings, allowlists and stored policies *)

Module StringFacts.
Import JsString.

Lemma all_space_trimEnd s : all_space (trimEnd s) = all_space s.
Proof.
  induction s as [|c r IH]; [reflexivity|].
  cbn [trimEnd]. destruct (all_space (String c r)) eqn:E; [reflexivity|].
  cbn [all_space] in *. rewrite IH. exact E.
Qed.

Lemma trimEnd_idem s : trimEnd (trimEnd s) = trimEnd s.
Proof.
  induction s as [|c r IH]; [reflexivity|].
  cbn [trimEnd]. destruct (all_space (String c r)) eqn:E; [reflexivity|].
  cbn [trimEnd]. cbn [all_space] in *. rewrite all_space_trimEnd, E, IH. reflexivity.
Qed.

Lemma trimStart_head s :
  trimStart s = EmptyString \/
  exists c r, trimStart s = String c r /\ is_space c = false.
Proof.
  induction s as [|c r IH]; [left; reflexivity|].
  cbn [trimStart]. destruct (is_space c) eqn:E; [exact IH|].
  right. exists c, r. split; [reflexivity|exact E].
Qed.

Lemma trim_head s :
  trim s = EmptyString \/ exists c r, trim s = String c r /\ is_space c = false.
Proof.
  unfold trim. destruct (trimStart_head s) as [->|[c [r [-> Hc]]]]; [left; reflexivity|].
  right. cbn [trimEnd all_space]. rewrite Hc. cbn [andb]. eauto.
Qed.

Lemma trim_idem s : trim (trim s) = trim s.
Proof.
  destruct (trim_head s) as [->|[c [r [E Hc]]]]; [reflexivity|].
  unfold trim at 1. rewrite E. cbn [trimStart]. rewrite Hc. rewrite <- E.
  unfold trim. apply trimEnd_idem.
Qed.

End StringFacts.

Module AllowlistFacts.
Import JsString Policy.

Lemma member_In s l : member s l = true <-> In s l.
Proof.
  unfold member. rewrite existsb_exists. split.
  - intros [x [Hx E]]. apply String.eqb_eq in E. subst. exact Hx.
  - intros H. exists s. split; [exact H|apply String.eqb_refl].
Qed.

Lemma member_not_In s l : member s l = false <-> ~ In s l.
Proof.
  rewrite <- member_In. destruct (member s l); split; intros; congruence.
Qed.

Lemma dedupe_In seen l x : In x (dedupe seen l) <-> In x l /\ ~ In x seen.
Proof.
  revert seen. induction l as [|y r IH]; intros seen; cbn [dedupe].
  - split; [intros []|intros [[] _]].
  - destruct (member y seen) eqn:E.
    + apply member_In in E. rewrite IH. split.
      * intros [H1 H2]. split; [right; exact H1|exact H2].
      * intros [[->|H1] H2]; [contradiction|split; assumption].
    + apply member_not_In in E. cbn [In]. rewrite IH. cbn [In]. split.
      * intros [->|[H1 H2]]; [split; [left; reflexivity|exact E]|].
        split; [right; exact H1|]. intros C. apply H2. right. exact C.
      * intros [[->|H1] H2]; [left; reflexivity|].
        destruct (String.eqb_spec y x) as [->|N]; [left; reflexivity|].
        right. split; [exact H1|]. intros [C|C]; [congruence|contradiction].
Qed.

Lemma dedupe_NoDup seen l : List.NoDup (dedupe seen l).
Proof.
  revert seen. induction l as [|y r IH]; intros seen; cbn [dedupe]; [constructor|].
  destruct (member y seen); [apply IH|].
  constructor; [|apply IH].
  rewrite dedupe_In. intros [_ C]. apply C. left. reflexivity.
Qed.

Lemma dedupe_fixed seen l :
  List.NoDup l -> (forall x, In x l -> ~ In x seen) -> dedupe seen l = l.
Proof.
  revert seen. induction l as [|y r IH]; intros seen ND D; [reflexivity|].
  cbn [dedupe]. inversion ND as [|? ? Hy ND']; subst.
  assert (E : member y seen = false).
  { apply member_not_In. apply D. left. reflexivity. }
  rewrite E. f_equal. apply IH; [exact ND'|].
  intros x Hx [C|C]; [subst; contradiction|].
  apply (D x); [right; exact Hx|exact C].
Qed.

(** Entries of a normalised allowlist: trimmed, non-empty. *)
Lemma normalizeIpAllowlist_In entries x :
  In x (normalizeIpAllowlist (LArray entries))
  <-> x <> EmptyString /\ exists e, In e entries /\ x = trim e.
Proof.
  cbn [normalizeIpAllowlist]. rewrite dedupe_In, filter_In, in_map_iff. split.
  - intros [[[e [<- He]] T] _]. split; [destruct (trim e); [discriminate|discriminate]|].
    exists e. split; [exact He|reflexivity].
  - intros [N [e [He ->]]]. split; [|intros []].
    split; [exists e; split; [reflexivity|exact He]|].
    destruct (trim e); [congruence|reflexivity].
Qed.

Lemma normalizeIpAllowlist_NoDup v : List.NoDup (normalizeIpAllowlist v).
Proof. destruct v; cbn [normalizeIpAllowlist]; [constructor|constructor|apply dedupe_NoDup]. Qed.

Lemma normalizeIpAllowlist_idem v :
  normalizeIpAllowlist (LArray (normalizeIpAllowlist v)) = normalizeIpAllowlist v.
Proof.
  destruct v as [| |entries]; [reflexivity|reflexivity|].
  set (l := normalizeIpAllowlist (LArray entries)).
  assert (F : forall x, In x l -> trim x = x /\ truthy x = true).
  { intros x Hx. apply normalizeIpAllowlist_In in Hx. destruct Hx as [N [e [_ ->]]].
    split; [apply StringFacts.trim_idem|]. destruct (trim e); [congruence|reflexivity]. }
  assert (ND : List.NoDup l) by apply normalizeIpAllowlist_NoDup.
  clearbody l. cbn [normalizeIpAllowlist].
  assert (M : map trim l = l).
  { clear ND. induction l as [|y r IH]; [reflexivity|]. cbn [map]. f_equal.
    - apply F. left. reflexivity.
    - apply IH. intros x Hx. apply F. right. exact Hx. }
  rewrite M.
  assert (G : List.filter truthy l = l).
  { clear ND M. induction l as [|y r IH]; [reflexivity|]. cbn [List.filter].
    destruct (F y (or_introl eq_refl)) as [_ ->]. f_equal.
    apply IH. intros x Hx. apply F. right. exact Hx. }
  rewrite G. apply dedupe_fixed; [exact ND|intros x _ []].
Qed.

End AllowlistFacts.

Module StoredPolicyFacts.
Import JsString Policy.

Section Facts.
Context {rt : Builtins}.

Lemma toNullableNumber_stored c :
  toNullableNumber (CourseRoutes.stored_coordinate c) = c.
Proof. destruct c; reflexivity. Qed.

Lemma clamp_in_range r :
  Qle_bool 10 r = true -> Qle_bool r 100000 = true ->
  Qmax' 10 (Qmin' 100000 r) == r.
Proof.
  intros L U. unfold Qmax', Qmin'.
  destruct (Qle_bool 100000 r) eqn:E.
  - cbn. apply Qle_bool_iff in E, U. apply Qle_antisym; assumption.
  - rewrite L. reflexivity.
Qed.

Lemma build_allowlist_normal rawPolicy mode fallbackPolicy p :
  buildAttendancePolicy rawPolicy mode fallbackPolicy = inr p ->
  exists v, ipAllowlist p = normalizeIpAllowlist v.
Proof.
  unfold buildAttendancePolicy.
  repeat match goal with
         | |- context [if ?c then inl _ else _] => destruct c; [discriminate|]
         end.
  intros [= <-]. cbn [ipAllowlist].
  destruct (raw_ipAllowlist _) as [| |entries].
  - eexists. reflexivity.
  - exists LNotArray. reflexivity.
  - exists (LArray entries). reflexivity.
Qed.

Lemma stored_allowlist rawPolicy mode fallbackPolicy p :
  buildAttendancePolicy rawPolicy mode fallbackPolicy = inr p ->
  normalizeIpAllowlist (LArray (ipAllowlist p)) = ipAllowlist p.
Proof.
  intros H. destruct (build_allowlist_normal _ _ _ _ H) as [v ->].
  apply AllowlistFacts.normalizeIpAllowlist_idem.
Qed.

End Facts.

End StoredPolicyFacts.

(** X5.  normalizeIpAllowlist brings an array into a normal form: the
    result has no duplicates, its entries are exactly the non-empty trimmed
    entries of the input, and normalising the result again changes
    nothing. *)
Theorem allowlist_normal_form :
  forall entries : list string,
    let l := Policy.normalizeIpAllowlist (Policy.LArray entries) in
    List.NoDup l /\
    (forall x, In x l <->
               x <> EmptyString /\ exists e, In e entries /\ x = JsString.trim e) /\
    Policy.normalizeIpAllowlist (Policy.LArray l) = l.
Proof.
  intros entries l. split; [apply AllowlistFacts.normalizeIpAllowlist_NoDup|].
  split; [intros x; apply AllowlistFacts.normalizeIpAllowlist_In|].
  apply AllowlistFacts.normalizeIpAllowlist_idem.
Qed.

(** X6.  A policy that creation or update accepted, once stored in the
    course document, is read back unchanged when attendance is marked: the
    flags, the allowlist and the coordinates are the same, and the radius
    is the same whenever it passes the schema's bounds, which it does when
    the geofence is required. *)
Theorem stored_policy_resolves_unchanged :
  forall (rt : Builtins) (rawPolicy fallbackPolicy : option Policy.RawPolicy)
         (mode : string) (p : Policy.AttendancePolicy),
    Policy.buildAttendancePolicy rawPolicy mode fallbackPolicy = inr p ->
    let q := Policy.normalizeAttendancePolicy (Some (CourseRoutes.toDocument p)) mode in
    Policy.deliveryMode q = Policy.deliveryMode p /\
    Policy.singleDevicePerDay q = Policy.singleDevicePerDay p /\
    Policy.requireSignature q = Policy.requireSignature p /\
    Policy.requireEnrollment q = Policy.requireEnrollment p /\
    Policy.requireIpAllowlist q = Policy.requireIpAllowlist p /\
    Policy.ipAllowlist q = Policy.ipAllowlist p /\
    Policy.requireGeofence q = Policy.requireGeofence p /\
    Policy.lat (Policy.geofence q) = Policy.lat (Policy.geofence p) /\
    Policy.lng (Policy.geofence q) = Policy.lng (Policy.geofence p) /\
    (CourseRoutes.radius_validates p = true ->
     Policy.radiusMeters (Policy.geofence q) == Policy.radiusMeters (Policy.geofence p)) /\
    (Policy.requireGeofence p = true -> CourseRoutes.radius_validates p = true).
Proof.
  intros rt rawPolicy fallbackPolicy mode p H q.
  pose proof (StoredPolicyFacts.stored_allowlist _ _ _ _ H) as HL.
  pose proof (PolicyFacts.build_accepts_consistent _ _ _ _ H) as [_ HG].
  assert (HM : Policy.deliveryMode p = mode).
  { revert H. unfold Policy.buildAttendancePolicy.
    repeat match goal with
           | |- context [if ?c then inl _ else _] => destruct c; [discriminate|]
           end.
    intros [= <-]. reflexivity. }
  subst q. cbn.
  split; [symmetry; exact HM|].
  do 4 (split; [reflexivity|]).
  split; [change (Policy.normalizeIpAllowlist
                    (Policy.LArray (Policy.normalizeIpAllowlist
                                      (Policy.LArray (Policy.ipAllowlist p))))
                  = Policy.ipAllowlist p); rewrite HL; exact HL|].
  split; [reflexivity|].
  split; [apply StoredPolicyFacts.toNullableNumber_stored|].
  split; [apply StoredPolicyFacts.toNullableNumber_stored|].
  split.
  - unfold CourseRoutes.radius_validates. intros V. apply andb_true_iff in V.
    apply StoredPolicyFacts.clamp_in_range; tauto.
  - intros G. destruct (HG G) as [_ [_ [A B]]].
    unfold CourseRoutes.radius_validates. rewrite A, B. reflexivity.
Qed.

Lemma stored_policy_resolves_unchanged_witness :
  exists p,
    Policy.buildAttendancePolicy (rt := Examples.node)
      (Some Scenarios.fenced_policy) "hybrid" None = inr p /\
    Policy.ipAllowlist
      (Policy.normalizeAttendancePolicy (rt := Examples.node)
         (Some (CourseRoutes.toDocument p)) "hybrid") = Policy.ipAllowlist p.
Proof.
  eexists. split; [vm_compute; reflexivity|].
  refine (proj1 (proj2 (proj2 (proj2 (proj2 (proj2
    (stored_policy_resolves_unchanged Examples.node (Some Scenarios.fenced_policy) None
       "hybrid" _ _))))))).
  vm_compute. reflexivity.
Defined.

(** X7.  An update that sends no attendancePolicy never fails on the
    policy and keeps the stored one: resolving the missing field against
    the stored document of an accepted policy gives that policy back, with
    the delivery mode of the update. *)
Theorem update_without_policy_keeps_stored :
  forall (rt : Builtins) (rawPolicy fallbackPolicy : option Policy.RawPolicy)
         (mode mode' : string) (p : Policy.AttendancePolicy),
    Policy.buildAttendancePolicy rawPolicy mode fallbackPolicy = inr p ->
    Policy.buildAttendancePolicy None mode' (Some (CourseRoutes.toDocument p))
    = inr (CourseRoutes.with_mode mode' p).
Proof.
  intros rt rawPolicy fallbackPolicy mode mode' p H.
  pose proof (StoredPolicyFacts.stored_allowlist _ _ _ _ H) as HL.
  pose proof (PolicyFacts.build_accepts_consistent _ _ _ _ H) as [HI HG].
  destruct p as [dm sd rs re ri il rg [la lo ra]].
  cbn [Policy.requireIpAllowlist Policy.ipAllowlist Policy.requireGeofence Policy.geofence
       Policy.lat Policy.lng Policy.radiusMeters] in *.
  unfold Policy.buildAttendancePolicy, CourseRoutes.toDocument, CourseRoutes.with_mode.
  cbn [Policy.empty_raw Policy.raw_singleDevicePerDay Policy.raw_requireSignature
       Policy.raw_requireEnrollment Policy.raw_requireIpAllowlist Policy.raw_ipAllowlist
       Policy.raw_requireGeofence Policy.raw_geofence Policy.raw_lat Policy.raw_lng
       Policy.raw_radiusMeters Policy.normalizeBoolean Policy.singleDevicePerDay
       Policy.requireSignature Policy.requireEnrollment Policy.requireIpAllowlist
       Policy.ipAllowlist Policy.requireGeofence Policy.geofence Policy.lat Policy.lng
       Policy.radiusMeters Policy.deliveryMode].
  rewrite !StoredPolicyFacts.toNullableNumber_stored.
  cbn [Policy.toNullableNumber JsNum.finite].
  rewrite !HL.
  assert (E1 : ri && Nat.eqb (List.length il) 0 = false).
  { destruct ri; [|reflexivity]. destruct il; [exfalso; apply HI; reflexivity|reflexivity]. }
  rewrite E1.
  destruct rg.
  - destruct (HG eq_refl) as [A [B [C D]]].
    destruct la; [|congruence]. destruct lo; [|congruence].
    rewrite C, D. reflexivity.
  - reflexivity.
Qed.

Lemma update_without_policy_keeps_stored_witness :
  exists p,
    Policy.buildAttendancePolicy (rt := Examples.node)
      (Some Scenarios.fenced_policy) "hybrid" None = inr p /\
    Policy.buildAttendancePolicy (rt := Examples.node) None "online"
      (Some (CourseRoutes.toDocument p))
    = inr (CourseRoutes.with_mode "online" p).
Proof.
  eexists. split; [vm_compute; reflexivity|].
  apply (update_without_policy_keeps_stored Examples.node (Some Scenarios.fenced_policy) None
           "hybrid" "online").
  vm_compute. reflexivity.
Defined.

(** X8.  Delivery modes.  The server's normalizeDeliveryMode always
    returns one of the three modes and is idempotent; the routes' variant
    returns the same mode whenever it returns, and throws exactly on a
    non-blank text that is none of the three modes (it throws on every
    such text, and on no other), always the same 400 error, where the
    server's variant and mapCourse fall back to in_person. *)
Theorem delivery_mode_resolution :
  forall value : string,
    In (Policy.normalizeDeliveryMode value) Policy.COURSE_DELIVERY_MODES /\
    Policy.normalizeDeliveryMode (Policy.normalizeDeliveryMode value)
    = Policy.normalizeDeliveryMode value /\
    CourseRoutes.mapDeliveryMode value = Policy.normalizeDeliveryMode value /\
    match CourseRoutes.normalizeDeliveryMode value with
    | inr m => m = Policy.normalizeDeliveryMode value
    | inl e =>
        Policy.status e = 400 /\
        Policy.normalizeDeliveryMode value = "in_person" /\
        JsString.trim value <> EmptyString /\
        ~ In (JsString.toLowerCase (JsString.trim value)) Policy.COURSE_DELIVERY_MODES
    end /\
    (JsString.trim value <> EmptyString /\
     ~ In (JsString.toLowerCase (JsString.trim value)) Policy.COURSE_DELIVERY_MODES
     <->
     CourseRoutes.normalizeDeliveryMode value
     = inl {| Policy.status := 400;
              Policy.message := "deliveryMode must be one of: in_person, online, hybrid" |}) /\
    (forall e, CourseRoutes.normalizeDeliveryMode value = inl e ->
               Policy.status e = 400 /\
               Policy.message e = "deliveryMode must be one of: in_person, online, hybrid").
Proof.
  intros value.
  assert (L : forall s, JsString.truthy (JsString.toLowerCase s) = false -> s = EmptyString).
  { intros [|c r]; [reflexivity|discriminate]. }
  unfold CourseRoutes.mapDeliveryMode, CourseRoutes.normalizeDeliveryMode,
    Policy.normalizeDeliveryMode.
  set (n := JsString.toLowerCase (JsString.trim value)).
  destruct (JsString.truthy n) eqn:T; cbn [negb].
  - destruct (Policy.member n Policy.COURSE_DELIVERY_MODES) eqn:M; cbn [negb].
    + pose proof M as HIn. apply AllowlistFacts.member_In in HIn.
      split; [exact HIn|]. split; [|split; [reflexivity|split; [reflexivity|split]]].
      * cbn in HIn. destruct HIn as [<-|[<-|[<-|[]]]]; reflexivity.
      * split; [|intros C; discriminate C].
        intros [_ N]. exfalso. apply N. exact HIn.
      * intros e C. discriminate C.
    + split; [left; reflexivity|]. split; [reflexivity|]. split; [reflexivity|].
      assert (N1 : JsString.trim value <> EmptyString).
      { intros C. subst n. rewrite C in T. discriminate. }
      assert (N2 : ~ In n Policy.COURSE_DELIVERY_MODES)
        by (apply AllowlistFacts.member_not_In; exact M).
      split; [|split].
      * split; [reflexivity|]. split; [reflexivity|]. split; assumption.
      * split; [reflexivity|]. intros _. split; assumption.
      * intros e [= <-]. split; reflexivity.
  - apply L in T.
    split; [left; reflexivity|]. split; [reflexivity|]. split; [reflexivity|].
    split; [reflexivity|]. split.
    + split; [|intros C; discriminate C]. intros [N _]. exfalso. apply N. exact T.
    + intros e C. discriminate C.
Qed.

Lemma delivery_mode_resolution_witness :
  CourseRoutes.normalizeDeliveryMode " Remote "
  = inl {| Policy.status := 400;
           Policy.message := "deliveryMode must be one of: in_person, online, hybrid" |}
  /\ Policy.normalizeDeliveryMode " Remote " = "in_person"
  /\ CourseRoutes.normalizeDeliveryMode " Hybrid " = inr "hybrid".
Proof.
  split; [|split].
  - apply (proj1 (proj2 (proj2 (proj2 (proj2 (delivery_mode_resolution " Remote ")))))).
    split.
    + vm_compute. discriminate.
    + vm_compute. intros [C|[C|[C|[]]]]; discriminate C.
  - vm_compute. reflexivity.
  - vm_compute. reflexivity.
Defined.

(** ** Roster rows and the roster lookup *)

Module RosterFacts.
Import JsString Server.

Lemma roll_char_not_at c : CourseRoutes.is_roll_char c = true -> Ascii.eqb c "@" = false.
Proof.
  intros H. destruct (Ascii.eqb_spec c "@") as [->|]; [|reflexivity].
  vm_compute in H. discriminate.
Qed.

Lemma roll_pattern_no_at s :
  CourseRoutes.ENROLLMENT_ROLL_PATTERN s = true -> includes "@" s = false.
Proof.
  unfold CourseRoutes.ENROLLMENT_ROLL_PATTERN. intros H.
  apply andb_true_iff in H. destruct H as [_ H].
  induction s as [|c r IH]; [reflexivity|].
  cbn [all_chars] in H. apply andb_true_iff in H. destruct H as [Hc Hr].
  cbn [includes]. rewrite (roll_char_not_at c Hc). exact (IH Hr).
Qed.

Lemma isValidEmail_includes_at s : isValidEmail s = true -> includes "@" s = true.
Proof.
  unfold isValidEmail. intros H.
  destruct (split "@" s) as [|l [|d [|x t]]] eqn:E; try discriminate.
  apply (NetworkFacts.split_second_includes "@" s d). rewrite E. reflexivity.
Qed.

Lemma upper_char_at c : Ascii.eqb (upper_char c) "@" = Ascii.eqb c "@".
Proof.
  destruct c as [[] [] [] [] [] [] [] []]; vm_compute; reflexivity.
Qed.

Lemma includes_at_toUpperCase s : includes "@" (toUpperCase s) = includes "@" s.
Proof.
  induction s as [|c r IH]; [reflexivity|].
  cbn [toUpperCase map_chars includes]. fold (toUpperCase r).
  rewrite upper_char_at, IH. reflexivity.
Qed.

Lemma roll_never_email roll email :
  CourseRoutes.ENROLLMENT_ROLL_PATTERN roll = true -> isValidEmail email = true ->
  String.eqb roll email = false /\ String.eqb roll (toUpperCase email) = false.
Proof.
  intros R V. apply roll_pattern_no_at in R. apply isValidEmail_includes_at in V.
  split.
  - destruct (String.eqb_spec roll email) as [->|]; [congruence|reflexivity].
  - destruct (String.eqb_spec roll (toUpperCase email)) as [->|]; [|reflexivity].
    rewrite includes_at_toUpperCase in R. congruence.
Qed.

Lemma find_ext {A : Type} (f g : A -> bool) (l : list A) :
  (forall x, In x l -> f x = g x) -> find f l = find g l.
Proof.
  induction l as [|y r IH]; intros H; [reflexivity|].
  cbn [find]. rewrite (H y (or_introl eq_refl)).
  destruct (g y); [reflexivity|]. apply IH. intros x Hx. apply H. right. exact Hx.
Qed.

Lemma normalizeEnrollmentRow_accepts row n :
  CourseRoutes.normalizeEnrollmentRow row = inr n ->
  n = {| CourseRoutes.row_universityRollNo :=
           normalizeUpper (CourseRoutes.row_universityRollNo row);
         CourseRoutes.row_fullName := CourseRoutes.normalizeName (CourseRoutes.row_fullName row);
         CourseRoutes.row_section := normalizeUpper (CourseRoutes.row_section row);
         CourseRoutes.row_classRollNo := normalizeUpper (CourseRoutes.row_classRollNo row);
         CourseRoutes.row_email := normalizeEmail (CourseRoutes.row_email row) |}
  /\ CourseRoutes.ENROLLMENT_ROLL_PATTERN (CourseRoutes.row_universityRollNo n) = true
  /\ truthy (CourseRoutes.row_fullName n) = true
  /\ truthy (CourseRoutes.row_section n) = true
  /\ truthy (CourseRoutes.row_classRollNo n) = true
  /\ isValidEmail (CourseRoutes.row_email n) = true.
Proof.
  unfold CourseRoutes.normalizeEnrollmentRow.
  destruct (CourseRoutes.ENROLLMENT_ROLL_PATTERN _) eqn:E1; [|discriminate].
  destruct (truthy (CourseRoutes.normalizeName _)) eqn:E2; [|discriminate].
  destruct (truthy (normalizeUpper (CourseRoutes.row_section row))) eqn:E3; [|discriminate].
  destruct (truthy (normalizeUpper (CourseRoutes.row_classRollNo row))) eqn:E4; [|discriminate].
  destruct (isValidEmail _) eqn:E5; [|discriminate].
  cbn [negb]. intros [= <-]. cbn. repeat split; assumption.
Qed.

End RosterFacts.

(** X9.  A roster row that normalizeEnrollmentRow accepts is in canonical
    form (upper-cased roll number of 3 to 30 characters from A-Z, 0-9 and
    the hyphen, non-empty name, section and class roll number, valid
    lower-cased email), and its roll number is never equal to a valid
    email address nor to the upper-cased address. *)
Theorem accepted_row_roll_number_is_no_email :
  forall (row n : CourseRoutes.EnrollmentRow) (email : string),
    CourseRoutes.normalizeEnrollmentRow row = inr n ->
    Server.isValidEmail email = true ->
    CourseRoutes.row_universityRollNo n
    = Server.normalizeUpper (CourseRoutes.row_universityRollNo row) /\
    CourseRoutes.row_email n = Server.normalizeEmail (CourseRoutes.row_email row) /\
    CourseRoutes.ENROLLMENT_ROLL_PATTERN (CourseRoutes.row_universityRollNo n) = true /\
    JsString.truthy (CourseRoutes.row_fullName n) = true /\
    JsString.truthy (CourseRoutes.row_section n) = true /\
    JsString.truthy (CourseRoutes.row_classRollNo n) = true /\
    Server.isValidEmail (CourseRoutes.row_email n) = true /\
    CourseRoutes.row_universityRollNo n <> email /\
    CourseRoutes.row_universityRollNo n <> JsString.toUpperCase email.
Proof.
  intros row n email H V.
  destruct (RosterFacts.normalizeEnrollmentRow_accepts row n H) as [E [R [A [B [C D]]]]].
  destruct (RosterFacts.roll_never_email _ email R V) as [N1 N2].
  split; [rewrite E; reflexivity|]. split; [rewrite E; reflexivity|].
  repeat (split; [assumption|]).
  split; intros X; rewrite X in *; rewrite String.eqb_refl in *; discriminate.
Qed.

Lemma accepted_row_roll_number_is_no_email_witness :
  CourseRoutes.row_universityRollNo
    {| CourseRoutes.row_universityRollNo := "UNI-STU-00001";
       CourseRoutes.row_fullName := "Ada Lovelace";
       CourseRoutes.row_section := "A";
       CourseRoutes.row_classRollNo := "7";
       CourseRoutes.row_email := "ada@uni.edu" |} <> "ada@uni.edu".
Proof.
  refine (proj1 (proj2 (proj2 (proj2 (proj2 (proj2 (proj2 (proj2
    (accepted_row_roll_number_is_no_email
       {| CourseRoutes.row_universityRollNo := " uni-stu-00001 ";
          CourseRoutes.row_fullName := "Ada   Lovelace";
          CourseRoutes.row_section := "a";
          CourseRoutes.row_classRollNo := "7";
          CourseRoutes.row_email := " Ada@Uni.edu" |} _ "ada@uni.edu" _ _))))))))).
  - vm_compute. reflexivity.
  - vm_compute. reflexivity.
Defined.

(** X10.  On a roster whose roll numbers have the format that
    normalizeEnrollmentRow enforces, the roster lookup of mark-attendance
    for a valid submitted email is a lookup by name alone: its two
    roll-number clauses match no row, so the row returned is the first
    active row of the course whose full name the name pattern matches. *)
Theorem roster_lookup_is_by_name :
  forall (rt : Builtins) (institutionId courseId submittedEmail submittedName : string)
         (db : Store.Db),
    Forall (fun e => CourseRoutes.ENROLLMENT_ROLL_PATTERN (Store.e_universityRollNo e) = true)
           (Store.enrollments db) ->
    Server.isValidEmail submittedEmail = true ->
    Store.CourseEnrollment_findOne institutionId courseId submittedEmail submittedName db
    = find (fun e => String.eqb (Store.e_institutionId e) institutionId
                     && String.eqb (Store.e_courseId e) courseId
                     && Store.e_isActive e
                     && regex_exact_i submittedName (Store.e_fullName e))
           (Store.enrollments db).
Proof.
  intros rt institutionId courseId submittedEmail submittedName db F V.
  unfold Store.CourseEnrollment_findOne. apply RosterFacts.find_ext.
  intros e He. pose proof (proj1 (List.Forall_forall _ _) F) as F'.
  destruct (RosterFacts.roll_never_email _ submittedEmail (F' e He) V) as [-> ->].
  reflexivity.
Qed.

Lemma roster_lookup_is_by_name_witness :
  Store.CourseEnrollment_findOne (rt := Examples.node) "inst1" "course1" "ada@uni.edu"
    "ada lovelace" (Server.db (Examples.classroom (Examples.raw true false true false [])))
  = find (fun e => String.eqb (Store.e_institutionId e) "inst1"
                   && String.eqb (Store.e_courseId e) "course1"
                   && Store.e_isActive e
                   && regex_exact_i (Builtins := Examples.node) "ada lovelace" (Store.e_fullName e))
         (Store.enrollments
            (Server.db (Examples.classroom (Examples.raw true false true false [])))).
Proof.
  apply (roster_lookup_is_by_name Examples.node).
  - repeat constructor.
  - vm_compute. reflexivity.
Defined.

(** ** Schedules and pagination *)

Module ScheduleFacts.
Import JsString CourseRoutes.

Lemma nat_of_ascii_Z c : Z.of_nat (nat_of_ascii c) = Z.of_N (N_of_ascii c).
Proof. unfold nat_of_ascii. apply N_nat_Z. Qed.

Lemma char_between_dv lo hi c :
  char_between lo hi c = true <-> digit_value lo <= digit_value c <= digit_value hi.
Proof.
  unfold char_between, digit_value. rewrite andb_true_iff, !Nat.leb_le.
  rewrite <- !nat_of_ascii_Z. lia.
Qed.

Lemma is_digit_dv c : is_digit c = true <-> 0 <= digit_value c <= 9.
Proof.
  unfold is_digit, digit_value. cbv zeta. rewrite andb_true_iff, !Nat.leb_le.
  rewrite <- nat_of_ascii_Z. lia.
Qed.

Lemma eqb_dv c d : Ascii.eqb c d = true -> digit_value c = digit_value d.
Proof. intros H. apply Ascii.eqb_eq in H. subst. reflexivity. Qed.

Lemma digit_not_colon c : 0 <= digit_value c <= 9 -> Ascii.eqb c ":" = false.
Proof.
  intros H. destruct (Ascii.eqb_spec c ":") as [->|]; [|reflexivity].
  change (digit_value ":") with 10 in H. lia.
Qed.

Lemma compare_dv a b : Ascii.compare a b = (digit_value a ?= digit_value b).
Proof.
  unfold Ascii.compare, digit_value.
  destruct (N.compare_spec (N_of_ascii a) (N_of_ascii b)); symmetry;
    [apply Z.compare_eq_iff|apply Z.compare_lt_iff|apply Z.compare_gt_iff]; lia.
Qed.

Lemma digits_value_two a b :
  0 <= digit_value a <= 9 -> 0 <= digit_value b <= 9 ->
  JsNum.digits_value 0 (String a (String b EmptyString)) = Some (10 * digit_value a + digit_value b).
Proof.
  intros Ha Hb. cbn [JsNum.digits_value].
  rewrite (proj2 (is_digit_dv a) Ha), (proj2 (is_digit_dv b) Hb).
  rewrite !nat_of_ascii_Z. fold (digit_value a). fold (digit_value b). f_equal; lia.
Qed.

(** What the pattern says of a text, on the digit values. *)
Lemma TIME_PATTERN_inv s :
  TIME_PATTERN s = true ->
  exists h1 h2 m1 m2,
    s = String h1 (String h2 (String ":" (String m1 (String m2 EmptyString)))) /\
    0 <= digit_value h1 /\ 0 <= digit_value h2 <= 9 /\ 10 * digit_value h1 + digit_value h2 <= 23 /\
    0 <= digit_value m1 <= 5 /\ 0 <= digit_value m2 <= 9.
Proof.
  destruct s as [|h1 [|h2 [|c [|m1 [|m2 [|x r]]]]]]; try discriminate.
  cbn [TIME_PATTERN]. rewrite !andb_true_iff, orb_true_iff, !andb_true_iff.
  rewrite !char_between_dv, !is_digit_dv.
  change (digit_value "0") with 0. change (digit_value "1") with 1. change (digit_value "3") with 3.
  change (digit_value "5") with 5.
  intros [[[H C] M1] M2]. apply Ascii.eqb_eq in C. subst c.
  exists h1, h2, m1, m2. split; [reflexivity|].
  destruct H as [[A B]|[A B]]; [lia|].
  apply eqb_dv in A. change (digit_value "2") with 2 in A. lia.
Qed.

Lemma toMinutes_pattern s :
  TIME_PATTERN s = true ->
  exists h1 h2 m1 m2,
    s = String h1 (String h2 (String ":" (String m1 (String m2 EmptyString)))) /\
    0 <= digit_value h1 /\ 0 <= digit_value h2 <= 9 /\ 10 * digit_value h1 + digit_value h2 <= 23 /\
    0 <= digit_value m1 <= 5 /\ 0 <= digit_value m2 <= 9 /\
    toMinutes s = Some ((10 * digit_value h1 + digit_value h2) * 60 + (10 * digit_value m1 + digit_value m2)).
Proof.
  intros P. destruct (TIME_PATTERN_inv s P) as [h1 [h2 [m1 [m2 [E [A [B [C [D F]]]]]]]]].
  exists h1, h2, m1, m2. repeat (split; [assumption|]).
  unfold toMinutes. rewrite P. subst s. cbn [truthy negb orb].
  assert (H1 : 0 <= digit_value h1 <= 9) by lia.
  assert (M1 : 0 <= digit_value m1 <= 9) by lia.
  cbn [split]. rewrite (digit_not_colon h1 H1), (digit_not_colon h2 B),
    (digit_not_colon m1 M1), (digit_not_colon m2 F).
  change (Ascii.eqb ":" ":") with true. cbn iota. cbn [map].
  rewrite (digits_value_two h1 h2 H1 B), (digits_value_two m1 m2 M1 F). reflexivity.
Qed.

Lemma toMinutes_Some s m : toMinutes s = Some m -> TIME_PATTERN s = true.
Proof.
  unfold toMinutes. destruct (TIME_PATTERN s); [reflexivity|].
  rewrite orb_true_r. discriminate.
Qed.

(** On texts the pattern matches, the order of the texts is the order of
    the minutes. *)
Lemma ltb_toMinutes s t a b :
  toMinutes s = Some a -> toMinutes t = Some b ->
  String.ltb s t = (a <? b).
Proof.
  intros Hs Ht.
  destruct (toMinutes_pattern s (toMinutes_Some s a Hs))
    as [h1 [h2 [m1 [m2 [-> [A [B [C [D [F G]]]]]]]]]].
  destruct (toMinutes_pattern t (toMinutes_Some t b Ht))
    as [k1 [k2 [n1 [n2 [-> [A' [B' [C' [D' [F' G']]]]]]]]]].
  rewrite G in Hs. rewrite G' in Ht. injection Hs as <-. injection Ht as <-.
  unfold String.ltb. cbn [String.compare].
  rewrite !compare_dv. change (digit_value ":" ?= digit_value ":") with Eq.
  destruct (Z.compare_spec (digit_value h1) (digit_value k1));
    destruct (Z.compare_spec (digit_value h2) (digit_value k2));
    destruct (Z.compare_spec (digit_value m1) (digit_value n1));
    destruct (Z.compare_spec (digit_value m2) (digit_value n2));
    symmetry; first [apply Z.ltb_lt; lia | apply Z.ltb_ge; lia].
Qed.

Lemma normalizeTime_Some v t :
  normalizeTime v = Some t -> t = EmptyString \/ TIME_PATTERN t = true.
Proof.
  unfold normalizeTime. destruct (truthy (trim v)); cbn [negb].
  - destruct (TIME_PATTERN (trim v)) eqn:P; cbn [negb]; [|discriminate].
    intros [= <-]. right. exact P.
  - intros [= <-]. left. reflexivity.
Qed.

End ScheduleFacts.

(** X11.  A schedule that the creation and update routes accept is the
    schedule the course listing evaluates: either no day and no times were
    given, and the course counts as unscheduled; or there is at least one
    day and both times match HH:mm, the start lies before the end as
    minutes of the day (the routes compare the two texts), both lie
    within the day, and the course counts as scheduled. *)
Theorem accepted_schedule_is_scheduled :
  forall (days : list string) (s e st en : string) (now : CourseRoutes.Clock),
    CourseRoutes.normalizeTime s = Some st ->
    CourseRoutes.normalizeTime e = Some en ->
    CourseRoutes.validateSchedule days (Some st) (Some en) = None ->
    let meta :=
      CourseRoutes.evaluateCourseSchedule
        {| CourseRoutes.daysOfWeek := days;
           CourseRoutes.startTime := st;
           CourseRoutes.endTime := en |} now in
    (days = [] /\ st = EmptyString /\ en = EmptyString /\
     CourseRoutes.hasSchedule meta = false)
    \/
    (days <> [] /\
     exists a b,
       CourseRoutes.toMinutes st = Some a /\ CourseRoutes.toMinutes en = Some b /\
       0 <= a < b /\ b <= 1439 /\
       CourseRoutes.hasSchedule meta = true).
Proof.
  intros days s e st en now Hs He V meta.
  unfold CourseRoutes.validateSchedule in V.
  destruct days as [|d ds].
  - cbn [List.length Nat.eqb negb orb] in V.
    destruct st as [|c r]; [|cbn in V; discriminate].
    destruct en as [|c r]; [|cbn in V; discriminate].
    left. repeat split.
  - right. split; [discriminate|].
    cbn [List.length Nat.eqb negb orb] in V.
    destruct (JsString.truthy st) eqn:Ts; [|discriminate].
    destruct (JsString.truthy en) eqn:Te; [|discriminate].
    cbn [negb orb] in V.
    destruct (String.ltb st en) eqn:L; [|discriminate].
    destruct (ScheduleFacts.normalizeTime_Some _ _ Hs) as [->|Ps]; [discriminate|].
    destruct (ScheduleFacts.normalizeTime_Some _ _ He) as [->|Pe]; [discriminate|].
    destruct (ScheduleFacts.toMinutes_pattern st Ps)
      as [h1 [h2 [m1 [m2 [_ [A [B [C [D [F G]]]]]]]]]].
    destruct (ScheduleFacts.toMinutes_pattern en Pe)
      as [k1 [k2 [n1 [n2 [_ [A' [B' [C' [D' [F' G']]]]]]]]]].
    rewrite (ScheduleFacts.ltb_toMinutes st en _ _ G G') in L. apply Z.ltb_lt in L.
    clear V. eexists. eexists. split; [exact G|]. split; [exact G'|].
    split; [lia|]. split; [lia|].
    subst meta. unfold CourseRoutes.evaluateCourseSchedule.
    cbn [CourseRoutes.startTime CourseRoutes.endTime CourseRoutes.daysOfWeek].
    rewrite G, G'. cbn [List.length Nat.ltb Nat.leb andb].
    rewrite (proj2 (Z.ltb_lt _ _) L). cbn [negb].
    destruct (negb _); [reflexivity|].
    destruct (_ && _); [reflexivity|]. destruct (_ <? _); reflexivity.
Qed.

Lemma accepted_schedule_is_scheduled_witness :
  exists a b,
    CourseRoutes.toMinutes "09:00" = Some a /\ CourseRoutes.toMinutes "10:30" = Some b /\
    0 <= a < b /\ b <= 1439.
Proof.
  destruct (accepted_schedule_is_scheduled ["MON"] " 09:00" "10:30 " "09:00" "10:30"
              {| CourseRoutes.getDay := 1; CourseRoutes.getHours := 9;
                 CourseRoutes.getMinutes := 30 |}
              eq_refl eq_refl eq_refl) as [[C _]|[_ [a [b [A [B [L [U _]]]]]]]].
  - discriminate C.
  - exists a, b. repeat split; try assumption; lia.
Defined.

(** X12.  In the course listing a course inside its schedule window is
    scheduled today, is not counted as upcoming, and has a rank of at
    least 300, above the rank of every course that is not inside its
    window at that moment. *)
Theorem course_in_window_ranks_first :
  forall (c1 c2 : CourseRoutes.ScheduledCourse) (now : CourseRoutes.Clock),
    CourseRoutes.inScheduleWindow (CourseRoutes.evaluateCourseSchedule c1 now) = true ->
    (CourseRoutes.hasSchedule (CourseRoutes.evaluateCourseSchedule c1 now) = true /\
     CourseRoutes.scheduledToday (CourseRoutes.evaluateCourseSchedule c1 now) = true /\
     CourseRoutes.upcomingToday (CourseRoutes.evaluateCourseSchedule c1 now) = false /\
     300 <= CourseRoutes.rank (CourseRoutes.evaluateCourseSchedule c1 now)) /\
    (CourseRoutes.inScheduleWindow (CourseRoutes.evaluateCourseSchedule c2 now) = false ->
     CourseRoutes.rank (CourseRoutes.evaluateCourseSchedule c2 now) < 300).
Proof.
  intros c1 c2 now. unfold CourseRoutes.evaluateCourseSchedule.
  set (n := CourseRoutes.getHours now * 60 + CourseRoutes.getMinutes now).
  intros H1. split.
  - destruct (CourseRoutes.toMinutes (CourseRoutes.startTime c1)) as [a|];
      [|discriminate].
    destruct (CourseRoutes.toMinutes (CourseRoutes.endTime c1)) as [b|];
      [|discriminate].
    destruct (negb (_ && (a <? b))); [discriminate|].
    destruct (negb _); [discriminate|].
    destruct ((a <=? n) && (n <=? b)) eqn:W.
    + cbn. apply andb_true_iff in W. destruct W as [_ W]. apply Z.leb_le in W.
      repeat split; lia.
    + destruct (n <? a); discriminate.
  - clear H1.
    destruct (CourseRoutes.toMinutes (CourseRoutes.startTime c2)) as [a|];
      [|cbn; lia].
    destruct (CourseRoutes.toMinutes (CourseRoutes.endTime c2)) as [b|];
      [|cbn; lia].
    destruct (negb (_ && (a <? b))); [cbn; lia|].
    destruct (negb _); [cbn; lia|].
    destruct ((a <=? n) && (n <=? b)) eqn:W; [discriminate|].
    destruct (n <? a) eqn:U; cbn; intros _.
    + apply Z.ltb_lt in U. lia.
    + apply Z.ltb_ge in U. apply andb_false_iff in W.
      destruct W as [W|W]; apply Z.leb_gt in W; lia.
Qed.

Lemma course_in_window_ranks_first_witness :
  300 <= CourseRoutes.rank
           (CourseRoutes.evaluateCourseSchedule
              {| CourseRoutes.daysOfWeek := ["MON"; "WED"];
                 CourseRoutes.startTime := "09:00";
                 CourseRoutes.endTime := "10:30" |}
              {| CourseRoutes.getDay := 1; CourseRoutes.getHours := 9;
                 CourseRoutes.getMinutes := 30 |}).
Proof.
  refine (proj2 (proj2 (proj2 (proj1
    (course_in_window_ranks_first _
       {| CourseRoutes.daysOfWeek := ["TUE"];
          CourseRoutes.startTime := "09:00";
          CourseRoutes.endTime := "10:30" |} _ _))))).
  vm_compute. reflexivity.
Defined.

(** X13.  parsePagination never yields a page below 1, a limit outside
    [1, maxLimit] or a negative offset, whatever the query holds, as long
    as the caller's default and maximum are at least 1 (they are 50/200
    and 100/500 at the call sites). *)
Theorem pagination_within_bounds :
  forall (pageRaw limitRaw : option Z) (defaultLimit maxLimit : Z),
    1 <= defaultLimit -> 1 <= maxLimit ->
    let p := CourseRoutes.parsePagination pageRaw limitRaw defaultLimit maxLimit in
    1 <= CourseRoutes.page p /\
    1 <= CourseRoutes.limit p <= maxLimit /\
    0 <= CourseRoutes.skip p /\
    (CourseRoutes.page p = 1 -> CourseRoutes.skip p = 0).
Proof.
  intros pageRaw limitRaw defaultLimit maxLimit Hd Hm p. subst p.
  unfold CourseRoutes.parsePagination. cbn.
  set (pg := match pageRaw with Some n => if 0 <? n then n else 1 | None => 1 end).
  set (lc := match limitRaw with
             | Some n => if 0 <? n then n else defaultLimit
             | None => defaultLimit end).
  assert (P : 1 <= pg).
  { subst pg. destruct pageRaw as [n|]; [|lia].
    destruct (0 <? n) eqn:E; [apply Z.ltb_lt in E; lia|lia]. }
  assert (L : 1 <= lc).
  { subst lc. destruct limitRaw as [n|]; [|lia].
    destruct (0 <? n) eqn:E; [apply Z.ltb_lt in E; lia|lia]. }
  split; [exact P|]. split; [lia|]. split.
  - apply Z.mul_nonneg_nonneg; lia.
  - intros ->. reflexivity.
Qed.

Lemma pagination_within_bounds_witness :
  1 <= CourseRoutes.limit (CourseRoutes.parsePagination (Some (-3)) (Some 100000) 50 200) <= 200.
Proof.
  refine (proj1 (proj2 (pagination_within_bounds (Some (-3)) (Some 100000) 50 200 _ _))); lia.
Defined.

(** ** The session store across calls *)

Module StoreFacts.
Import QrGenerator.

Section Facts.
Context {rt : Builtins}.

(** What the fresh branch returns and stores. *)
Lemma issue_Some ipAddress c d st r st' :
  issue ipAddress c d st = (Some r, st') ->
  sessionId r = toHex (randomBytes16 d) /\
  qrImage r = "/qrcodes/" +:+ ("qr_" +:+ decimal (now_stamp d) +:+ ".png") /\
  activeSessions st' = <[sessionId r := {|
      ip := ipAddress;
      expiresAt := now_stamp d + QR_CODE_VALIDITY;
      createdAt := now_stamp d;
      generatedBy := or_null (ctx_generatedBy c);
      generatedByRole := or_null (ctx_generatedByRole c);
      generatedByName := or_null (ctx_generatedByName c);
      institutionId := or_null (ctx_institutionId c);
      courseId := or_null (ctx_courseId c);
      courseCode := or_null (ctx_courseCode c);
      courseName := or_null (ctx_courseName c);
      section := or_null (ctx_section c) |}]> (activeSessions st) /\
  ipCache st' = <[makeCacheKey ipAddress c := {| data := r; timestamp := now_cache d |}]>
                  (ipCache st) /\
  timers st' = timers st ++ [(now_timer d + QR_CODE_VALIDITY, sessionId r)] /\
  qrFiles st' = qrFiles st ++
                [("qr_" +:+ decimal (now_stamp d) +:+ ".png",
                  {| qd_sessionId := sessionId r;
                     qd_timestamp := now_stamp d;
                     qd_hash := crypto_sha256 (sessionId r +:+ decimal (now_stamp d)
                                                 +:+ secretKey) |})].
Proof.
  unfold issue. destruct (toFile_ok d); cbn [negb]; [|discriminate].
  intros H. inversion H; subst; clear H. cbn. repeat split.
Qed.

Lemma issue_None ipAddress c d st st' :
  issue ipAddress c d st = (None, st') -> st' = st.
Proof.
  unfold issue. destruct (toFile_ok d); cbn [negb]; [discriminate|].
  intros H. inversion H. reflexivity.
Qed.

Lemma getSessionDetails_fst now sid st st' :
  activeSessions st' !! sid = activeSessions st !! sid ->
  fst (getSessionDetails now sid st') = fst (getSessionDetails now sid st).
Proof.
  intros E. unfold getSessionDetails. rewrite E.
  destruct (activeSessions st !! sid) as [s|]; [|reflexivity].
  destruct (now >? expiresAt s); reflexivity.
Qed.

Lemma fold_delete_lookup (due : list (Z * string)) (m : gmap string SessionRecord) sid :
  fold_left (fun m t => delete (snd t) m) due m !! sid
  = if existsb (fun t => String.eqb (snd t) sid) due then None else m !! sid.
Proof.
  revert m. induction due as [|t r IH]; intros m; [reflexivity|].
  cbn [fold_left existsb]. rewrite IH.
  destruct (existsb (fun t => String.eqb (snd t) sid) r).
  - rewrite orb_true_r. reflexivity.
  - rewrite orb_false_r. destruct (String.eqb_spec (snd t) sid) as [->|N].
    + apply lookup_delete_eq.
    + apply lookup_delete_ne. exact N.
Qed.

Lemma runTimers_lookup now st sid :
  activeSessions (runTimers now st) !! sid
  = if existsb (fun t => (fst t <=? now) && String.eqb (snd t) sid) (timers st)
    then None else activeSessions st !! sid.
Proof.
  unfold runTimers. cbn [activeSessions]. rewrite fold_delete_lookup.
  assert (E : existsb (fun t => String.eqb (snd t) sid)
                (List.filter (fun t => fst t <=? now) (timers st))
              = existsb (fun t => (fst t <=? now) && String.eqb (snd t) sid) (timers st)).
  { induction (timers st) as [|t r IH]; [reflexivity|].
    cbn [List.filter existsb]. destruct (fst t <=? now); cbn [existsb andb orb]; rewrite IH;
      reflexivity. }
  rewrite E. reflexivity.
Qed.

End Facts.


End StoreFacts.

(** X14.  The issuance cache can hand out a session that is already
    expired.  The cache entry is stamped after the image is written, the
    session before: a repeated request for the same address and context
    less than 90 s after the cache stamp gets the first result back and
    stores nothing, and when more than 90 s have passed since the session's
    own timestamp the session so returned is one the lookup refuses. *)
Theorem cache_can_return_expired_session :
  forall (rt : Builtins) (ipAddress : string) (c : QrGenerator.SessionContext)
         (d1 d2 : QrGenerator.Draw) (st st1 : QrGenerator.State) (r : QrGenerator.QrResult),
    QrGenerator.issue ipAddress c d1 st = (Some r, st1) ->
    QrGenerator.now_check d2 - QrGenerator.now_cache d1 < QrGenerator.CACHE_TIME ->
    QrGenerator.generateQRCode ipAddress c d2 st1 = (Some r, st1) /\
    (QrGenerator.now_stamp d1 + QrGenerator.QR_CODE_VALIDITY < QrGenerator.now_check d2 ->
     fst (QrGenerator.getSessionDetails (QrGenerator.now_check d2)
            (QrGenerator.sessionId r) st1) = None /\
     fst (QrGenerator.validateSession (QrGenerator.now_check d2)
            (QrGenerator.sessionId r) st1) = false).
Proof.
  intros rt ipAddress c d1 d2 st st1 r H Hc.
  destruct (StoreFacts.issue_Some _ _ _ _ _ _ H) as [_ [_ [Ha [Hi _]]]].
  split.
  - unfold QrGenerator.generateQRCode. rewrite Hi, lookup_insert_eq. cbn.
    destruct (_ <? _) eqn:E; [reflexivity|].
    apply Z.ltb_ge in E. unfold QrGenerator.CACHE_TIME in *. lia.
  - intros He.
    assert (G : fst (QrGenerator.getSessionDetails (QrGenerator.now_check d2)
                       (QrGenerator.sessionId r) st1) = None).
    { unfold QrGenerator.getSessionDetails. rewrite Ha, lookup_insert_eq. cbn.
      destruct (_ >? _) eqn:E; [reflexivity|]. lia. }
    split; [exact G|]. unfold QrGenerator.validateSession.
    destruct (QrGenerator.getSessionDetails _ _ st1) as [o s]. cbn in G. subst o. reflexivity.
Qed.

Lemma cache_can_return_expired_session_witness :
  exists r,
    QrGenerator.generateQRCode (rt := Examples.node) "10.0.0.9" Examples.ctx
      (Examples.draw 91002 Byte.xcd) Examples.issued = (Some r, Examples.issued) /\
    fst (QrGenerator.getSessionDetails 91002 (QrGenerator.sessionId r) Examples.issued) = None.
Proof.
  eexists.
  pose proof (cache_can_return_expired_session Examples.node "10.0.0.9" Examples.ctx
                (Examples.draw 1000 Byte.xab) (Examples.draw 91002 Byte.xcd)
                QrGenerator.initial Examples.issued _ eq_refl) as [A B].
  - vm_compute. reflexivity.
  - split; [exact A|]. apply B. vm_compute. reflexivity.
Defined.

(** X15.  generateQRCode changes at most the entry of the session it
    returns: every other identifier keeps its stored record and its lookup
    result, and a call that fails (the image cannot be written) changes
    nothing at all. *)
Theorem issuance_leaves_other_sessions :
  forall (rt : Builtins) (ipAddress : string) (c : QrGenerator.SessionContext)
         (d : QrGenerator.Draw) (st st' : QrGenerator.State)
         (res : option QrGenerator.QrResult),
    QrGenerator.generateQRCode ipAddress c d st = (res, st') ->
    (res = None -> st' = st) /\
    (forall r other now,
        res = Some r -> other <> QrGenerator.sessionId r ->
        QrGenerator.activeSessions st' !! other = QrGenerator.activeSessions st !! other /\
        fst (QrGenerator.getSessionDetails now other st')
        = fst (QrGenerator.getSessionDetails now other st)).
Proof.
  intros rt ipAddress c d st st' res H.
  assert (Hissue : QrGenerator.issue ipAddress c d st = (res, st') ->
                   (res = None -> st' = st) /\
                   (forall r other,
                       res = Some r -> other <> QrGenerator.sessionId r ->
                       QrGenerator.activeSessions st' !! other
                       = QrGenerator.activeSessions st !! other)).
  { intros Hi. split.
    - intros ->. exact (StoreFacts.issue_None _ _ _ _ _ Hi).
    - intros r other -> N.
      destruct (StoreFacts.issue_Some _ _ _ _ _ _ Hi) as [_ [_ [Ha _]]].
      rewrite Ha. apply lookup_insert_ne. congruence. }
  assert (Hall : (res = None -> st' = st) /\
                 (forall r other,
                     res = Some r -> other <> QrGenerator.sessionId r ->
                     QrGenerator.activeSessions st' !! other
                     = QrGenerator.activeSessions st !! other)).
  { unfold QrGenerator.generateQRCode in H.
    destruct (QrGenerator.ipCache st !! QrGenerator.makeCacheKey ipAddress c) as [cached|];
      [|exact (Hissue H)].
    destruct (_ <? _); [|exact (Hissue H)].
    inversion H; subst. split; [discriminate|]. intros; reflexivity. }
  destruct Hall as [A B]. split; [exact A|].
  intros r other now E N. split; [exact (B r other E N)|].
  apply StoreFacts.getSessionDetails_fst. exact (B r other E N).
Qed.

Lemma issuance_leaves_other_sessions_witness :
  fst (QrGenerator.getSessionDetails 2000 Examples.sid
         (snd (QrGenerator.generateQRCode (rt := Examples.node) "10.0.0.7" Examples.ctx
                 (Examples.draw 2000 Byte.xcd) Examples.issued)))
  = fst (QrGenerator.getSessionDetails 2000 Examples.sid Examples.issued).
Proof.
  pose proof (issuance_leaves_other_sessions Examples.node "10.0.0.7" Examples.ctx
                (Examples.draw 2000 Byte.xcd) Examples.issued
                (snd (QrGenerator.generateQRCode (rt := Examples.node) "10.0.0.7" Examples.ctx
                        (Examples.draw 2000 Byte.xcd) Examples.issued))
                (fst (QrGenerator.generateQRCode (rt := Examples.node) "10.0.0.7" Examples.ctx
                        (Examples.draw 2000 Byte.xcd) Examples.issued))
                (surjective_pairing _)) as [_ B].
  eapply B.
  - vm_compute. reflexivity.
  - vm_compute. discriminate.
Defined.

(** X16.  The timers of the generator delete a session only when its own
    timer is due: an identifier none of whose timers is due keeps its
    record, an identifier with a due timer is absent afterwards, and a
    session just issued (under an identifier with no older timer) is still
    stored at every moment before its [expiresAt]. *)
Theorem timers_delete_due_sessions_only :
  forall (rt : Builtins) (now : Z) (st : QrGenerator.State) (sid : string),
    ((forall due, In (due, sid) (QrGenerator.timers st) -> now < due) ->
     QrGenerator.activeSessions (QrGenerator.runTimers now st) !! sid
     = QrGenerator.activeSessions st !! sid)
    /\
    (forall due,
        In (due, sid) (QrGenerator.timers st) -> due <= now ->
        QrGenerator.activeSessions (QrGenerator.runTimers now st) !! sid = None)
    /\
    (forall ipAddress c d r st',
        QrGenerator.issue ipAddress c d st = (Some r, st') ->
        sid = QrGenerator.sessionId r ->
        QrGenerator.now_stamp d <= QrGenerator.now_timer d ->
        (forall due, ~ In (due, sid) (QrGenerator.timers st)) ->
        now < QrGenerator.now_stamp d + QrGenerator.QR_CODE_VALIDITY ->
        exists s,
          QrGenerator.activeSessions (QrGenerator.runTimers now st') !! sid = Some s /\
          QrGenerator.expiresAt s = QrGenerator.now_stamp d + QrGenerator.QR_CODE_VALIDITY).
Proof.
  intros rt now st sid.
  assert (Keep : forall st0,
             (forall due, In (due, sid) (QrGenerator.timers st0) -> now < due) ->
             QrGenerator.activeSessions (QrGenerator.runTimers now st0) !! sid
             = QrGenerator.activeSessions st0 !! sid).
  { intros st0 H. rewrite StoreFacts.runTimers_lookup.
    destruct (existsb _ (QrGenerator.timers st0)) eqn:E; [|reflexivity].
    apply existsb_exists in E. destruct E as [[due s] [Hin Hd]]. cbn in Hd.
    apply andb_true_iff in Hd. destruct Hd as [Hd Hs].
    apply String.eqb_eq in Hs. subst s. apply Z.leb_le in Hd.
    specialize (H due Hin). lia. }
  split; [apply Keep|]. split.
  - intros due Hin Hd. rewrite StoreFacts.runTimers_lookup.
    assert (E : existsb (fun t => (fst t <=? now) && String.eqb (snd t) sid)
                  (QrGenerator.timers st) = true).
    { apply existsb_exists. exists (due, sid). split; [exact Hin|]. cbn.
      rewrite String.eqb_refl, (proj2 (Z.leb_le _ _) Hd). reflexivity. }
    rewrite E. reflexivity.
  - intros ipAddress c d r st' Hi -> Ht Hold Hnow.
    destruct (StoreFacts.issue_Some _ _ _ _ _ _ Hi) as [_ [_ [Ha [_ [Htm _]]]]].
    rewrite Keep.
    + rewrite Ha, lookup_insert_eq. eexists. split; reflexivity.
    + intros due Hin. rewrite Htm in Hin. apply in_app_or in Hin.
      destruct Hin as [Hin|[Hin|[]]]; [exfalso; exact (Hold due Hin)|].
      inversion Hin; subst. lia.
Qed.

Lemma timers_delete_due_sessions_only_witness :
  QrGenerator.activeSessions (QrGenerator.runTimers 91004 Examples.issued) !! Examples.sid
  = QrGenerator.activeSessions Examples.issued !! Examples.sid
  /\ QrGenerator.activeSessions (QrGenerator.runTimers 91005 Examples.issued) !! Examples.sid
     = None.
Proof.
  split.
  - apply (proj1 (timers_delete_due_sessions_only Examples.node 91004 Examples.issued
                    Examples.sid)).
    intros due H. vm_compute in H. destruct H as [E|[]]. inversion E. lia.
  - apply (proj1 (proj2 (timers_delete_due_sessions_only Examples.node 91005 Examples.issued
                           Examples.sid)) 91005); [vm_compute; left; reflexivity|lia].
Defined.



(** X18.  The payload that issuance encodes into the image passes
    verify-attendance for 15 minutes, ten times the 90 s the session
    lives.  Provided the server's digest helper agrees with the
    generator's digest on the signed text (and the digest is not empty,
    the timestamp not 0 and the random source not empty), a scan at most
    900000 ms after issuance is redirected to the attendance page; the
    redirect carries the institution while the session is still returned
    by the lookup, and only the session identifier afterwards. *)
Theorem issued_token_passes_verification :
  forall (rt : Builtins) (ipAddress : string) (c : QrGenerator.SessionContext)
         (d : QrGenerator.Draw) (st st' : QrGenerator.State) (r : QrGenerator.QrResult)
         (t : Z),
    QrGenerator.issue ipAddress c d st = (Some r, st') ->
    QrGenerator.randomBytes16 d <> [] ->
    QrGenerator.now_stamp d <> 0 ->
    sha256 (QrGenerator.sessionId r +:+ decimal (QrGenerator.now_stamp d)
              +:+ QrGenerator.secretKey)
    = crypto_sha256 (QrGenerator.sessionId r +:+ decimal (QrGenerator.now_stamp d)
                       +:+ QrGenerator.secretKey) ->
    JsString.truthy
      (crypto_sha256 (QrGenerator.sessionId r +:+ decimal (QrGenerator.now_stamp d)
                        +:+ QrGenerator.secretKey)) = true ->
    t - QrGenerator.now_stamp d <= 15 * 60 * 1000 ->
    exists file payload,
      QrGenerator.qrFiles st' = QrGenerator.qrFiles st ++ [(file, payload)] /\
      QrGenerator.qrImage r = "/qrcodes/" +:+ file /\
      fst (Server.verify_attendance t (Some payload) st')
      = Server.Redirect
          ("/index.html?sessionId=" +:+ QrGenerator.sessionId r +:+
           (if t <=? QrGenerator.now_stamp d + QrGenerator.QR_CODE_VALIDITY
            then match QrGenerator.or_null (QrGenerator.ctx_institutionId c) with
                 | Some i => "&institutionId=" +:+ encodeURIComponent i
                 | None => EmptyString
                 end
            else EmptyString)).
Proof.
  intros rt ipAddress c d st st' r t Hi Hb Hz Hsha Hne Ht.
  destruct (StoreFacts.issue_Some _ _ _ _ _ _ Hi) as [Hid [Himg [Ha [_ [_ Hf]]]]].
  eexists. eexists. split; [exact Hf|]. split; [exact Himg|].
  assert (Tsid : JsString.truthy (QrGenerator.sessionId r) = true).
  { rewrite Hid. pose proof (SessionFacts.toHex_length (QrGenerator.randomBytes16 d)) as L.
    destruct (QrGenerator.randomBytes16 d) as [|b bs]; [congruence|].
    destruct (QrGenerator.toHex (b :: bs)); [cbn in L; lia|reflexivity]. }
  unfold Server.verify_attendance.
  cbn [QrGenerator.qd_sessionId QrGenerator.qd_timestamp QrGenerator.qd_hash].
  rewrite Tsid, Hne. cbn [negb orb].
  destruct (Z.eqb_spec (QrGenerator.now_stamp d) 0) as [C|_]; [contradiction|]. cbn [orb].
  rewrite Hsha, String.eqb_refl. cbn [negb].
  destruct (t - QrGenerator.now_stamp d >? 15 * 60 * 1000) eqn:E; [lia|].
  unfold QrGenerator.getSessionDetails. rewrite Ha, lookup_insert_eq.
  cbn [QrGenerator.expiresAt].
  destruct (t >? QrGenerator.now_stamp d + QrGenerator.QR_CODE_VALIDITY) eqn:G.
  - destruct (Z.leb_spec t (QrGenerator.now_stamp d + QrGenerator.QR_CODE_VALIDITY));
      [lia|]. reflexivity.
  - destruct (Z.leb_spec t (QrGenerator.now_stamp d + QrGenerator.QR_CODE_VALIDITY));
      [|lia]. reflexivity.
Qed.

Lemma issued_token_passes_verification_witness :
  exists payload,
    fst (Server.verify_attendance (rt := Examples.node) 600000 (Some payload) Examples.issued)
    = Server.Redirect "/index.html?sessionId=abababababababababababababababab".
Proof.
  destruct (issued_token_passes_verification Examples.node "10.0.0.9" Examples.ctx
              (Examples.draw 1000 Byte.xab) QrGenerator.initial Examples.issued
              _ 600000 eq_refl) as [file [payload [_ [_ H]]]].
  - discriminate.
  - discriminate.
  - reflexivity.
  - reflexivity.
  - vm_compute. discriminate.
  - exists payload. exact H.
Defined.

(** ** Authentication and institution scope *)

Module AccessFacts.
Import JsString.

Lemma split_no_sep sep s : includes sep s = false -> split sep s = [s].
Proof.
  induction s as [|c r IH]; [reflexivity|].
  cbn [includes split]. destruct (Ascii.eqb c sep); [discriminate|].
  cbn [orb]. intros H. rewrite (IH H). reflexivity.
Qed.

Lemma split_app sep a r :
  includes sep a = false -> split sep (a +:+ String sep r) = a :: split sep r.
Proof.
  induction a as [|c a' IH].
  - intros _. change (EmptyString +:+ String sep r) with (String sep r).
    cbn [split]. rewrite Ascii.eqb_refl. reflexivity.
  - cbn [includes]. destruct (Ascii.eqb c sep) eqn:E; [discriminate|].
    cbn [orb]. intros H.
    change (String c a' +:+ String sep r) with (String c (a' +:+ String sep r)).
    cbn [split]. rewrite E, (IH H). reflexivity.
Qed.

Lemma app_assoc' a b c : (a +:+ b) +:+ c = a +:+ (b +:+ c).
Proof.
  induction a as [|x a' IH]; [reflexivity|].
  change (String x a' +:+ b) with (String x (a' +:+ b)).
  change (String x (a' +:+ b) +:+ c) with (String x ((a' +:+ b) +:+ c)).
  change (String x a' +:+ (b +:+ c)) with (String x (a' +:+ (b +:+ c))).
  rewrite IH. reflexivity.
Qed.

Lemma find_In {A : Type} (f : A -> bool) (l : list A) (x : A) :
  find f l = Some x -> In x l /\ f x = true.
Proof. apply find_some. Qed.

Section Facts.
Context {rt : Builtins} {art : Auth.Runtime}.

(** For a role that is not global the institution resolved is the
    account's own. *)
Lemma resolve_non_global user req allowSuperadminAll i :
  Institution.isGlobalInstitutionRole (Auth.au_role user) = false ->
  Institution.resolveInstitutionIdForRequest (Some user) req allowSuperadminAll = inr i ->
  i = trim (Auth.au_institutionId user) /\ i <> EmptyString.
Proof.
  intros G. unfold Institution.resolveInstitutionIdForRequest. rewrite G.
  assert (U : Institution.normalizeInstitutionId
                (Institution.getAuthInstitutionId (Some user))
              = trim (Auth.au_institutionId user)).
  { unfold Institution.normalizeInstitutionId, Institution.getAuthInstitutionId,
      Institution.getValue. rewrite StringFacts.trim_idem.
    destruct (trim (Auth.au_institutionId user)); reflexivity. }
  rewrite U. clear U.
  destruct (_ && negb (Auth.ObjectId_isValid _)); [discriminate|].
  destruct (trim (Auth.au_institutionId user)) as [|c r]; cbn [truthy negb];
    [discriminate|].
  destruct (_ && _); [discriminate|].
  intros [= <-]. split; [reflexivity|discriminate].
Qed.

Lemma requireRoles_inr roles user :
  Auth.requireRoles roles (Some user) = inr tt -> In (Auth.au_role user) roles.
Proof.
  unfold Auth.requireRoles.
  destruct (Policy.member (Auth.au_role user) roles) eqn:M; cbn [negb]; [|discriminate].
  intros _. apply AllowlistFacts.member_In. exact M.
Qed.

Lemma generateQRCode_None ipAddress c d st st' :
  QrGenerator.generateQRCode ipAddress c d st = (None, st') -> st' = st.
Proof.
  unfold QrGenerator.generateQRCode.
  destruct (QrGenerator.ipCache st !! QrGenerator.makeCacheKey ipAddress c) as [cached|];
    [|apply StoreFacts.issue_None].
  destruct (_ <? _); [discriminate|apply StoreFacts.issue_None].
Qed.

End Facts.

Lemma Course_findOne_Some id institutionId db c :
  Store.Course_findOne id institutionId db = Some c ->
  In c (Store.courses db) /\ Store.c_id c = id /\
  Store.c_institutionId c = institutionId /\ Store.c_isActive c = true.
Proof.
  unfold Store.Course_findOne. intros H. apply find_some in H. destruct H as [Hin H].
  apply andb_true_iff in H. destruct H as [H A]. apply andb_true_iff in H.
  destruct H as [I J]. apply String.eqb_eq in I, J. repeat split; assumption.
Qed.

(** The account requireAuth lets through is a stored one. *)
Lemma requireAuth_user {art : Auth.Runtime} now authorization users user payload :
  Auth.requireAuth now authorization users = inr (user, payload) -> In user users.
Proof.
  unfold Auth.requireAuth.
  destruct (Auth.getBearerToken authorization) as [token|]; [|discriminate].
  destruct (truthy token); cbn [negb]; [|discriminate].
  destruct (Auth.verifyAuthToken now token) as [thrown|p]; [discriminate|].
  unfold Auth.AuthUser_findById.
  destruct (Auth.ObjectId_cast_error (Auth.sub p)); [discriminate|].
  destruct (find _ users) as [u|] eqn:F; [|discriminate].
  destruct (Auth.au_isActive u); cbn [negb]; [|discriminate].
  intros [= <- <-]. apply find_some in F. apply F.
Qed.

(** The outcomes of generate-qr. *)
Lemma generate_qr_outcome :
  forall (rt : Builtins) (art : Auth.Runtime) (now : Z) (authorization : string)
         (users : list Auth.AuthUserDoc) (limited : bool)
         (scope : Institution.RequestScope) (courseId ip : string)
         (assignments : list Routes.AssignmentDoc) (d : QrGenerator.Draw)
         (w w' : Server.World) (response : Routes.QrResponse),
    Routes.generate_qr now authorization users limited scope courseId ip assignments d w
    = (response, w') ->
    match response with
    | Routes.QrIssued r =>
        exists user payload course,
          Auth.requireAuth now authorization users = inr (user, payload) /\
          Auth.au_role user = "teacher" /\
          limited = false /\
          JsString.trim (Auth.au_institutionId user) <> EmptyString /\
          In course (Store.courses (Server.db w)) /\
          Store.c_id course = courseId /\
          Store.c_institutionId course = JsString.trim (Auth.au_institutionId user) /\
          Store.c_isActive course = true /\
          (exists a,
              In a assignments /\
              Routes.ta_institutionId a = JsString.trim (Auth.au_institutionId user) /\
              Routes.ta_teacherId a = Auth.au_id user /\
              Routes.ta_courseId a = courseId /\
              Routes.ta_isActive a = true) /\
          QrGenerator.generateQRCode ip
            (Routes.issuance_context user (JsString.trim (Auth.au_institutionId user)) course)
            d (Server.qr w) = (Some r, Server.qr w') /\
          Server.db w' = Server.db w
    | Routes.QrFailed _ _ => w' = w
    end.
Proof.
  intros rt art now authorization users limited scope courseId ip assignments d w w'
    response.
  unfold Routes.generate_qr.
  destruct (Auth.requireAuth now authorization users) as [e|[user payload]] eqn:HA;
    [intros [= <- <-]; reflexivity|].
  destruct (Auth.requireRoles ["teacher"] (Some user)) as [e|[]] eqn:HR;
    [intros [= <- <-]; reflexivity|].
  apply AccessFacts.requireRoles_inr in HR. destruct HR as [HR|[]].
  destruct limited; [intros [= <- <-]; reflexivity|].
  destruct (Institution.resolveInstitutionIdForRequest (Some user) scope false)
    as [e|institutionId] eqn:HI; [intros [= <- <-]; reflexivity|].
  assert (G : Institution.isGlobalInstitutionRole (Auth.au_role user) = false)
    by (rewrite <- HR; reflexivity).
  destruct (AccessFacts.resolve_non_global user scope false institutionId G HI) as [-> Hne].
  destruct (JsString.truthy courseId); cbn [negb]; [|intros [= <- <-]; reflexivity].
  destruct (Auth.ObjectId_cast_error courseId); [intros [= <- <-]; reflexivity|].
  destruct (Store.Course_findOne courseId _ (Server.db w)) as [course|] eqn:HC;
    [|intros [= <- <-]; reflexivity].
  apply AccessFacts.Course_findOne_Some in HC. destruct HC as [C1 [C2 [C3 C4]]].
  rewrite <- HR. cbn [String.eqb Ascii.eqb Bool.eqb andb].
  destruct (existsb _ assignments) eqn:HE; cbn [negb];
    [|intros [= <- <-]; reflexivity].
  apply existsb_exists in HE. destruct HE as [a [Ain Ha]].
  rewrite !andb_true_iff in Ha. destruct Ha as [[[A1 A2] A3] A4].
  apply String.eqb_eq in A1, A2, A3.
  destruct (QrGenerator.generateQRCode ip _ d (Server.qr w)) as [[r|] qr'] eqn:HG.
  - intros [= <- <-]. exists user, payload, course.
    split; [reflexivity|]. split; [symmetry; exact HR|]. split; [reflexivity|].
    split; [exact Hne|]. split; [exact C1|]. split; [exact C2|]. split; [exact C3|].
    split; [exact C4|]. split.
    + exists a. rewrite <- C2. repeat split; assumption.
    + split; [exact HG|reflexivity].
  - intros [= <- <-]. apply AccessFacts.generateQRCode_None in HG. subst qr'.
    destruct w; reflexivity.
Qed.

End AccessFacts.

(** X19.  resolveInstitutionIdForRequest keeps an account inside its
    institution.  When it returns for a role other than superadmin and
    admin, the institution returned is the account's own, it is not empty,
    and the institution the request names, if any, is that same one.  For
    superadmin and admin it returns the requested institution when one is
    named (which is then a valid ObjectId), else the account's own, and
    the empty scope only when the caller allows it.  Its errors carry
    status 400, 401 or 403. *)
Theorem institution_scope_of_request :
  forall (art : Auth.Runtime) (authUser : option Auth.AuthUserDoc)
         (req : Institution.RequestScope) (allowSuperadminAll : bool),
    let requested :=
      Institution.normalizeInstitutionId (Institution.getRequestedInstitutionId req) in
    match Institution.resolveInstitutionIdForRequest authUser req allowSuperadminAll with
    | inr i =>
        match authUser with
        | None => False
        | Some user =>
            (requested <> EmptyString -> Auth.ObjectId_isValid requested = true) /\
            (Institution.isGlobalInstitutionRole (Auth.au_role user) = false ->
             i = JsString.trim (Auth.au_institutionId user) /\ i <> EmptyString /\
             (requested = EmptyString \/ requested = i)) /\
            (Institution.isGlobalInstitutionRole (Auth.au_role user) = true ->
             (requested <> EmptyString /\ i = requested) \/
             (requested = EmptyString /\ i = JsString.trim (Auth.au_institutionId user) /\
              (i = EmptyString -> allowSuperadminAll = true)))
        end
    | inl e =>
        Policy.status e = 400 \/ Policy.status e = 401 \/ Policy.status e = 403
    end.
Proof.
  intros art authUser req allowSuperadminAll. cbv zeta.
  unfold Institution.resolveInstitutionIdForRequest.
  destruct authUser as [user|]; [|right; left; reflexivity].
  assert (U : Institution.normalizeInstitutionId
                (Institution.getAuthInstitutionId (Some user))
              = JsString.trim (Auth.au_institutionId user)).
  { unfold Institution.normalizeInstitutionId, Institution.getAuthInstitutionId,
      Institution.getValue. rewrite StringFacts.trim_idem.
    destruct (JsString.trim (Auth.au_institutionId user)); reflexivity. }
  rewrite U. clear U.
  generalize (JsString.trim (Auth.au_institutionId user)). intros own.
  generalize (Institution.normalizeInstitutionId (Institution.getRequestedInstitutionId req)).
  intros requested.
  generalize (Institution.isGlobalInstitutionRole (Auth.au_role user)). intros g.
  destruct requested as [|c r].
  - cbn [JsString.truthy andb negb Institution.js_or].
    destruct g.
    + destruct own as [|oc orr]; cbn [JsString.truthy negb].
      * destruct allowSuperadminAll; [|left; reflexivity].
        split; [congruence|].
        split; [intros C; discriminate C|]. intros _. right. repeat split.
      * split; [congruence|].
        split; [intros C; discriminate C|]. intros _. right. split; [reflexivity|].
        split; [reflexivity|discriminate].
    + destruct own as [|oc orr]; cbn [JsString.truthy negb].
      * right. right. reflexivity.
      * split; [congruence|]. split.
        -- intros _. split; [reflexivity|]. split; [discriminate|]. left. reflexivity.
        -- intros C; discriminate C.
  - cbn [JsString.truthy andb].
    destruct (Auth.ObjectId_isValid (String c r)) eqn:V; cbn [negb];
      [|left; reflexivity].
    destruct g.
    + cbn [Institution.js_or JsString.truthy negb].
      split; [intros _; reflexivity|].
      split; [intros C; discriminate C|]. intros _. left. split; [discriminate|reflexivity].
    + destruct own as [|oc orr]; cbn [JsString.truthy negb].
      * right. right. reflexivity.
      * destruct (String.eqb_spec (String c r) (String oc orr)) as [E|N]; cbn [negb].
        -- split; [intros _; reflexivity|]. split.
           ++ intros _. split; [reflexivity|]. split; [discriminate|]. right. exact E.
           ++ intros C; discriminate C.
        -- right. right. reflexivity.
Qed.

(** X20.  requireAuth lets a request through only with a bearer token of
    three parts whose third part is the tag of the first two, whose
    payload parses, carries an expiry that is not 0 and not before the
    current second (a token is still accepted at the very second [exp]),
    and names a stored, active account, which is the account the request
    carries on; every refusal is a 401. *)
Theorem bearer_token_gate :
  forall (art : Auth.Runtime) (now : Z) (authorization : string)
         (users : list Auth.AuthUserDoc),
    match Auth.requireAuth now authorization users with
    | inr (user, payload) =>
        JsString.startsWith "Bearer " authorization = true /\
        (exists headerPart payloadPart,
            JsString.split "." (JsString.trim (JsString.slice 7 authorization))
            = [headerPart; payloadPart;
               Auth.sign (headerPart +:+ "." +:+ payloadPart)] /\
            Auth.parsePayload payloadPart = inr payload) /\
        Auth.exp payload <> 0 /\ now <= Auth.exp payload /\
        In user users /\ Auth.au_id user = Auth.sub payload /\
        Auth.au_isActive user = true
    | inl e => Policy.status e = 401
    end.
Proof.
  intros art now authorization users. unfold Auth.requireAuth, Auth.getBearerToken.
  destruct (JsString.startsWith "Bearer " authorization) eqn:B; cbn [negb];
    [|reflexivity].
  set (token := JsString.trim (JsString.slice 7 authorization)).
  destruct (JsString.truthy token); cbn [negb]; [|reflexivity].
  unfold Auth.verifyAuthToken.
  destruct (JsString.split "." token) as [|h [|p [|s [|x t]]]] eqn:S; try reflexivity.
  destruct (Nat.eqb (String.length s) _); cbn [negb]; [|reflexivity].
  destruct (String.eqb_spec s (Auth.sign (h +:+ "." +:+ p))) as [E|N]; cbn [negb];
    [|reflexivity].
  destruct (Auth.parsePayload p) as [thrown|payload] eqn:P; [reflexivity|].
  destruct (Z.eqb_spec (Auth.exp payload) 0) as [Z0|Z0]; cbn [orb]; [reflexivity|].
  destruct (Auth.exp payload <? now) eqn:X; [reflexivity|].
  apply Z.ltb_ge in X.
  unfold Auth.AuthUser_findById.
  destruct (Auth.ObjectId_cast_error (Auth.sub payload)); [reflexivity|].
  destruct (find _ users) as [user|] eqn:F; [|reflexivity].
  destruct (Auth.au_isActive user) eqn:A; cbn [negb]; [|reflexivity].
  apply AccessFacts.find_In in F. destruct F as [Hin Hid]. apply String.eqb_eq in Hid.
  split; [reflexivity|]. split.
  - exists h, p. subst s. split; [reflexivity|exact P].
  - repeat split; assumption.
Qed.

Lemma bearer_token_gate_witness :
  Auth.requireAuth (art := AccessExamples.runtime) 29800 AccessExamples.bearer
    [AccessExamples.teacher] = inr (AccessExamples.teacher, AccessExamples.teacher_payload)
  /\ 29800 <= Auth.exp AccessExamples.teacher_payload.
Proof.
  assert (E : Auth.requireAuth (art := AccessExamples.runtime) 29800 AccessExamples.bearer
                [AccessExamples.teacher]
              = inr (AccessExamples.teacher, AccessExamples.teacher_payload))
    by (vm_compute; reflexivity).
  split; [exact E|].
  pose proof (bearer_token_gate AccessExamples.runtime 29800 AccessExamples.bearer
                [AccessExamples.teacher]) as H.
  rewrite E in H. exact (proj1 (proj2 (proj2 (proj2 H)))).
Defined.

(** X21.  A token made by createAuthToken is accepted by verifyAuthToken
    from the second it is made up to and including the second
    [iat + TOKEN_TTL_SECONDS], and refused as expired afterwards, given
    that the encoded parts and the tag contain no dot and that the payload
    decodes to itself. *)
Theorem created_token_verifies_until_expiry :
  forall (art : Auth.Runtime) (made now : Z) (user : Auth.AuthUserDoc),
    let payload :=
      {| Auth.sub := Auth.au_id user;
         Auth.role := Auth.au_role user;
         Auth.email := Auth.au_email user;
         Auth.institutionId :=
           if JsString.truthy (Auth.au_institutionId user)
           then Some (Auth.au_institutionId user) else None;
         Auth.iat := made;
         Auth.exp := made + Auth.TOKEN_TTL_SECONDS |} in
    JsString.includes "." Auth.headerPart = false ->
    JsString.includes "." (Auth.payloadPart payload) = false ->
    JsString.includes "."
      (Auth.sign (Auth.headerPart +:+ "." +:+ Auth.payloadPart payload)) = false ->
    Auth.parsePayload (Auth.payloadPart payload) = inr payload ->
    made + Auth.TOKEN_TTL_SECONDS <> 0 ->
    (now <= made + Auth.TOKEN_TTL_SECONDS ->
     Auth.verifyAuthToken now (Auth.createAuthToken made user) = inr payload) /\
    (made + Auth.TOKEN_TTL_SECONDS < now ->
     Auth.verifyAuthToken now (Auth.createAuthToken made user) = inl "Token expired").
Proof.
  intros art made now user payload Hh Hp Hs Hparse Hnz.
  assert (S : JsString.split "." (Auth.createAuthToken made user)
              = [Auth.headerPart; Auth.payloadPart payload;
                 Auth.sign (Auth.headerPart +:+ "." +:+ Auth.payloadPart payload)]).
  { unfold Auth.createAuthToken. fold payload.
    set (sg := Auth.sign _).
    rewrite !AccessFacts.app_assoc'.
    change ("." +:+ Auth.payloadPart payload +:+ "." +:+ sg)
      with (String "." (Auth.payloadPart payload +:+ "." +:+ sg)).
    rewrite (AccessFacts.split_app "." _ _ Hh).
    change ("." +:+ sg) with (String "." sg).
    rewrite (AccessFacts.split_app "." _ _ Hp).
    rewrite (AccessFacts.split_no_sep "." sg Hs). reflexivity. }
  unfold Auth.verifyAuthToken. rewrite S.
  rewrite Nat.eqb_refl, String.eqb_refl. cbn [negb]. rewrite Hparse.
  cbn [Auth.exp payload].
  destruct (Z.eqb_spec (made + Auth.TOKEN_TTL_SECONDS) 0) as [C|_]; [contradiction|].
  cbn [orb]. split; intros H.
  - destruct (Z.ltb_spec (made + Auth.TOKEN_TTL_SECONDS) now); [lia|reflexivity].
  - destruct (Z.ltb_spec (made + Auth.TOKEN_TTL_SECONDS) now); [reflexivity|lia].
Qed.

(** X22.  generate-qr issues a session only to an authenticated, active
    account whose stored role is teacher, that the rate limiter lets
    through, for an active course of the teacher's own institution to
    which the teacher holds an active assignment; the session is the one
    generateQRCode gives for that course and institution, and the data
    store is not written.  A request that is refused leaves the session
    store and the data store as they were. *)
Theorem qr_issued_only_to_assigned_teacher :
  forall (rt : Builtins) (art : Auth.Runtime) (now : Z) (authorization : string)
         (users : list Auth.AuthUserDoc) (limited : bool)
         (scope : Institution.RequestScope) (courseId ip : string)
         (assignments : list Routes.AssignmentDoc) (d : QrGenerator.Draw)
         (w w' : Server.World) (response : Routes.QrResponse),
    Routes.generate_qr now authorization users limited scope courseId ip assignments d w
    = (response, w') ->
    match response with
    | Routes.QrIssued r =>
        exists user payload course,
          Auth.requireAuth now authorization users = inr (user, payload) /\
          Auth.au_role user = "teacher" /\
          limited = false /\
          JsString.trim (Auth.au_institutionId user) <> EmptyString /\
          In course (Store.courses (Server.db w)) /\
          Store.c_id course = courseId /\
          Store.c_institutionId course = JsString.trim (Auth.au_institutionId user) /\
          Store.c_isActive course = true /\
          (exists a,
              In a assignments /\
              Routes.ta_institutionId a = JsString.trim (Auth.au_institutionId user) /\
              Routes.ta_teacherId a = Auth.au_id user /\
              Routes.ta_courseId a = courseId /\
              Routes.ta_isActive a = true) /\
          QrGenerator.generateQRCode ip
            (Routes.issuance_context user (JsString.trim (Auth.au_institutionId user)) course)
            d (Server.qr w) = (Some r, Server.qr w') /\
          Server.db w' = Server.db w
    | Routes.QrFailed _ _ => w' = w
    end.
Proof.
  intros rt art now authorization users limited scope courseId ip assignments d w w'
    response. apply AccessFacts.generate_qr_outcome.
Qed.

(** X23.  A teacher's attendance listing is confined to the teacher's
    own courses: every document returned by the by-date route to an
    account with the teacher role is a stored document of the teacher's
    institution, of the requested date, with status present, of the
    requested course when one is named, and of a course to which the
    teacher holds an active assignment in that institution. *)
Theorem teacher_listing_confined_to_assigned_courses :
  forall (art : Auth.Runtime) (user : Auth.AuthUserDoc)
         (scope : Institution.RequestScope) (date courseId : string)
         (assignments : list Routes.AssignmentDoc) (d : Store.Db)
         (rows : list Store.AttendanceDoc) (a : Store.AttendanceDoc),
    Auth.au_role user = "teacher" ->
    Routes.attendance_by_date user scope date courseId assignments d = Routes.Rows rows ->
    In a rows ->
    In a (Store.attendances d) /\
    Store.a_institutionId a = JsString.trim (Auth.au_institutionId user) /\
    Store.a_date a = date /\
    Store.a_status a = "present" /\
    (courseId <> EmptyString -> Store.a_courseId a = courseId) /\
    exists t,
      In t assignments /\
      Routes.ta_teacherId t = Auth.au_id user /\
      Routes.ta_institutionId t = Store.a_institutionId a /\
      Routes.ta_courseId t = Store.a_courseId a /\
      Routes.ta_isActive t = true.
Proof.
  intros art user scope date courseId assignments d rows a HR.
  unfold Routes.attendance_by_date.
  assert (RR : Auth.requireRoles
                 ["superadmin"; "admin"; "institution_admin"; "institution_user"; "teacher"]
                 (Some user) = inr tt)
    by (unfold Auth.requireRoles; rewrite HR; reflexivity).
  rewrite RR. clear RR.
  assert (RT : String.eqb (Auth.au_role user) "teacher" = true)
    by (rewrite HR; reflexivity).
  rewrite RT. clear RT.
  destruct (Institution.resolveInstitutionIdForRequest (Some user) scope false)
    as [e|institutionId] eqn:HI; [intros C; discriminate C|].
  assert (G : Institution.isGlobalInstitutionRole (Auth.au_role user) = false)
    by (rewrite HR; reflexivity).
  destruct (AccessFacts.resolve_non_global user scope false institutionId G HI) as [-> Hne].
  set (own := JsString.trim (Auth.au_institutionId user)).
  destruct (JsString.truthy date); cbn [negb]; [|intros C; discriminate C].
  set (allowed := Routes.getAssignedCourseIdsForTeacher (Auth.au_id user) own assignments).
  assert (Hallowed : forall c, In c allowed ->
            exists t, In t assignments /\ Routes.ta_teacherId t = Auth.au_id user /\
                      Routes.ta_institutionId t = own /\ Routes.ta_courseId t = c /\
                      Routes.ta_isActive t = true).
  { intros c Hc. unfold allowed, Routes.getAssignedCourseIdsForTeacher in Hc.
    apply filter_In in Hc. destruct Hc as [Hc _]. apply in_map_iff in Hc.
    destruct Hc as [t [<- Ht]]. apply filter_In in Ht. destruct Ht as [Tin Ht].
    rewrite !andb_true_iff in Ht. destruct Ht as [[T1 T2] T3].
    apply String.eqb_eq in T1, T2. exists t. repeat split; assumption. }
  unfold Routes.buildCourseScopedFilter.
  destruct (Nat.eqb (List.length allowed) 0); [intros [= <-] []|].
  destruct (JsString.truthy courseId) eqn:TC.
  - destruct (Policy.member courseId allowed) eqn:M; cbn [negb]; [|intros C; discriminate C].
    destruct (Auth.ObjectId_cast_error courseId); [intros C; discriminate C|].
    intros [= <-] Hin. apply filter_In in Hin. destruct Hin as [Hin Hm].
    rewrite !andb_true_iff in Hm. destruct Hm as [[Hm Hd] Hs].
    unfold Routes.matches in Hm. apply andb_true_iff in Hm. destruct Hm as [Hi Hc].
    apply String.eqb_eq in Hi, Hc, Hd, Hs.
    split; [exact Hin|]. split; [exact Hi|]. split; [exact Hd|]. split; [exact Hs|].
    split; [intros _; exact Hc|].
    apply AllowlistFacts.member_In in M. destruct (Hallowed courseId M) as [t Ht].
    exists t. rewrite Hi, Hc. exact Ht.
  - intros [= <-] Hin. apply filter_In in Hin. destruct Hin as [Hin Hm].
    rewrite !andb_true_iff in Hm. destruct Hm as [[Hm Hd] Hs].
    unfold Routes.matches in Hm. apply andb_true_iff in Hm. destruct Hm as [Hi Hc].
    apply String.eqb_eq in Hi, Hd, Hs.
    split; [exact Hin|]. split; [exact Hi|]. split; [exact Hd|]. split; [exact Hs|].
    split; [intros N; destruct courseId; [congruence|discriminate]|].
    apply AllowlistFacts.member_In in Hc. destruct (Hallowed _ Hc) as [t Ht].
    exists t. rewrite Hi. exact Ht.
Qed.

Lemma institution_scope_of_request_witness :
  Institution.resolveInstitutionIdForRequest (art := AccessExamples.runtime)
    (Some AccessExamples.teacher) AccessExamples.own_scope false = inr "inst1"
  /\ "inst1" = JsString.trim (Auth.au_institutionId AccessExamples.teacher).
Proof.
  assert (E : Institution.resolveInstitutionIdForRequest (art := AccessExamples.runtime)
                (Some AccessExamples.teacher) AccessExamples.own_scope false = inr "inst1")
    by (vm_compute; reflexivity).
  split; [exact E|].
  pose proof (institution_scope_of_request AccessExamples.runtime
                (Some AccessExamples.teacher) AccessExamples.own_scope false) as H.
  cbv zeta in H. rewrite E in H. destruct H as [_ [H _]].
  apply H. reflexivity.
Defined.

Lemma created_token_verifies_until_expiry_witness :
  Auth.verifyAuthToken (art := AccessExamples.runtime) 29800
    (Auth.createAuthToken (art := AccessExamples.runtime) 1000 AccessExamples.teacher)
  = inr AccessExamples.teacher_payload
  /\ Auth.verifyAuthToken (art := AccessExamples.runtime) 29801
       (Auth.createAuthToken (art := AccessExamples.runtime) 1000 AccessExamples.teacher)
     = inl "Token expired".
Proof.
  split.
  - apply (proj1 (created_token_verifies_until_expiry AccessExamples.runtime 1000 29800
                    AccessExamples.teacher eq_refl eq_refl eq_refl eq_refl
                    ltac:(vm_compute; discriminate))).
    vm_compute. discriminate.
  - apply (proj2 (created_token_verifies_until_expiry AccessExamples.runtime 1000 29801
                    AccessExamples.teacher eq_refl eq_refl eq_refl eq_refl
                    ltac:(vm_compute; discriminate))).
    reflexivity.
Defined.

Lemma qr_issued_only_to_assigned_teacher_witness :
  exists r w',
    Routes.generate_qr (rt := Examples.node) (art := AccessExamples.runtime) 2000
      AccessExamples.bearer [AccessExamples.teacher] false AccessExamples.no_scope
      "course1" "10.0.0.9" [AccessExamples.assignment] (Examples.draw 2000 Byte.xcd)
      AccessExamples.quiet_classroom = (Routes.QrIssued r, w') /\
    Server.db w' = Server.db AccessExamples.quiet_classroom.
Proof.
  eexists. eexists. split; [vm_compute; reflexivity|].
  pose proof (qr_issued_only_to_assigned_teacher Examples.node AccessExamples.runtime 2000
                AccessExamples.bearer [AccessExamples.teacher] false AccessExamples.no_scope
                "course1" "10.0.0.9" [AccessExamples.assignment]
                (Examples.draw 2000 Byte.xcd) AccessExamples.quiet_classroom _ (Routes.QrIssued _)
                eq_refl) as [user [payload [course [_ [_ [_ [_ [_ [_ [_ [_ [_ [_ H]]]]]]]]]]]]].
  exact H.
Defined.

Lemma teacher_listing_confined_to_assigned_courses_witness :
  exists a,
    Routes.attendance_by_date (art := AccessExamples.runtime)
      AccessExamples.teacher AccessExamples.no_scope "2026-03-09" EmptyString
      [AccessExamples.assignment] (Server.db AccessExamples.marked) = Routes.Rows [a] /\
    Store.a_institutionId a = "inst1" /\ Store.a_courseId a = "course1".
Proof.
  eexists. split; [vm_compute; reflexivity|].
  destruct (teacher_listing_confined_to_assigned_courses AccessExamples.runtime
              AccessExamples.teacher AccessExamples.no_scope "2026-03-09" EmptyString
              [AccessExamples.assignment] (Server.db AccessExamples.marked) _ _
              eq_refl eq_refl (or_introl eq_refl))
    as [_ [Hi [_ [_ [_ [t [[<-|[]] [_ [_ [Hc _]]]]]]]]]].
  split; [exact Hi|]. symmetry. exact Hc.
Defined.

(** ** The fallback fingerprint *)

Module HashFacts.
Import JsString Routes.

Lemma append_cons c a b : String c a +:+ b = String c (a +:+ b).
Proof. reflexivity. Qed.

Lemma append_nil b : EmptyString +:+ b = b.
Proof. reflexivity. Qed.

Lemma length_append a b : String.length (a +:+ b) = (String.length a + String.length b)%nat.
Proof.
  induction a as [|c a IH]; [reflexivity|].
  rewrite append_cons. cbn [String.length]. rewrite IH. reflexivity.
Qed.

Lemma all_chars_append p a b :
  Server.all_chars p (a +:+ b) = Server.all_chars p a && Server.all_chars p b.
Proof.
  induction a as [|c a IH]; [reflexivity|].
  rewrite append_cons. cbn [Server.all_chars]. rewrite IH, andb_assoc. reflexivity.
Qed.

Lemma hex_number_append acc a b :
  hex_number acc (a +:+ b)
  = match hex_number acc a with
    | Some v => hex_number v b
    | None => None
    end.
Proof.
  revert acc. induction a as [|c a IH]; intros acc; [reflexivity|].
  rewrite append_cons. cbn [hex_number].
  destruct (QrGenerator.hex_value c); [apply IH|reflexivity].
Qed.

Lemma hex_digit_spec d :
  (d < 16)%N ->
  QrGenerator.hex_value (QrGenerator.hex_digit d) = Some d /\
  is_hex_char (QrGenerator.hex_digit d) = true.
Proof.
  intros H.
  assert (C : (d = 0 \/ d = 1 \/ d = 2 \/ d = 3 \/ d = 4 \/ d = 5 \/ d = 6 \/ d = 7 \/
               d = 8 \/ d = 9 \/ d = 10 \/ d = 11 \/ d = 12 \/ d = 13 \/ d = 14 \/
               d = 15)%N) by lia.
  repeat (destruct C as [->|C]; [split; vm_compute; reflexivity|]).
  subst d. split; vm_compute; reflexivity.
Qed.

(** The digits [hex_digits] puts in front of the accumulator. *)
Lemma hex_digits_spec fuel :
  forall n acc,
    (0 < fuel)%nat -> (n < 16 ^ N.of_nat fuel)%N ->
    exists ds,
      hex_digits fuel n acc = ds +:+ acc /\
      (1 <= String.length ds <= fuel)%nat /\
      Server.all_chars is_hex_char ds = true /\
      forall a, hex_number a ds = Some (a * 16 ^ N.of_nat (String.length ds) + n)%N.
Proof.
  induction fuel as [|k IH]; intros n acc Hf Hn; [lia|].
  cbn [hex_digits].
  assert (Hd : (n mod 16 < 16)%N) by (apply N.mod_lt; discriminate).
  destruct (hex_digit_spec _ Hd) as [Hv Hc].
  destruct (N.eqb_spec (n / 16) 0) as [Q|Q].
  - exists (String (QrGenerator.hex_digit (n mod 16)) EmptyString).
    split; [reflexivity|]. split; [cbn; lia|]. split; [cbn; rewrite Hc; reflexivity|].
    intros a. cbn [hex_number String.length]. rewrite Hv.
    f_equal. pose proof (N.div_mod n 16 ltac:(discriminate)) as E.
    rewrite Q in E. change (16 ^ N.of_nat 1)%N with 16%N. lia.
  - assert (Hk : (0 < k)%nat).
    { destruct k; [|lia]. exfalso. apply Q. apply N.div_small.
      change (16 ^ N.of_nat 1)%N with 16%N in Hn. exact Hn. }
    assert (Hq : (n / 16 < 16 ^ N.of_nat k)%N).
    { apply N.Div0.div_lt_upper_bound.
      replace (16 * 16 ^ N.of_nat k)%N with (16 ^ N.of_nat (S k))%N; [exact Hn|].
      rewrite Nat2N.inj_succ, N.pow_succ_r'. reflexivity. }
    destruct (IH (n / 16)%N (String (QrGenerator.hex_digit (n mod 16)) acc) Hk Hq)
      as [ds [E [L [C V]]]].
    exists (ds +:+ String (QrGenerator.hex_digit (n mod 16)) EmptyString).
    split.
    + rewrite E. clear. induction ds as [|c ds IHd]; [reflexivity|].
      rewrite !append_cons, IHd. reflexivity.
    + split; [rewrite length_append; cbn [String.length]; lia|].
      split; [rewrite all_chars_append, C; cbn; rewrite Hc; reflexivity|].
      intros a. rewrite hex_number_append, V. cbn [hex_number]. rewrite Hv.
      f_equal. rewrite length_append. cbn [String.length].
      replace (N.of_nat (String.length ds + 1)) with (N.succ (N.of_nat (String.length ds)))
        by lia.
      rewrite N.pow_succ_r'.
      pose proof (N.div_mod n 16 ltac:(discriminate)) as D. nia.
Qed.

Lemma replicate_zero_spec k :
  String.length (Examples.replicate k "0") = k /\
  Server.all_chars is_hex_char (Examples.replicate k "0") = true /\
  hex_number 0 (Examples.replicate k "0") = Some 0%N.
Proof.
  induction k as [|k [IH1 [IH2 IH3]]]; [repeat split|].
  cbn [Examples.replicate String.length Server.all_chars hex_number].
  rewrite IH1, IH2. repeat split. exact IH3.
Qed.

Lemma hash_step_range h c : 0 <= hash_step h c < 2 ^ 32.
Proof. unfold hash_step, JsNum.ushr0. apply JsNumFacts.toUint32_range. Qed.

Lemma hash_loop_range h s : 0 <= h < 2 ^ 32 -> 0 <= hash_loop h s < 2 ^ 32.
Proof.
  revert h. induction s as [|c r IH]; intros h H; [exact H|].
  cbn [hash_loop]. apply IH. apply hash_step_range.
Qed.

End HashFacts.

(** X24.  The fingerprint that the consistent-hash route falls back to
    always has the format the route demands of the external program,
    eight characters from 0-9 and a-f, and it is the hexadecimal text of
    the 32-bit hash: reading it back gives the value the loop computed,
    which lies in [0, 2^32) and is, after each character, the previous
    value times 31 plus the character code, reduced modulo 2^32. *)
Theorem fallback_fingerprint_has_required_format :
  forall input : string,
    Routes.fingerprint_format (Routes.consistentHashJS input) = true /\
    Routes.hex_number 0 (Routes.consistentHashJS input)
    = Some (Z.to_N (Routes.hash_loop 0 input)) /\
    0 <= Routes.hash_loop 0 input < 2 ^ 32 /\
    (forall h c r,
        Routes.hash_loop h (String c r)
        = Routes.hash_loop ((h * 31 + Z.of_nat (nat_of_ascii c)) mod 2 ^ 32) r).
Proof.
  intros input.
  pose proof (HashFacts.hash_loop_range 0 input ltac:(lia)) as R.
  unfold Routes.consistentHashJS, Routes.toString16, Routes.padStart.
  set (n := Z.to_N (Routes.hash_loop 0 input)).
  assert (Hn : (n < 16 ^ N.of_nat 8)%N).
  { change (16 ^ N.of_nat 8)%N with (Z.to_N (2 ^ 32)). subst n.
    apply Z2N.inj_lt; lia. }
  destruct (HashFacts.hex_digits_spec 8 n EmptyString ltac:(lia) Hn) as [ds [E [L [C V]]]].
  assert (E' : Routes.hex_digits 8 n EmptyString = ds).
  { rewrite E. clear. induction ds as [|c ds IH]; [reflexivity|].
    rewrite HashFacts.append_cons, IH. reflexivity. }
  rewrite E'.
  destruct (HashFacts.replicate_zero_spec (8 - String.length ds)) as [Z1 [Z2 Z3]].
  split; [|split; [|split; [exact R|reflexivity]]].
  - unfold Routes.fingerprint_format.
    rewrite HashFacts.length_append, Z1, HashFacts.all_chars_append, Z2, C.
    replace (8 - String.length ds + String.length ds)%nat with 8%nat by lia. reflexivity.
  - rewrite HashFacts.hex_number_append, Z3, V. f_equal; lia.
Qed.

(** ** What a student is told and what is enforced *)

(** X25.  The policy that validate-session reports for a session is the
    policy that mark-attendance enforces on it.  When a submission is
    accepted, a validate-session call for the same session at the same
    moment and on the same stores (with identifiers that are valid
    ObjectIds) answers that the session is valid, leaves the session store
    as it is, and reports the flags, the delivery mode, the course and the
    institution that the stored attendance document records in its policy
    snapshot. *)
Theorem advertised_policy_is_enforced_policy :
  forall (rt : Builtins) (art : Auth.Runtime) (t : Server.Tick) (req : Server.Request)
         (w : Server.World) (institutions : list Routes.InstitutionDoc)
         (a : Store.AttendanceDoc),
    fst (Server.mark_attendance t req w) = Server.success_response a ->
    Auth.ObjectId_isValid (Store.a_institutionId a) = true ->
    Auth.ObjectId_isValid (Store.a_courseId a) = true ->
    exists view,
      Routes.validate_session (Server.now t) (Server.body_sessionId req) institutions w
      = ({| Routes.vr_status := 200; Routes.vr_valid := true;
            Routes.vr_message := "Valid session"; Routes.vr_session := Some view |},
         Server.qr w) /\
      Routes.sv_policy view
      = {| Routes.pf_singleDevicePerDay :=
             Policy.singleDevicePerDay (Store.a_attendancePolicySnapshot a);
           Routes.pf_requireSignature :=
             Policy.requireSignature (Store.a_attendancePolicySnapshot a);
           Routes.pf_requireEnrollment :=
             Policy.requireEnrollment (Store.a_attendancePolicySnapshot a);
           Routes.pf_requireIpAllowlist :=
             Policy.requireIpAllowlist (Store.a_attendancePolicySnapshot a);
           Routes.pf_requireGeofence :=
             Policy.requireGeofence (Store.a_attendancePolicySnapshot a) |} /\
      Routes.sv_requiresLocation view
      = Policy.requireGeofence (Store.a_attendancePolicySnapshot a) /\
      Routes.sv_requiresSignature view
      = Policy.requireSignature (Store.a_attendancePolicySnapshot a) /\
      Routes.sv_courseDeliveryMode view = Store.a_courseDeliveryMode a /\
      Routes.sv_courseId view = Some (Store.a_courseId a) /\
      Routes.sv_institutionId view = Some (Store.a_institutionId a).
Proof.
  intros rt art t req w institutions a Hok Vi Vc.
  assert (H200 : Server.res_status (fst (Server.mark_attendance t req w)) = 200)
    by (rewrite Hok; reflexivity).
  destruct (SubmissionFacts.mark_attendance_success t req w H200)
    as [_ [p [session [courseId [institutionId [course [student [users'
         [Hpre [Hs [Hlive [Hc [Hi [Hf [Hpc [_ Hm]]]]]]]]]]]]]]]].
  rewrite Hm in Hok. cbn [fst] in Hok.
  assert (Ha : a = Server.plan_attendance p (Store.u_id student)).
  { unfold Server.success_response in Hok. inversion Hok. reflexivity. }
  apply PipelineFacts.policy_checks_Continue in Hpc. cbv zeta in Hpc.
  destruct Hpc as [distance [enrollment [_ [_ [_ [_ [_ Hp]]]]]]].
  subst p. cbn [Server.make_plan Server.plan_attendance] in Ha. subst a.
  cbn [Store.a_institutionId Store.a_courseId Store.a_attendancePolicySnapshot
       Store.a_courseDeliveryMode] in *.
  apply PipelineFacts.precommit_Continue in Hpre.
  destruct Hpre as [Ts _].
  unfold Routes.validate_session. rewrite Ts. cbn [negb].
  rewrite (SessionFacts.getSessionDetails_live _ _ _ _ Hs Hlive).
  rewrite Hi, Hc, Vi, Vc, Hf. cbn [andb].
  apply PipelineFacts.present_truthy in Hc. destruct Hc as [_ Hc].
  eexists. split; [reflexivity|]. cbn. repeat split. exact Hc.
Qed.

Lemma advertised_policy_is_enforced_policy_witness :
  exists view,
    Routes.validate_session (rt := Examples.node) (art := AccessExamples.runtime) 2000
      Examples.sid [] (Examples.classroom (Examples.raw true false true false []))
    = ({| Routes.vr_status := 200; Routes.vr_valid := true;
          Routes.vr_message := "Valid session"; Routes.vr_session := Some view |},
       Examples.issued) /\
    Routes.sv_requiresSignature view = false.
Proof.
  destruct (advertised_policy_is_enforced_policy Examples.node AccessExamples.runtime
              (Examples.tick 2000 "u1")
              (Examples.submission "Ada Lovelace" "ada@uni.edu" "dev1" EmptyString)
              (Examples.classroom (Examples.raw true false true false [])) [] _
              eq_refl eq_refl eq_refl) as [view [H [_ [_ [S _]]]]].
  exists view. split; [exact H|exact S].
Defined.

(** ** Names, the roster and the network check *)

Module NameFacts.
Import JsString Server.

Lemma is_space_lower c : is_space (lower_char c) = is_space c.
Proof. destruct c as [[] [] [] [] [] [] [] []]; vm_compute; reflexivity. Qed.

Lemma trimStart_lower s : trimStart (toLowerCase s) = toLowerCase (trimStart s).
Proof.
  induction s as [|c r IH]; [reflexivity|].
  cbn [toLowerCase map_chars trimStart]. fold (toLowerCase r).
  rewrite is_space_lower. destruct (is_space c); [exact IH|reflexivity].
Qed.

Lemma all_space_lower s : all_space (toLowerCase s) = all_space s.
Proof.
  induction s as [|c r IH]; [reflexivity|].
  cbn [toLowerCase map_chars all_space]. fold (toLowerCase r).
  rewrite is_space_lower, IH. reflexivity.
Qed.

Lemma trimEnd_lower s : trimEnd (toLowerCase s) = toLowerCase (trimEnd s).
Proof.
  induction s as [|c r IH]; [reflexivity|].
  pose proof (all_space_lower (String c r)) as A.
  cbn [toLowerCase map_chars] in A. fold (toLowerCase r) in A.
  cbn [toLowerCase map_chars trimEnd]. fold (toLowerCase r).
  rewrite A. destruct (all_space (String c r)); [reflexivity|].
  cbn [map_chars]. fold (toLowerCase (trimEnd r)). rewrite IH. reflexivity.
Qed.

Lemma trim_lower s : trim (toLowerCase s) = toLowerCase (trim s).
Proof. unfold trim. rewrite trimStart_lower, trimEnd_lower. reflexivity. Qed.

Lemma collapse_lower s : collapse_spaces (toLowerCase s) = toLowerCase (collapse_spaces s).
Proof.
  induction s as [|c r IH]; [reflexivity|].
  cbn [toLowerCase map_chars collapse_spaces]. fold (toLowerCase r).
  rewrite is_space_lower. destruct (is_space c).
  - destruct r as [|d r']; [reflexivity|].
    cbn [toLowerCase map_chars]. fold (toLowerCase r').
    rewrite is_space_lower.
    cbn [toLowerCase map_chars] in IH. fold (toLowerCase r') in IH.
    destruct (is_space d); [exact IH|].
    cbn [map_chars]. rewrite IH. reflexivity.
  - cbn [map_chars]. fold (toLowerCase (collapse_spaces r)). rewrite IH. reflexivity.
Qed.

(** normalizeName reads a name through its lower-cased text alone. *)
Lemma normalizeName_lower s :
  normalizeName s = collapse_spaces (trim (toLowerCase s)).
Proof. unfold normalizeName. rewrite trim_lower, collapse_lower. reflexivity. Qed.

Lemma namesMatch_lower a b : toLowerCase a = toLowerCase b -> namesMatch a b = true.
Proof.
  intros E. unfold namesMatch.
  destruct (negb (truthy a) || negb (truthy b)); [reflexivity|].
  rewrite !normalizeName_lower, E. apply String.eqb_refl.
Qed.

End NameFacts.

(** X26.  On a roster whose roll numbers have the format the enrollment
    routes enforce, and for a submitted name whose pattern matches only
    texts equal to it up to case, the name check of mark-attendance never
    refuses: the identity check either finds no row (and refuses only
    when the policy requires enrollment) or returns the first active row
    of the course that carries the name, and never answers with the
    name-mismatch error. *)
Theorem name_check_passes_on_rows_found_by_name :
  forall (rt : Builtins) (policy : Policy.AttendancePolicy)
         (institutionId courseId submittedEmail submittedName : string) (d : Store.Db),
    Forall (fun e => CourseRoutes.ENROLLMENT_ROLL_PATTERN (Store.e_universityRollNo e) = true)
           (Store.enrollments d) ->
    Server.isValidEmail submittedEmail = true ->
    (forall stored,
        regex_exact_i submittedName stored = true ->
        JsString.toLowerCase submittedName = JsString.toLowerCase stored) ->
    Server.check_identity policy institutionId courseId submittedEmail submittedName d
    = match find (fun e => String.eqb (Store.e_institutionId e) institutionId
                           && String.eqb (Store.e_courseId e) courseId
                           && Store.e_isActive e
                           && regex_exact_i submittedName (Store.e_fullName e))
              (Store.enrollments d) with
      | Some e => Server.Continue (Some e)
      | None =>
          if Policy.requireEnrollment policy
          then Server.Reject
                 (Server.error_response 400 "You are not enrolled in this course roster")
          else Server.Continue None
      end.
Proof.
  intros rt policy institutionId courseId submittedEmail submittedName d F V R.
  unfold Server.check_identity.
  assert (L : Store.CourseEnrollment_findOne institutionId courseId submittedEmail
                submittedName d
              = find (fun e => String.eqb (Store.e_institutionId e) institutionId
                               && String.eqb (Store.e_courseId e) courseId
                               && Store.e_isActive e
                               && regex_exact_i submittedName (Store.e_fullName e))
                     (Store.enrollments d)).
  { unfold Store.CourseEnrollment_findOne. apply RosterFacts.find_ext.
    intros e He. pose proof (proj1 (List.Forall_forall _ _) F) as F'.
    destruct (RosterFacts.roll_never_email _ submittedEmail (F' e He) V) as [-> ->].
    reflexivity. }
  rewrite L. destruct (find _ (Store.enrollments d)) as [e|] eqn:E; [|reflexivity].
  apply find_some in E. destruct E as [_ E]. apply andb_true_iff in E.
  destruct E as [_ E]. apply R in E.
  rewrite (NameFacts.namesMatch_lower (Store.e_fullName e) submittedName (eq_sym E)).
  reflexivity.
Qed.

Lemma name_check_passes_on_rows_found_by_name_witness :
  Server.check_identity (rt := Examples.node)
    (Policy.normalizeAttendancePolicy (rt := Examples.node)
       (Some (Examples.raw true false true false [])) "in_person")
    "inst1" "course1" "ada@uni.edu" "ada lovelace"
    (Server.db (Examples.classroom (Examples.raw true false true false [])))
  = Server.Continue (Some Examples.ada).
Proof.
  refine (eq_trans
            (name_check_passes_on_rows_found_by_name Examples.node _ "inst1" "course1"
               "ada@uni.edu" "ada lovelace"
               (Server.db (Examples.classroom (Examples.raw true false true false [])))
               _ _ _) _).
  - repeat constructor.
  - vm_compute. reflexivity.
  - intros stored H. apply String.eqb_eq. exact H.
  - vm_compute. reflexivity.
Defined.

(** X27.  The address that the allowlist check reads is the first hop of
    the X-Forwarded-For header whenever the request carries one, not the
    address of the connection and not a later hop: for a header [hop] or
    [hop,rest], where [hop] is not empty and has no comma, the address
    read is the normalised [hop] (trimmed, lower-cased, a mapped-IPv6
    prefix stripped), whatever [rest], [req.ip] and the address of the
    socket are.  So a request whose normalised first hop is an exact entry
    of the course's allowlist passes the network check whatever address it
    comes from. *)
Theorem forwarded_header_passes_network_check :
  forall (rt : Builtins) (policy : Policy.AttendancePolicy) (req : Server.Request)
         (entry hop : string) (later : option string),
    JsString.includes "," hop = false ->
    hop <> EmptyString ->
    Server.header_x_forwarded_for req
    = match later with
      | None => hop
      | Some rest => hop +:+ "," +:+ rest
      end ->
    (Server.getClientIpFromRequest req
     = (let first := JsString.toLowerCase (JsString.trim hop) in
        if JsString.startsWith "::ffff:" first then JsString.slice 7 first else first))
    /\
    (Policy.requireIpAllowlist policy = true ->
     In entry (Policy.ipAllowlist policy) ->
     Network.normalizeClientIp entry <> EmptyString ->
     JsString.includes "/" (Network.normalizeClientIp entry) = false ->
     Network.normalizeClientIp (Network.normalizeClientIp entry)
     = Network.normalizeClientIp entry ->
     Network.normalizeClientIp hop = Network.normalizeClientIp entry ->
     Server.getClientIpFromRequest req = Network.normalizeClientIp entry /\
     Server.check_network policy (Server.getClientIpFromRequest req) = Server.Continue tt).
Proof.
  intros rt policy req entry hop later Hcomma Hhop Hhdr.
  assert (Hfirst : hd EmptyString (JsString.split "," (Server.header_x_forwarded_for req))
                   = hop).
  { rewrite Hhdr. destruct later as [rest|].
    - change (hop +:+ "," +:+ rest) with (hop +:+ String "," rest).
      rewrite (AccessFacts.split_app _ _ _ Hcomma). reflexivity.
    - rewrite (AccessFacts.split_no_sep _ _ Hcomma). reflexivity. }
  assert (Htruthy : JsString.truthy (Server.header_x_forwarded_for req) = true).
  { rewrite Hhdr. destruct later as [rest|]; destruct hop; try reflexivity; congruence. }
  assert (Hread : Server.getClientIpFromRequest req = Network.normalizeClientIp hop).
  { unfold Server.getClientIpFromRequest. rewrite Htruthy.
    unfold Network.normalizeClientIp. rewrite Hfirst.
    rewrite (AccessFacts.split_no_sep _ _ Hcomma). reflexivity. }
  split.
  - rewrite Hread. unfold Network.normalizeClientIp.
    rewrite (AccessFacts.split_no_sep _ _ Hcomma). cbn [hd]. cbv zeta.
    destruct (JsString.truthy (JsString.toLowerCase (JsString.trim hop))) eqn:T;
      cbn [negb]; [reflexivity|].
    destruct (JsString.toLowerCase (JsString.trim hop)); [reflexivity|discriminate T].
  - intros Hreq Hin Hne Hslash Hstable Hsame.
    set (e := Network.normalizeClientIp entry) in *.
    assert (Te : JsString.truthy e = true) by (destruct e; [congruence|reflexivity]).
    assert (Hip : Server.getClientIpFromRequest req = e) by (rewrite Hread; exact Hsame).
    split; [exact Hip|]. rewrite Hip.
    unfold Server.check_network. rewrite Hreq.
    destruct (Policy.ipAllowlist policy) as [|x l] eqn:L; [destruct Hin|].
    cbn [List.length Nat.eqb Server.guard Server.bind].
    assert (A : Network.isIpAllowedByAllowlist e (x :: l) = true).
    { unfold Network.isIpAllowedByAllowlist. rewrite Hstable, Te.
      cbn [negb orb List.length Nat.eqb].
      apply existsb_exists. exists entry. split; [exact Hin|].
      rewrite NetworkFacts.entry_allows_exact by exact Hslash.
      fold e. rewrite Te, String.eqb_refl. reflexivity. }
    rewrite A. reflexivity.
Qed.

Lemma forwarded_header_passes_network_check_witness :
  Server.check_network (rt := Examples.node)
    (Policy.normalizeAttendancePolicy (rt := Examples.node)
       (Some (Examples.raw true false false true ["10.0.0.5"])) "in_person")
    (Server.getClientIpFromRequest
       {| Server.body_name := "Ada Lovelace";
          Server.body_email := "ada@uni.edu";
          Server.body_deviceFingerprint := "dev1";
          Server.body_sessionId := Examples.sid;
          Server.body_signatureDataUrl := EmptyString;
          Server.body_location := None;
          Server.header_x_forwarded_for := "::FFFF:10.0.0.5 , 198.51.100.7, 203.0.113.9";
          Server.req_ip := "203.0.113.9";
          Server.socket_remoteAddress := "203.0.113.9";
          Server.header_user_agent := "browser" |})
  = Server.Continue tt.
Proof.
  refine (proj2 (proj2 (forwarded_header_passes_network_check Examples.node _ _ "10.0.0.5"
                          "::FFFF:10.0.0.5 " (Some " 198.51.100.7, 203.0.113.9")
                          _ _ _) _ _ _ _ _ _)).
  - reflexivity.
  - discriminate.
  - reflexivity.
  - reflexivity.
  - left. reflexivity.
  - vm_compute. discriminate.
  - reflexivity.
  - reflexivity.
  - reflexivity.
Defined.

(** ** From issuance to the attendance record *)

(** X28.  An attendance record names the course it was issued for.  When
    generate-qr issues a fresh session (no cache entry is younger than
    90 s) and a submission carrying that session identifier is then
    accepted, the stored record belongs to the course the teacher asked
    for and to the teacher's institution, names the teacher as issuer,
    and was made no later than 90 s after the session's timestamp. *)
Theorem attendance_recorded_for_issuing_course :
  forall (rt : Builtins) (art : Auth.Runtime) (now : Z) (authorization : string)
         (users : list Auth.AuthUserDoc) (limited : bool)
         (scope : Institution.RequestScope) (courseId ip : string)
         (assignments : list Routes.AssignmentDoc) (d : QrGenerator.Draw)
         (w w' : Server.World) (r : QrGenerator.QrResult)
         (t : Server.Tick) (req : Server.Request) (a : Store.AttendanceDoc),
    Routes.generate_qr now authorization users limited scope courseId ip assignments d w
    = (Routes.QrIssued r, w') ->
    (forall key cached,
        QrGenerator.ipCache (Server.qr w) !! key = Some cached ->
        QrGenerator.CACHE_TIME <= QrGenerator.now_check d - QrGenerator.timestamp cached) ->
    Server.body_sessionId req = QrGenerator.sessionId r ->
    fst (Server.mark_attendance t req w') = Server.success_response a ->
    exists user,
      In user users /\
      Auth.au_role user = "teacher" /\
      Store.a_sessionId a = QrGenerator.sessionId r /\
      Store.a_courseId a = courseId /\
      Store.a_institutionId a = JsString.trim (Auth.au_institutionId user) /\
      Store.a_generatedBy a = QrGenerator.or_null (Auth.au_id user) /\
      Store.a_generatedByRole a = Some "teacher" /\
      Server.now t <= QrGenerator.now_stamp d + QrGenerator.QR_CODE_VALIDITY.
Proof.
  intros rt art now authorization users limited scope courseId ip assignments d w w' r
    t req a Hgen Hstale Hsid Hok.
  pose proof (AccessFacts.generate_qr_outcome rt art now authorization users limited scope
                courseId ip assignments d w w' (Routes.QrIssued r) Hgen) as H.
  cbn iota in H.
  destruct H as [user [payload [course [HA [HR [_ [Hne [_ [C2 [_ [_ [_ [HG _]]]]]]]]]]]]].
  assert (Huser : In user users).
  { exact (AccessFacts.requireAuth_user now authorization users user payload HA). }
  assert (Hissue : QrGenerator.issue ip
                     (Routes.issuance_context user
                        (JsString.trim (Auth.au_institutionId user)) course)
                     d (Server.qr w) = (Some r, Server.qr w')).
  { unfold QrGenerator.generateQRCode in HG.
    destruct (QrGenerator.ipCache (Server.qr w) !! _) as [cached|] eqn:K; [|exact HG].
    specialize (Hstale _ _ K).
    destruct (_ <? _) eqn:E; [apply Z.ltb_lt in E; lia|exact HG]. }
  destruct (StoreFacts.issue_Some _ _ _ _ _ _ Hissue) as [_ [_ [Hact _]]].
  assert (H200 : Server.res_status (fst (Server.mark_attendance t req w')) = 200)
    by (rewrite Hok; reflexivity).
  destruct (SubmissionFacts.mark_attendance_success t req w' H200)
    as [_ [p [session [courseId' [institutionId' [course' [student [users'
         [_ [Hs [Hlive [Hc [Hi [_ [Hpc [_ Hm]]]]]]]]]]]]]]]].
  rewrite Hm in Hok. cbn [fst] in Hok.
  assert (Ha : a = Server.plan_attendance p (Store.u_id student)).
  { unfold Server.success_response in Hok. inversion Hok. reflexivity. }
  apply PipelineFacts.policy_checks_Continue in Hpc. cbv zeta in Hpc.
  destruct Hpc as [distance [enrollment [_ [_ [_ [_ [_ Hp]]]]]]].
  subst p. cbn [Server.make_plan Server.plan_attendance] in Ha. subst a.
  cbn [Store.a_sessionId Store.a_courseId Store.a_institutionId Store.a_generatedBy
       Store.a_generatedByRole].
  rewrite Hsid, Hact, lookup_insert_eq in Hs. injection Hs as <-.
  cbn [QrGenerator.courseId QrGenerator.institutionId QrGenerator.expiresAt
       QrGenerator.generatedBy QrGenerator.generatedByRole Routes.issuance_context
       QrGenerator.ctx_courseId QrGenerator.ctx_institutionId QrGenerator.ctx_generatedBy
       QrGenerator.ctx_generatedByRole] in *.
  apply PipelineFacts.present_truthy in Hc, Hi.
  destruct Hc as [_ Hc]. destruct Hi as [_ Hi].
  unfold QrGenerator.or_null in Hc, Hi.
  destruct (JsString.truthy (Store.c_id course)); [|discriminate].
  destruct (JsString.truthy (JsString.trim (Auth.au_institutionId user))); [|discriminate].
  injection Hc as <-. injection Hi as <-.
  exists user. split; [exact Huser|]. split; [exact HR|]. split; [exact Hsid|].
  split; [exact C2|]. split; [reflexivity|]. split; [reflexivity|].
  split; [rewrite HR; reflexivity|exact Hlive].
Qed.

Lemma attendance_recorded_for_issuing_course_witness :
  exists a,
    fst (Server.mark_attendance (rt := Examples.node) (Examples.tick 2000 "u1")
           (Examples.submission "Ada Lovelace" "ada@uni.edu" "dev1" EmptyString)
           (snd (Routes.generate_qr (rt := Examples.node) (art := AccessExamples.runtime) 1000
                   AccessExamples.bearer [AccessExamples.teacher] false
                   AccessExamples.no_scope "course1" "10.0.0.9" [AccessExamples.assignment]
                   (Examples.draw 1000 Byte.xab) AccessExamples.quiet_classroom)))
    = Server.success_response a /\
    Store.a_courseId a = "course1".
Proof.
  eexists. split; [vm_compute; reflexivity|].
  assert (Hok : fst (Server.mark_attendance (rt := Examples.node) (Examples.tick 2000 "u1")
                       (Examples.submission "Ada Lovelace" "ada@uni.edu" "dev1" EmptyString)
                       (Examples.classroom (Examples.raw true false true false [])))
                = Server.success_response
                    (Server.plan_attendance
                       (Server.make_plan (rt := Examples.node) (Examples.tick 2000 "u1")
                          (Examples.submission "Ada Lovelace" "ada@uni.edu" "dev1"
                             EmptyString)
                          Examples.issued_record "course1" "inst1"
                          (Examples.course (Examples.raw true false true false []))
                          "in_person"
                          (Policy.normalizeAttendancePolicy (rt := Examples.node)
                             (Some (Examples.raw true false true false [])) "in_person")
                          None (Some Examples.ada)) "u1"))
    by (vm_compute; reflexivity).
  destruct (attendance_recorded_for_issuing_course Examples.node AccessExamples.runtime 1000
              AccessExamples.bearer [AccessExamples.teacher] false AccessExamples.no_scope
              "course1" "10.0.0.9" [AccessExamples.assignment] (Examples.draw 1000 Byte.xab)
              AccessExamples.quiet_classroom
              (Examples.classroom (Examples.raw true false true false [])) _
              (Examples.tick 2000 "u1")
              (Examples.submission "Ada Lovelace" "ada@uni.edu" "dev1" EmptyString) _
              eq_refl
              ltac:(intros key cached H; vm_compute in H; discriminate H)
              eq_refl Hok)
    as [user [_ [_ [_ [H _]]]]].
  exact H.
Defined.

(** ** What the routes store and what the schema accepts *)

(** X29.  The fields that the course routes normalise pass the
    validators of the Course schema: the days returned by
    normalizeDaysOfWeek are day codes without repetition, a time returned
    by normalizeTime is empty or matches HH:mm, and a delivery mode
    returned by the routes' normalizeDeliveryMode is one of the schema's
    enum. *)
Theorem normalised_course_fields_pass_schema :
  forall (input : Policy.RawList) (time mode : string),
    CourseRoutes.schema_daysOfWeek_valid (CourseRoutes.normalizeDaysOfWeek input) = true /\
    List.NoDup (CourseRoutes.normalizeDaysOfWeek input) /\
    (forall t, CourseRoutes.normalizeTime time = Some t ->
               CourseRoutes.schema_time_valid t = true) /\
    (forall m, CourseRoutes.normalizeDeliveryMode mode = inr m ->
               CourseRoutes.schema_deliveryMode_valid m = true).
Proof.
  intros input time mode. split; [|split; [|split]].
  - unfold CourseRoutes.schema_daysOfWeek_valid. apply forallb_forall. intros x Hx.
    destruct input as [| |days]; try (destruct Hx).
    cbn [CourseRoutes.normalizeDaysOfWeek] in Hx.
    apply AllowlistFacts.dedupe_In in Hx. destruct Hx as [Hx _].
    apply filter_In in Hx. exact (proj2 Hx).
  - destruct input as [| |days]; cbn [CourseRoutes.normalizeDaysOfWeek];
      [constructor|constructor|apply AllowlistFacts.dedupe_NoDup].
  - intros t H. unfold CourseRoutes.schema_time_valid.
    destruct (ScheduleFacts.normalizeTime_Some _ _ H) as [->|P]; [reflexivity|].
    rewrite P. apply orb_true_r.
  - intros m. unfold CourseRoutes.normalizeDeliveryMode, CourseRoutes.schema_deliveryMode_valid.
    destruct (JsString.truthy _); cbn [negb]; [|intros [= <-]; reflexivity].
    destruct (Policy.member _ Policy.COURSE_DELIVERY_MODES) eqn:M; cbn [negb];
      [|intros C; discriminate C].
    intros [= <-]. exact M.
Qed.

Lemma normalised_course_fields_pass_schema_witness :
  CourseRoutes.schema_time_valid "09:05" = true
  /\ CourseRoutes.schema_deliveryMode_valid "hybrid" = true.
Proof.
  pose proof (normalised_course_fields_pass_schema
                (Policy.LArray [" mon "; "MON"; "someday"; "wed"]) " 09:05 " " Hybrid ")
    as [_ [_ [T M]]].
  split; [apply T; reflexivity|apply M; reflexivity].
Defined.

(** X30.  The radius is the one field for which this fails.  When the
    geofence and the allowlist are not required, buildAttendancePolicy
    accepts every raw policy and passes the submitted radius on as it is,
    so a radius below 10 or above 100000 reaches the document although the
    schema's bounds on [geofence.radiusMeters] refuse it; when the geofence
    is required, an accepted radius is within the bounds. *)
Theorem unchecked_radius_reaches_schema :
  forall (rt : Builtins) (r : Policy.RawPolicy) (mode : string),
    Policy.normalizeBoolean (Policy.raw_requireIpAllowlist r) false = false ->
    Policy.normalizeBoolean (Policy.raw_requireGeofence r) false = false ->
    exists p,
      Policy.buildAttendancePolicy (Some r) mode None = inr p /\
      Policy.requireGeofence p = false /\
      Policy.radiusMeters (Policy.geofence p)
      = match Policy.toNullableNumber
                (Policy.raw_radiusMeters
                   (match Policy.raw_geofence r with
                    | Some g => g
                    | None => Policy.empty_geofence
                    end)) with
        | Some x => x
        | None => 120%Q
        end /\
      (forall x,
          Policy.toNullableNumber
            (Policy.raw_radiusMeters
               (match Policy.raw_geofence r with
                | Some g => g
                | None => Policy.empty_geofence
                end)) = Some x ->
          Qle_bool 10 x && Qle_bool x 100000 = false ->
          CourseRoutes.radius_validates p = false).
Proof.
  intros rt r mode Hi Hg.
  pose proof (PolicyFacts.build_creation_cases r mode) as Hb.
  assert (Hinc : Policy.inconsistent r = false).
  { unfold Policy.inconsistent. rewrite Hi, Hg. reflexivity. }
  rewrite Hinc in Hb. eexists. split; [exact Hb|].
  cbn [Policy.requireGeofence Policy.geofence Policy.radiusMeters].
  split; [exact Hg|]. split; [reflexivity|].
  intros x Hx Hout. unfold CourseRoutes.radius_validates.
  cbn [Policy.geofence Policy.radiusMeters]. rewrite Hx. exact Hout.
Qed.

Lemma unchecked_radius_reaches_schema_witness :
  exists p,
    Policy.buildAttendancePolicy (rt := Examples.node) (Some Scenarios.tiny_radius_policy)
      "in_person" None = inr p /\
    CourseRoutes.radius_validates p = false.
Proof.
  destruct (unchecked_radius_reaches_schema Examples.node Scenarios.tiny_radius_policy
              "in_person" eq_refl eq_refl) as [p [H [_ [_ V]]]].
  exists p. split; [exact H|]. apply (V 5%Q); reflexivity.
Defined.

